(** * Hdf5TomoSaver: a shallow embedding of savu/plugins/savers/hdf5_tomo_saver.py

    The saver creates one HDF5 backing file per output dataset, allocates the
    payload array, serialises axis labels, access patterns and the metadata
    dictionary, links the result into the NeXus master file and closes the
    backing file.  Every method threads two mutable objects: the experiment
    ([self.exp], with the files it can reach) and the dataset object [data].
    Python exceptions leave the mutations made so far in place, so the
    methods are modelled in a state monad that returns the state together
    with either a value or the exception raised.

    What is taken from h5py and from the rest of Savu, and how:
    - a file is the finite map from the paths of its objects to the objects;
      the names handed to h5py ([group_name], label names, pattern names,
      metadata keys) are single path components;
    - [create_group], [create_dataset] and [parent[name] = link] raise when
      the name is taken, [require_group] returns an existing group,
      attribute and data writes raise on an object that is not there, and
      every write raises on a handle opened with mode ['r'];
    - [h5py.File(name, 'w')] truncates, [h5py.File(name, 'r')] raises when
      the file does not exist; whether a handle has been closed is not
      recorded, the methods decide on [data.backing_file] alone;
    - [File.close()] may raise; the outcomes of the successive calls are
      part of the state ([close_faults]);
    - [x is 'final_result'], [x is 'intermediate'] and [x is 0] compare
      with interned constants and are equalities; [data.remove is True] is
      a test on a boolean;
    - the logging calls have no effect on the state and are left out;
    - the Data class lives in another module: the dataset object
      is a record of what the saver reads and writes on it, and the chunk
      planner ([Chunking._calculate_chunking]) is a parameter. *)

From Stdlib Require Import Ascii String.
From stdpp Require Import gmap strings list fin_maps.

Open Scope string_scope.
Open Scope list_scope.

(** ** Python values *)

(** The exceptions the saver and the h5py calls it makes can raise. *)
Inductive exn :=
  | KeyError
  | AttributeError
  | IndexError
  | TypeError
  | ValueError
  | RuntimeError
  | IOError
  | Exception (msg : string).

Inductive result (A : Type) :=
  | Ok (a : A)
  | Raise (e : exn).
Arguments Ok {A} a.
Arguments Raise {A} e.

(** A numpy array of integers: shape, dtype name and the elements in C order. *)
Record ndarray := {
  a_shape : list Z;
  a_dtype : string;
  a_elems : list Z
}.

(** The values a metadata dictionary holds: a bare integer, a plain Python
    list, or a numpy array. *)
Inductive pyval :=
  | PInt (z : Z)
  | PList (l : list Z)
  | PArray (a : ndarray).

(** [np.arange(n)] *)
Definition np_arange (n : Z) : ndarray :=
  {| a_shape := [Z.max 0 n];
     a_dtype := "int64";
     a_elems := Z.of_nat <$> seq 0 (Z.to_nat n) |}.

(** [np.array(l)] for a flat list (also what h5py makes of a tuple). *)
Definition np_array (l : list Z) : ndarray :=
  {| a_shape := [Z.of_nat (length l)];
     a_dtype := "int64";
     a_elems := l |}.

(** The array h5py stores for [create_dataset(name, data=v)]. *)
Definition np_asarray (v : pyval) : ndarray :=
  match v with
  | PInt z => {| a_shape := []; a_dtype := "int64"; a_elems := [z] |}
  | PList l => np_array l
  | PArray a => a
  end.

(** [s.split('/')[-1]]: the text after the last slash. *)
Fixpoint last_segment (acc s : string) : string :=
  match s with
  | EmptyString => acc
  | String c rest =>
      if Ascii.eqb c "/"%char then last_segment "" rest
      else last_segment (acc +:+ String c "") rest
  end.

Definition split_last (s : string) : string := last_segment "" s.

(** ** HDF5 files *)

(** Attribute values the saver writes. *)
Inductive attr :=
  | AStr (s : string)
  | AInt (z : Z)
  | AStrs (l : list string).

(** An object of a file.  A file is a finite map from the path of an object
    (the list of its name components below the root, the root being [[]])
    to the object; groups carry no child list, their members are the paths
    that extend theirs. *)
Inductive h5obj :=
  | H5Group (attrs : gmap string attr)
  | H5Dataset (attrs : gmap string attr) (shape : list Z) (dtype : string)
              (chunks : option (list Z)) (content : option (list Z))
  | H5ExternalLink (filename : string) (target : string).

Abbreviation h5path := (list string).
Abbreviation h5file := (gmap (list string) h5obj).

(** What [h5py.File(name, 'w')] leaves on disk: only the root group. *)
Definition new_file : h5file := {[ [] := H5Group ∅ ]}.

Inductive h5mode := ModeR | ModeW.

Global Instance h5mode_eq_dec : EqDecision h5mode.
Proof. solve_decision. Defined.

(** An open [h5py.File]: the file it names and the mode it reports. *)
Record file_handle := {
  fh_filename : string;
  fh_mode : h5mode
}.

(** A group or dataset object obtained from a file. [nh_path] is its [.name]. *)
Record node_handle := {
  nh_file : file_handle;
  nh_path : h5path
}.

(** [parent.create_group(name)] / [parent.create_dataset(name, ...)] on the
    contents of a file: the parent has to be a group and the name free. *)
Definition h5_create (parent : h5path) (name : string) (o : h5obj)
    (c : h5file) : result h5file :=
  match c !! parent with
  | Some (H5Group _) =>
      match c !! (parent ++ [name]) with
      | None => Ok (<[parent ++ [name] := o]> c)
      | Some _ => Raise ValueError
      end
  | _ => Raise ValueError
  end.

(** [parent.require_group(name)]: an existing group is returned as it is. *)
Definition h5_require (parent : h5path) (name : string)
    (c : h5file) : result h5file :=
  match c !! (parent ++ [name]) with
  | Some (H5Group _) => Ok c
  | Some _ => Raise TypeError
  | None => h5_create parent name (H5Group ∅) c
  end.

(** [obj.attrs[key] = v] *)
Definition h5_attr (p : h5path) (key : string) (v : attr)
    (c : h5file) : result h5file :=
  match c !! p with
  | Some (H5Group a) => Ok (<[p := H5Group (<[key := v]> a)]> c)
  | Some (H5Dataset a sh dt ch ct) =>
      Ok (<[p := H5Dataset (<[key := v]> a) sh dt ch ct]> c)
  | _ => Raise KeyError
  end.

(** [dset[...] = arr[...]] *)
Definition h5_assign (p : h5path) (arr : ndarray) (c : h5file) : result h5file :=
  match c !! p with
  | Some (H5Dataset a sh dt ch _) =>
      if decide (sh = a_shape arr)
      then Ok (<[p := H5Dataset a sh dt ch (Some (a_elems arr))]> c)
      else Raise TypeError
  | _ => Raise KeyError
  end.

(** ** The experiment and the dataset object *)

(** The collective operations of the saver; every h5py call that touches a
    file is recorded in the trace under the operation that issues it. *)
Inductive store_op :=
  | OpOpen
  | OpCreateGroup
  | OpCreateDataset
  | OpAxisLabels
  | OpDataPatterns
  | OpMetadataDict
  | OpLink
  | OpClose.

Global Instance store_op_eq_dec : EqDecision store_op.
Proof. solve_decision. Defined.

Inductive event :=
  | Barrier
  | Call (op : store_op).

Global Instance event_eq_dec : EqDecision event.
Proof. solve_decision. Defined.

(** [self.exp] together with the file system it works on.
    - [files]: contents of the HDF5 files on disk, by file name;
    - [trace]: the barrier and h5py calls issued so far, oldest first;
    - [close_faults]: how the coming calls of [File.close()] end, in order
      ([true]: the call raises); an exhausted list means success;
    - [mpi]: whether [exp.meta_data.get("mpi") is True];
    - [exp_group_name], [exp_filename]: the entries
      [exp.meta_data.get(["group_name", key])] and [["filename", key]];
    - [nxs_file]: the open master file [exp.nxs_file]. *)
Record Exp := {
  files : gmap string h5file;
  trace : list event;
  close_faults : list bool;
  mpi : bool;
  exp_group_name : gmap string string;
  exp_filename : gmap string string;
  nxs_file : file_handle
}.

(** [current_and_next]: the integer [0] when nothing is known about the
    access patterns, otherwise the hint handed to the chunk planner. *)
Inductive current_and_next_t :=
  | CNInt (z : Z)
  | CNHint (current next : string).

(** [current_and_next is 0] *)
Definition is_zero (cn : current_and_next_t) : bool :=
  match cn with
  | CNInt 0 => true
  | _ => false
  end.

Record pattern := {
  core_dir : list Z;
  slice_dir : list Z
}.

(** The dataset object handed to the saver.
    - [d_name]: the name, returned by [data.get_name()] and by
      [data.data_info.get('name')];
    - [d_has_name_attr]: whether the object also has a plain attribute
      [data.name] (reading an absent attribute raises AttributeError);
    - [d_shape], [d_dtype]: [data.get_shape()], [data.dtype];
    - [d_axis_labels]: [data_info.get("axis_labels")], one (label, units)
      entry per axis;
    - [d_patterns]: [data_info.get("data_patterns")];
    - [d_info_group_name]: the entry ['group_name'] of [data_info], once set;
    - [d_meta_data]: the dictionary behind [data.meta_data];
    - [d_backing_file], [d_group_name], [d_group], [d_data]: the attributes
      [backing_file], [group_name], [group] and [data]; [None] is Python's
      None for [backing_file], and an attribute not yet assigned otherwise;
    - [d_remove]: [data.remove]. *)
Record Data := {
  d_name : string;
  d_has_name_attr : bool;
  d_shape : list Z;
  d_dtype : string;
  d_axis_labels : list (string * string);
  d_patterns : gmap string pattern;
  d_info_group_name : option string;
  d_meta_data : gmap string pyval;
  d_backing_file : option file_handle;
  d_group_name : option string;
  d_group : option node_handle;
  d_data : option node_handle;
  d_remove : bool
}.

Record State := {
  exp : Exp;
  data : Data
}.

Definition set_files (f : gmap string h5file) (e : Exp) : Exp :=
  {| files := f; trace := trace e; close_faults := close_faults e;
     mpi := mpi e; exp_group_name := exp_group_name e;
     exp_filename := exp_filename e; nxs_file := nxs_file e |}.

Definition set_trace (t : list event) (e : Exp) : Exp :=
  {| files := files e; trace := t; close_faults := close_faults e;
     mpi := mpi e; exp_group_name := exp_group_name e;
     exp_filename := exp_filename e; nxs_file := nxs_file e |}.

Definition set_close_faults (l : list bool) (e : Exp) : Exp :=
  {| files := files e; trace := trace e; close_faults := l;
     mpi := mpi e; exp_group_name := exp_group_name e;
     exp_filename := exp_filename e; nxs_file := nxs_file e |}.

Definition set_info_group_name (g : option string) (d : Data) : Data :=
  {| d_name := d_name d; d_has_name_attr := d_has_name_attr d;
     d_shape := d_shape d; d_dtype := d_dtype d;
     d_axis_labels := d_axis_labels d; d_patterns := d_patterns d;
     d_info_group_name := g; d_meta_data := d_meta_data d;
     d_backing_file := d_backing_file d; d_group_name := d_group_name d;
     d_group := d_group d; d_data := d_data d; d_remove := d_remove d |}.

Definition set_backing_file (b : option file_handle) (d : Data) : Data :=
  {| d_name := d_name d; d_has_name_attr := d_has_name_attr d;
     d_shape := d_shape d; d_dtype := d_dtype d;
     d_axis_labels := d_axis_labels d; d_patterns := d_patterns d;
     d_info_group_name := d_info_group_name d; d_meta_data := d_meta_data d;
     d_backing_file := b; d_group_name := d_group_name d;
     d_group := d_group d; d_data := d_data d; d_remove := d_remove d |}.

Definition set_group (n : option string) (g : option node_handle) (d : Data) : Data :=
  {| d_name := d_name d; d_has_name_attr := d_has_name_attr d;
     d_shape := d_shape d; d_dtype := d_dtype d;
     d_axis_labels := d_axis_labels d; d_patterns := d_patterns d;
     d_info_group_name := d_info_group_name d; d_meta_data := d_meta_data d;
     d_backing_file := d_backing_file d; d_group_name := n;
     d_group := g; d_data := d_data d; d_remove := d_remove d |}.

Definition set_data (x : option node_handle) (d : Data) : Data :=
  {| d_name := d_name d; d_has_name_attr := d_has_name_attr d;
     d_shape := d_shape d; d_dtype := d_dtype d;
     d_axis_labels := d_axis_labels d; d_patterns := d_patterns d;
     d_info_group_name := d_info_group_name d; d_meta_data := d_meta_data d;
     d_backing_file := d_backing_file d; d_group_name := d_group_name d;
     d_group := d_group d; d_data := x; d_remove := d_remove d |}.

(** ** The monad: state, and a value or the exception raised *)

Definition M (A : Type) : Type := State → State * result A.

Global Instance M_ret : MRet M := λ A a st, (st, Ok a).

Global Instance M_bind : MBind M := λ A B f m st,
  match m st with
  | (st', Ok a) => f a st'
  | (st', Raise e) => (st', Raise e)
  end.

Definition raise {A} (e : exn) : M A := λ st, (st, Raise e).

(** [try: body  except: handler] with a bare [except]. *)
Definition try_except {A} (body : M A) (handler : M A) : M A := λ st,
  match body st with
  | (st', Ok a) => (st', Ok a)
  | (st', Raise _) => handler st'
  end.

Definition get_exp : M Exp := λ st, (st, Ok (exp st)).
Definition get_data : M Data := λ st, (st, Ok (data st)).

Definition modify_exp (f : Exp → Exp) : M unit := λ st,
  ({| exp := f (exp st); data := data st |}, Ok tt).

Definition modify_data (f : Data → Data) : M unit := λ st,
  ({| exp := exp st; data := f (data st) |}, Ok tt).

(** Reading an attribute or dictionary entry that may be missing. *)
Definition from_option {A} (e : exn) (o : option A) : M A :=
  match o with
  | Some a => mret a
  | None => raise e
  end.

Definition from_result {A} (r : result A) : M A :=
  match r with
  | Ok a => mret a
  | Raise e => raise e
  end.

Definition emit (ev : event) : M unit :=
  modify_exp (λ e, set_trace (trace e ++ [ev]) e).

(** [self.exp._barrier()] *)
Definition _barrier : M unit := emit Barrier.

(** ** h5py calls *)

(** A call that changes the contents of the file behind an open handle.
    The call is recorded first; it raises on a handle opened read-only, on a
    file that is not on disk, and whenever the change itself is refused. *)
Definition h5_call (op : store_op) (h : file_handle)
    (change : h5file → result h5file) : M unit :=
  emit (Call op);;
  (if decide (fh_mode h = ModeR) then raise IOError else mret tt);;
  e ← get_exp;
  c ← from_option IOError (files e !! fh_filename h);
  c' ← from_result (change c);
  modify_exp (set_files (<[fh_filename h := c']> (files e))).

(** [h5py.File(filename, mode)], also with [driver='mpio']: mode ['w']
    creates the file or truncates an existing one, mode ['r'] needs the file
    to exist.  h5py returns a handle or raises. *)
Definition h5py_File (filename : string) (mode : h5mode) : M (option file_handle) :=
  emit (Call OpOpen);;
  e ← get_exp;
  match mode with
  | ModeW =>
      modify_exp (set_files (<[filename := new_file]> (files e)));;
      mret (Some {| fh_filename := filename; fh_mode := ModeW |})
  | ModeR =>
      match files e !! filename with
      | Some _ => mret (Some {| fh_filename := filename; fh_mode := ModeR |})
      | None => raise IOError
      end
  end.

(** [handle.close()]: ends as the next entry of [close_faults] says. *)
Definition h5_close (h : file_handle) : M unit :=
  emit (Call OpClose);;
  e ← get_exp;
  match close_faults e with
  | true :: rest => modify_exp (set_close_faults rest);; raise IOError
  | false :: rest => modify_exp (set_close_faults rest)
  | [] => mret tt
  end.

(** The root group of an open file. *)
Definition root (h : file_handle) : node_handle :=
  {| nh_file := h; nh_path := [] |}.

Definition child (parent : node_handle) (name : string) : node_handle :=
  {| nh_file := nh_file parent; nh_path := nh_path parent ++ [name] |}.

(** [file[path]]: a lookup, no change and no collective call. *)
Definition h5_getitem (h : file_handle) (p : h5path) : M node_handle :=
  e ← get_exp;
  c ← from_option IOError (files e !! fh_filename h);
  match c !! p with
  | Some _ => mret {| nh_file := h; nh_path := p |}
  | None => raise KeyError
  end.

Definition create_group (op : store_op) (parent : node_handle)
    (name : string) : M node_handle :=
  h5_call op (nh_file parent) (h5_create (nh_path parent) name (H5Group ∅));;
  mret (child parent name).

Definition require_group (op : store_op) (parent : node_handle)
    (name : string) : M node_handle :=
  h5_call op (nh_file parent) (h5_require (nh_path parent) name);;
  mret (child parent name).

Definition create_dataset (op : store_op) (parent : node_handle) (name : string)
    (shape : list Z) (dtype : string) (chunks : option (list Z))
    (content : option (list Z)) : M node_handle :=
  h5_call op (nh_file parent)
    (h5_create (nh_path parent) name (H5Dataset ∅ shape dtype chunks content));;
  mret (child parent name).

(** [parent.create_dataset(name, data=v)] *)
Definition create_dataset_from (op : store_op) (parent : node_handle)
    (name : string) (v : pyval) : M node_handle :=
  let arr := np_asarray v in
  create_dataset op parent name (a_shape arr) (a_dtype arr) None
    (Some (a_elems arr)).

Definition set_attr (op : store_op) (n : node_handle) (key : string)
    (v : attr) : M unit :=
  h5_call op (nh_file n) (h5_attr (nh_path n) key v).

Definition assign (op : store_op) (n : node_handle) (arr : ndarray) : M unit :=
  h5_call op (nh_file n) (h5_assign (nh_path n) arr).

(** [parent[name] = h5py.ExternalLink(filename, target)] *)
Definition set_link (op : store_op) (parent : node_handle) (name : string)
    (filename target : string) : M unit :=
  h5_call op (nh_file parent)
    (h5_create (nh_path parent) name (H5ExternalLink filename target)).

Definition NX_CLASS : string := "NX_class".

(** ** The methods of Hdf5TomoSaver *)

Section Hdf5TomoSaver.

(** [Chunking(self.exp, current_and_next)._calculate_chunking(shape, dtype)]:
    the chunk planner is code of another module. *)
Variable _calculate_chunking :
  current_and_next_t → list Z → string → list Z.

Definition __open_backing_h5 (filename : string) (mode : h5mode) : M file_handle :=
  _barrier;;
  e ← get_exp;
  backing_file ←
    (if mpi e then h5py_File filename ModeW else h5py_File filename mode);
  _barrier;;
  match backing_file with
  | None => raise IOError
  | Some h => mret h
  end.

Definition __create_entries (key : string)
    (current_and_next : current_and_next_t) : M (string * node_handle) :=
  _barrier;;
  expInfo ← get_exp;
  group_name ← from_option KeyError (exp_group_name expInfo !! key);
  modify_data (set_info_group_name (Some group_name));;
  d ← get_data;
  let group_name :=
    if d_has_name_attr d then group_name +:+ "_" +:+ d_name d else group_name in
  backing_file ← from_option AttributeError (d_backing_file d);
  group ← create_group OpCreateGroup (root backing_file) group_name;
  set_attr OpCreateGroup group NX_CLASS (AStr "NXdata");;
  set_attr OpCreateGroup group "signal" (AStr "data");;
  _barrier;;
  let shape := d_shape d in
  (if is_zero current_and_next then
     dset ← create_dataset OpCreateDataset group "data" shape (d_dtype d) None None;
     modify_data (set_data (Some dset))
   else
     _barrier;;
     let chunks := _calculate_chunking current_and_next shape (d_dtype d) in
     _barrier;;
     dset ← create_dataset OpCreateDataset group "data" shape (d_dtype d)
              (Some chunks) None;
     modify_data (set_data (Some dset)));;
  _barrier;;
  mret (group_name, group).

(** The body of the loop of [__output_axis_labels]; [count] and [axes] are
    the loop's two accumulators. *)
Fixpoint axis_labels_loop (entry : node_handle) (axis_labels : list (string * string))
    (count : nat) (axes : list string) : M (list string) :=
  match axis_labels with
  | [] => mret axes
  | (name, units) :: rest =>
      set_attr OpAxisLabels entry (name +:+ "_indices") (AInt (Z.of_nat count));;
      d ← get_data;
      mData ←
        match d_meta_data d !! name with
        | Some v => mret v
        | None =>
            n ← from_option IndexError (d_shape d !! count);
            mret (PArray (np_arange n))
        end;
      let mData := match mData with PList l => PArray (np_array l) | v => v end in
      arr ← match mData with
            | PArray a => mret a
            | _ => raise AttributeError
            end;
      group ← from_option AttributeError (d_group d);
      temp ← create_dataset OpAxisLabels group name (a_shape arr) (a_dtype arr)
               None None;
      assign OpAxisLabels temp arr;;
      set_attr OpAxisLabels temp "units" (AStr units);;
      axis_labels_loop entry rest (S count) (axes ++ [name])
  end.

Definition __output_axis_labels (entry : node_handle) : M unit :=
  _barrier;;
  d ← get_data;
  axes ← axis_labels_loop entry (d_axis_labels d) 0 [];
  set_attr OpAxisLabels entry "axes" (AStrs axes);;
  _barrier.

Fixpoint data_patterns_loop (entry : node_handle)
    (data_patterns : list (string * pattern)) : M unit :=
  match data_patterns with
  | [] => mret tt
  | (pattern, values) :: rest =>
      nx_data ← create_group OpDataPatterns entry pattern;
      set_attr OpDataPatterns nx_data NX_CLASS (AStr "NXparameters");;
      create_dataset_from OpDataPatterns nx_data "core_dir"
        (PList (core_dir values));;
      create_dataset_from OpDataPatterns nx_data "slice_dir"
        (PList (slice_dir values));;
      data_patterns_loop entry rest
  end.

Definition __output_data_patterns (entry : node_handle) : M unit :=
  _barrier;;
  d ← get_data;
  entry ← create_group OpDataPatterns entry "patterns";
  set_attr OpDataPatterns entry "NX_class" (AStr "NXcollection");;
  data_patterns_loop entry (map_to_list (d_patterns d));;
  _barrier.

Fixpoint metadata_dict_loop (entry : node_handle)
    (meta_data : list (string * pyval)) : M unit :=
  match meta_data with
  | [] => mret tt
  | (mData, value) :: rest =>
      nx_data ← create_group OpMetadataDict entry mData;
      set_attr OpMetadataDict nx_data NX_CLASS (AStr "NXdata");;
      create_dataset_from OpMetadataDict nx_data mData value;;
      metadata_dict_loop entry rest
  end.

Definition __output_metadata_dict (entry : node_handle) : M unit :=
  _barrier;;
  d ← get_data;
  entry ← create_group OpMetadataDict entry "meta_data";
  set_attr OpMetadataDict entry "NX_class" (AStr "NXcollection");;
  metadata_dict_loop entry (map_to_list (d_meta_data d));;
  _barrier.

Definition __output_metadata (entry : node_handle) : M unit :=
  __output_axis_labels entry;;
  __output_data_patterns entry;;
  __output_metadata_dict entry.

Definition _close_file : M unit :=
  _barrier;;
  d ← get_data;
  match d_backing_file d with
  | Some backing_file =>
      try_except
        (h5_close backing_file;;
         modify_data (set_backing_file None))
        (mret tt)
  | None => mret tt
  end;;
  _barrier.

Definition unknown_link : exn := Exception "The link type is not known".

Definition __add_data_links (linkType : string) : M unit :=
  _barrier;;
  e ← get_exp;
  entry ← h5_getitem (nxs_file e) ["entry"];
  d ← get_data;
  group_name ← from_option KeyError (d_info_group_name d);
  backing_file ← from_option TypeError (d_backing_file d);
  target ← h5_getitem backing_file [group_name];
  __output_metadata target;;
  d ← get_data;
  backing_file ← from_option AttributeError (d_backing_file d);
  let filename := split_last (fh_filename backing_file) in
  (if decide (linkType = "final_result") then
     let name := "final_result_" +:+ d_name d in
     data_group_name ← from_option AttributeError (d_group_name d);
     set_link OpLink entry name filename data_group_name
   else if decide (linkType = "intermediate") then
     data_group_name ← from_option AttributeError (d_group_name d);
     let name := data_group_name +:+ "_" +:+ d_name d in
     entry ← require_group OpLink entry "intermediate";
     set_attr OpLink entry "NX_class" (AStr "NXcollection");;
     data_group_name ← from_option AttributeError (d_group_name d);
     set_link OpLink entry name filename data_group_name
   else raise unknown_link);;
  _barrier.

Definition _save_data (link_type : option string) : M (option (h5path * string)) :=
  _barrier;;
  d ← get_data;
  skip ←
    (if d_remove d then mret true
     else
       backing_file ← from_option AttributeError (d_backing_file d);
       mret (bool_decide (fh_mode backing_file = ModeR)));
  let link_type := if skip : bool then None else link_type in
  match link_type with
  | None => _close_file;; mret None
  | Some link_type =>
      __add_data_links link_type;;
      d ← get_data;
      backing_file ← from_option AttributeError (d_backing_file d);
      let filename := fh_filename backing_file in
      dset ← from_option AttributeError (d_data d);
      let entry := nh_path dset in
      _close_file;;
      _barrier;;
      mret (Some (entry, filename))
  end.

Definition _open_read_only (filename : string) (entry : h5path) : M unit :=
  backing_file ← __open_backing_h5 filename ModeR;
  modify_data (set_backing_file (Some backing_file));;
  dset ← h5_getitem backing_file entry;
  modify_data (set_data (Some dset));;
  _barrier.

(** The body of the loop of [setup] for the output dataset registered under
    [key]. *)
Definition setup_dataset (key : string)
    (current_and_next : current_and_next_t) : M unit :=
  e ← get_exp;
  filename ← from_option KeyError (exp_filename e !! key);
  backing_file ← __open_backing_h5 filename ModeW;
  modify_data (set_backing_file (Some backing_file));;
  '(group_name, group) ← __create_entries key current_and_next;
  modify_data (set_group (Some group_name) (Some group)).

End Hdf5TomoSaver.

(** ** Running a method *)

Definition is_ok {A} (r : result A) : bool :=
  match r with
  | Ok _ => true
  | Raise _ => false
  end.

(** The contents of the object at [p] in the file named [fn]. *)
Definition h5_lookup (e : Exp) (fn : string) (p : h5path) : option h5obj :=
  files e !! fn ≫= λ c, c !! p.

(** Equality of two states up to the trace of calls. *)
Definition same_but_trace (s1 s2 : State) : Prop :=
  data s1 = data s2 ∧ files (exp s1) = files (exp s2) ∧
  close_faults (exp s1) = close_faults (exp s2) ∧
  mpi (exp s1) = mpi (exp s2) ∧
  exp_group_name (exp s1) = exp_group_name (exp s2) ∧
  exp_filename (exp s1) = exp_filename (exp s2) ∧
  nxs_file (exp s1) = nxs_file (exp s2).

(** The attributes of an object (a link has none). *)
Definition attrs_of (o : h5obj) : gmap string attr :=
  match o with
  | H5Group a => a
  | H5Dataset a _ _ _ _ => a
  | H5ExternalLink _ _ => ∅
  end.

(** The object an attribute was set on, with the attribute in place. *)
Definition with_attr (key : string) (v : attr) (o : h5obj) : h5obj :=
  match o with
  | H5Group a => H5Group (<[key := v]> a)
  | H5Dataset a sh dt ch ct => H5Dataset (<[key := v]> a) sh dt ch ct
  | H5ExternalLink fn tgt => H5ExternalLink fn tgt
  end.

(** The label array the specification asks for on axis [i], labelled
    [name]: the metadata value of that name when there is one, a plain list
    turned into an array, and otherwise the indices 0 .. extent-1 of the
    axis.  A metadata value that is not array-like gives no label array. *)
Definition label_array (d : Data) (i : nat) (name : string) : option ndarray :=
  match d_meta_data d !! name with
  | Some (PList l) => Some (np_array l)
  | Some (PArray a) => Some a
  | Some (PInt _) => None
  | None => np_arange <$> d_shape d !! i
  end.

(** Whether the next call of [File.close()] raises. *)
Definition next_close_raises (e : Exp) : bool :=
  match close_faults e with
  | true :: _ => true
  | _ => false
  end.

(** The events a method adds to the trace of [st]. *)
Definition issued {A} (m : M A) (st : State) : list event :=
  drop (length (trace (exp st))) (trace (exp (m st).1)).

(** ** The barrier protocol *)

(** Where a process stands between barriers: nothing issued yet, just past
    a barrier, or inside the calls of one collective operation. *)
Inductive phase :=
  | Fresh
  | Idle
  | Busy (op : store_op).

(** Opening, allocating the payload array and closing are one h5py call
    each; the other operations issue several calls in a row. *)
Definition single_call (op : store_op) : bool :=
  match op with
  | OpOpen | OpCreateDataset | OpClose => true
  | _ => false
  end.

(** One step of the protocol: a collective call is accepted right after a
    barrier, or after a call of the same multi-call operation. *)
Definition phase_step (p : phase) (ev : event) : option phase :=
  match ev, p with
  | Barrier, _ => Some Idle
  | Call op, Idle => Some (Busy op)
  | Call op, Busy op' =>
      if bool_decide (op = op') && negb (single_call op) then Some (Busy op)
      else None
  | Call _, Fresh => None
  end.

Fixpoint scan (p : phase) (tr : list event) : option phase :=
  match tr with
  | [] => Some p
  | ev :: rest =>
      match phase_step p ev with
      | Some q => scan q rest
      | None => None
      end
  end.

(** A trace in which every collective operation starts right after a
    barrier and is followed by one. *)
Definition bracketed (tr : list event) : Prop := scan Fresh tr = Some Idle.

(** A trace in which every collective operation issued so far started right
    after a barrier (the last one may still be going on). *)
Definition preceded (tr : list event) : Prop := is_Some (scan Fresh tr).

(** The same protocol, read off the trace.  The call at position [i]
    belongs to a run of calls of the one operation [op] that starts right
    after a barrier and ends right before one; an operation made of a
    single call has the two barriers as its neighbours. *)
Definition barrier_before (tr : list event) (i : nat) (op : store_op) : Prop :=
  ∃ j, j < i ∧ tr !! j = Some Barrier ∧
       (∀ l, j < l < i → tr !! l = Some (Call op)) ∧
       (single_call op = true → i = S j).

Definition barrier_after (tr : list event) (i : nat) (op : store_op) : Prop :=
  ∃ k, i < k ∧ tr !! k = Some Barrier ∧
       (∀ l, i < l < k → tr !! l = Some (Call op)) ∧
       (single_call op = true → k = S i).

(** What the saver promises for a method [m]: whatever the state, the calls
    [m] issues each come after a barrier, and when [m] returns each is
    followed by one as well. *)
Definition follows_protocol {A} (m : M A) : Prop :=
  ∀ st, ∃ evs,
    trace (exp (m st).1) = trace (exp st) ++ evs ∧
    (∀ i op, evs !! i = Some (Call op) → barrier_before evs i op) ∧
    (is_ok (m st).2 = true →
     ∀ i op, evs !! i = Some (Call op) → barrier_after evs i op).

(** ** A run of FindPeaks

    The output dataset of savu/plugins/filters/find_peaks.py: two axes
    labelled frames.index and position.idx, the patterns CHANNEL and
    SPECTRUM, saved to run42.h5 and linked into the master file savu.nxs. *)
Module Example.

Definition plan (cn : current_and_next_t) (shape : list Z) (dtype : string) : list Z :=
  (λ _, 1%Z) <$> shape.

Definition nxs : file_handle :=
  {| fh_filename := "savu.nxs"; fh_mode := ModeW |}.

Definition peaks : Data :=
  {| d_name := "Peaks";
     d_has_name_attr := false;
     d_shape := [3; 4]%Z;
     d_dtype := "float64";
     d_axis_labels := [("frames", "index"); ("position", "idx")];
     d_patterns :=
       {[ "CHANNEL" := {| core_dir := [0%Z]; slice_dir := [1%Z] |};
          "SPECTRUM" := {| core_dir := [1%Z]; slice_dir := [0%Z] |} ]};
     d_info_group_name := None;
     d_meta_data := {[ "position" := PList [10; 20; 30; 40]%Z ]};
     d_backing_file := None;
     d_group_name := None;
     d_group := None;
     d_data := None;
     d_remove := false |}.

Definition experiment (is_mpi : bool) (faults : list bool) : Exp :=
  {| files := {[ "savu.nxs" := <[ ["entry"] := H5Group ∅ ]> new_file ]};
     trace := [];
     close_faults := faults;
     mpi := is_mpi;
     exp_group_name := {[ "Peaks" := "1-FindPeaks" ]};
     exp_filename := {[ "Peaks" := "/scratch/run42.h5" ]};
     nxs_file := nxs |}.

Definition start (is_mpi : bool) (faults : list bool) : State :=
  {| exp := experiment is_mpi faults; data := peaks |}.

(** The state after [setup] has created the backing file. *)
Definition ready (is_mpi : bool) (faults : list bool) : State :=
  (setup_dataset plan "Peaks" (CNInt 0) (start is_mpi faults)).1.

(** The state in the middle of [setup]: the backing file is open, the group
    is still to be created. *)
Definition opened : State :=
  ((backing_file ← __open_backing_h5 "/scratch/run42.h5" ModeW;
    modify_data (set_backing_file (Some backing_file))) (start false [])).1.

Definition run42 : file_handle :=
  {| fh_filename := "/scratch/run42.h5"; fh_mode := ModeW |}.

(** The group of the dataset in the backing file. *)
Definition peaks_group : node_handle :=
  {| nh_file := run42; nh_path := ["1-FindPeaks"] |}.

(** [ready false []], computed. *)
Definition created : State := Eval vm_compute in ready false [].

End Example.

(** * Assertions on runs *)

(** ** A Hoare logic for the monad

    [hoare P m Q E]: from a state in [P], [m] ends in [Q] when it returns
    and in [E] when it raises. *)
Definition hoare {A} (P : State → Prop) (m : M A)
    (Q : A → State → Prop) (E : exn → State → Prop) : Prop :=
  ∀ st, P st →
    match m st with
    | (st', Ok a) => Q a st'
    | (st', Raise e) => E e st'
    end.

(** [preserves I m]: [I] holds after [m], however [m] ends. *)
Definition preserves {A} (I : State → Prop) (m : M A) : Prop :=
  hoare I m (λ _, I) (λ _, I).

(** [returns I m V]: [m] keeps the invariant [I], and a value it returns is
    in [V]. *)
Definition returns {A} (I : State → Prop) (m : M A) (V : A → Prop) : Prop :=
  hoare I m (λ a st, I st ∧ V a) (λ _, I).

(** An invariant that only reads the dataset object. *)
Definition data_only (I : State → Prop) : Prop :=
  ∀ e e' d, I {| exp := e; data := d |} → I {| exp := e'; data := d |}.

(** The dataset object is [d0], and the file named [fn] has the contents
    [F0] (or is absent). *)
Definition untouched (d0 : Data) (fn : string) (F0 : option h5file)
    (st : State) : Prop :=
  data st = d0 ∧ files (exp st) !! fn = F0.

(** The events issued since the trace was [t0] follow the protocol and
    leave the process in a phase of [S]. *)
Definition at_phase (t0 : list event) (S : phase → Prop) (st : State) : Prop :=
  ∃ evs p, trace (exp st) = t0 ++ evs ∧ scan Fresh evs = Some p ∧ S p.

(** [phased t0 P m Q]: started in a phase of [P], [m] follows the protocol
    also when it raises, and returns in a phase of [Q]. *)
Definition phased {A} (t0 : list event) (P : phase → Prop) (m : M A)
    (Q : phase → Prop) : Prop :=
  hoare (at_phase t0 P) m (λ _, at_phase t0 Q) (λ _, at_phase t0 (λ _, True)).

Definition any_phase : phase → Prop := λ _, True.

(** The phases from which a call of [op] may be issued. *)
Definition callable (op : store_op) (p : phase) : Prop :=
  phase_step p (Call op) = Some (Busy op).

(** Past a barrier, or inside the calls of [op]. *)
Definition within (op : store_op) (p : phase) : Prop := p = Idle ∨ p = Busy op.

(** The state a method is in after its first barrier. *)
Definition after_barrier (st : State) : State :=
  {| exp := set_trace (trace (exp st) ++ [Barrier]) (exp st); data := data st |}.

(** The same state with [data.remove] set. *)
Definition removed (st : State) : State :=
  {| exp := exp st;
     data :=
       {| d_name := d_name (data st); d_has_name_attr := d_has_name_attr (data st);
          d_shape := d_shape (data st); d_dtype := d_dtype (data st);
          d_axis_labels := d_axis_labels (data st);
          d_patterns := d_patterns (data st);
          d_info_group_name := d_info_group_name (data st);
          d_meta_data := d_meta_data (data st);
          d_backing_file := d_backing_file (data st);
          d_group_name := d_group_name (data st);
          d_group := d_group (data st); d_data := d_data (data st);
          d_remove := true |} |}.

(** The position of an object: the file it is in and its path there. *)
Definition at_node (n : node_handle) : string * h5path :=
  (fh_filename (nh_file n), nh_path n).

(** ** What the writes leave in the files *)

(** Every object of [st] is in [st'] as it was. *)
Definition keeps (st st' : State) : Prop :=
  ∀ f p, is_Some (h5_lookup (exp st) f p) →
         h5_lookup (exp st') f p = h5_lookup (exp st) f p.

(** Every object of [st] other than the one at [n] is in [st'] as it was. *)
Definition keeps_but (n : string * h5path) (st st' : State) : Prop :=
  ∀ f p, (f, p) ≠ n → is_Some (h5_lookup (exp st) f p) →
         h5_lookup (exp st') f p = h5_lookup (exp st) f p.

(** Every object of [st] is still in [st'], changed or not. *)
Definition grows (st st' : State) : Prop :=
  ∀ f p, is_Some (h5_lookup (exp st) f p) → is_Some (h5_lookup (exp st') f p).

(** The dataset [create_dataset(name, data=v)] creates. *)
Definition stored_value (v : pyval) : h5obj :=
  H5Dataset ∅ (a_shape (np_asarray v)) (a_dtype (np_asarray v)) None
    (Some (a_elems (np_asarray v))).

(** A group with the one attribute NX_class. *)
Definition nx_group (class : string) : h5obj :=
  H5Group {[ NX_CLASS := AStr class ]}.

(** The label arrays of [d] are in the files of [e]. *)
Definition labels_stored (d : Data) (e : Exp) : Prop :=
  ∀ i name units, d_axis_labels d !! i = Some (name, units) →
    ∃ group arr,
      d_group d = Some group ∧
      label_array d i name = Some arr ∧
      h5_lookup e (fh_filename (nh_file group)) (nh_path group ++ [name]) =
        Some (H5Dataset {[ "units" := AStr units ]} (a_shape arr) (a_dtype arr)
                None (Some (a_elems arr))).

(** The patterns of [d] are in the files of [e], below [entry]. *)
Definition patterns_stored (d : Data) (entry : node_handle) (e : Exp) : Prop :=
  h5_lookup e (fh_filename (nh_file entry)) (nh_path entry ++ ["patterns"]) =
    Some (nx_group "NXcollection") ∧
  ∀ name values, d_patterns d !! name = Some values →
    h5_lookup e (fh_filename (nh_file entry))
      (nh_path entry ++ ["patterns"; name]) = Some (nx_group "NXparameters") ∧
    h5_lookup e (fh_filename (nh_file entry))
      (nh_path entry ++ ["patterns"; name; "core_dir"]) =
      Some (stored_value (PList (core_dir values))) ∧
    h5_lookup e (fh_filename (nh_file entry))
      (nh_path entry ++ ["patterns"; name; "slice_dir"]) =
      Some (stored_value (PList (slice_dir values))).

(** The metadata dictionary of [d] is in the files of [e], below [entry]. *)
Definition dict_stored (d : Data) (entry : node_handle) (e : Exp) : Prop :=
  h5_lookup e (fh_filename (nh_file entry)) (nh_path entry ++ ["meta_data"]) =
    Some (nx_group "NXcollection") ∧
  ∀ key value, d_meta_data d !! key = Some value →
    h5_lookup e (fh_filename (nh_file entry))
      (nh_path entry ++ ["meta_data"; key]) = Some (nx_group "NXdata") ∧
    h5_lookup e (fh_filename (nh_file entry))
      (nh_path entry ++ ["meta_data"; key; key]) = Some (stored_value value).

(** The group [__create_entries] leaves for a dataset: tagged NXdata, with
    the signal named data. *)
Definition signal_group : h5obj :=
  H5Group (<["signal" := AStr "data"]> {[ NX_CLASS := AStr "NXdata" ]}).

(** Whether [s] has a slash in it. *)
Fixpoint has_slash (s : string) : bool :=
  match s with
  | EmptyString => false
  | String c rest => Ascii.eqb c "/"%char || has_slash rest
  end.

(** What the experiment is configured with: the MPI flag, the registered
    group and file names, and the master file. *)
Definition settings (e : Exp) :
    bool * gmap string string * gmap string string * file_handle :=
  (mpi e, exp_group_name e, exp_filename e, nxs_file e).

(** The same dataset object with a plain attribute [name]. *)
Definition named (d : Data) : Data :=
  {| d_name := d_name d; d_has_name_attr := true;
     d_shape := d_shape d; d_dtype := d_dtype d;
     d_axis_labels := d_axis_labels d; d_patterns := d_patterns d;
     d_info_group_name := d_info_group_name d; d_meta_data := d_meta_data d;
     d_backing_file := d_backing_file d; d_group_name := d_group_name d;
     d_group := d_group d; d_data := d_data d; d_remove := d_remove d |}.

(** ** [setup], over all the output datasets *)

Section Setup.

Variable _calculate_chunking :
  current_and_next_t → list Z → string → list Z.

(** The body of the loop of [setup], with [current_and_next[count]] read
    where the loop reads it: after the backing file has been opened. *)
Definition setup_body (key : string)
    (current_and_next : list current_and_next_t) (count : nat) : M unit :=
  e ← get_exp;
  filename ← from_option KeyError (exp_filename e !! key);
  backing_file ← __open_backing_h5 filename ModeW;
  modify_data (set_backing_file (Some backing_file));;
  cn ← from_option IndexError (current_and_next !! count);
  '(group_name, group) ← __create_entries _calculate_chunking key cn;
  modify_data (set_group (Some group_name) (Some group)).

(** The loop: [out_data] is [exp.index["out_data"]] in the order of its
    keys.  Each dataset object is taken in turn, changed by the loop body
    and left in the dictionary; an exception ends the loop. *)
Fixpoint setup_loop (out_data : list (string * Data))
    (current_and_next : list current_and_next_t) (count : nat) (e : Exp) :
    Exp * list (string * Data) * result unit :=
  match out_data with
  | [] => (e, [], Ok tt)
  | (key, d) :: rest =>
      match setup_body key current_and_next count {| exp := e; data := d |} with
      | (st, Ok _) =>
          let '(e', rest', r) :=
            setup_loop rest current_and_next (S count) (exp st) in
          (e', (key, data st) :: rest', r)
      | (st, Raise x) => (exp st, (key, data st) :: rest, Raise x)
      end
  end.

(** [setup]: [registered] is the entry ['current_and_next'] of the
    experiment's metadata when there is one. *)
Definition setup (registered : option (list current_and_next_t))
    (out_data : list (string * Data)) (e : Exp) :
    Exp * list (string * Data) * result unit :=
  let current_and_next :=
    match registered with
    | Some l => l
    | None => replicate (length out_data) (CNInt 0)
    end in
  setup_loop out_data current_and_next 0 e.

(** What [setup] leaves at path [p] of the file of a dataset. *)
Definition dataset_layout (cn : current_and_next_t) (group_name : string)
    (d : Data) (p : h5path) : option h5obj :=
  let name := if d_has_name_attr d then group_name +:+ "_" +:+ d_name d
              else group_name in
  if decide (p = []) then Some (H5Group ∅)
  else if decide (p = [name]) then Some signal_group
  else if decide (p = [name; "data"]) then
    Some (H5Dataset ∅ (d_shape d) (d_dtype d)
            (if is_zero cn then None
             else Some (_calculate_chunking cn (d_shape d) (d_dtype d))) None)
  else None.

End Setup.

(** The dataset object after [setup]. *)
Definition dataset_handles (filename group_name : string) (d : Data) : Data :=
  let name := if d_has_name_attr d then group_name +:+ "_" +:+ d_name d
              else group_name in
  let backing_file := {| fh_filename := filename; fh_mode := ModeW |} in
  let group := {| nh_file := backing_file; nh_path := [name] |} in
  set_group (Some name) (Some group)
    (set_data (Some (child group "data"))
       (set_info_group_name (Some group_name)
          (set_backing_file (Some backing_file) d))).

(** The files the keys of [out_data] are registered with. *)
Definition backing_files (e : Exp) (out_data : list (string * Data)) : list string :=
  omap (λ kd, exp_filename e !! kd.1) out_data.

(** ** A run with two output datasets

    Two keys with a file name and a group name each, and a third key,
    Orphan, that has a file name and no group name. *)
Module TwoOutputs.

Definition fit : Data :=
  {| d_name := "Fit";
     d_has_name_attr := false;
     d_shape := [3]%Z;
     d_dtype := "float32";
     d_axis_labels := [("frames", "index")];
     d_patterns := ∅;
     d_info_group_name := None;
     d_meta_data := ∅;
     d_backing_file := None;
     d_group_name := None;
     d_group := None;
     d_data := None;
     d_remove := false |}.

Definition experiment : Exp :=
  {| files := {[ "savu.nxs" := <[ ["entry"] := H5Group ∅ ]> new_file ]};
     trace := [];
     close_faults := [];
     mpi := false;
     exp_group_name := {[ "Peaks" := "1-FindPeaks"; "Fit" := "2-Fit" ]};
     exp_filename :=
       {[ "Peaks" := "/scratch/run42.h5"; "Fit" := "/scratch/fit42.h5";
          "Orphan" := "/scratch/orphan.h5" ]};
     nxs_file := Example.nxs |}.

Definition out_data : list (string * Data) :=
  [("Peaks", Example.peaks); ("Fit", fit)].

End TwoOutputs.

(** * Reasoning about runs *)

(** ** Results of the helper functions *)

Lemma split_last_example : split_last "/scratch/run42.h5" = "run42.h5".
Proof. reflexivity. Qed.

Lemma np_arange_elems (n : Z) (i : nat) :
  (Z.of_nat i < n)%Z → a_elems (np_arange n) !! i = Some (Z.of_nat i).
Proof.
  intros Hi. unfold np_arange; simpl.
  rewrite list_lookup_fmap, lookup_seq_lt by lia. reflexivity.
Qed.

Lemma np_arange_length (n : Z) : length (a_elems (np_arange n)) = Z.to_nat n.
Proof. unfold np_arange; simpl. rewrite length_fmap. apply length_seq. Qed.

Lemma hoare_ret {A} (a : A) (Q : A → State → Prop) E :
  hoare (Q a) (mret a) Q E.
Proof. intros st H. exact H. Qed.

Lemma hoare_raise {A} e (Q : A → State → Prop) (E : exn → State → Prop) :
  hoare (E e) (raise e) Q E.
Proof. intros st H. exact H. Qed.

Lemma hoare_bind {A B} P (m : M A) (f : A → M B) R Q E :
  hoare P m R E → (∀ a, hoare (R a) (f a) Q E) → hoare P (m ≫= f) Q E.
Proof.
  intros Hm Hf st HP. specialize (Hm st HP).
  unfold mbind, M_bind. destruct (m st) as [st1 [a|e]]; [|exact Hm].
  apply (Hf a st1 Hm).
Qed.

Lemma hoare_consequence {A} (P P' : State → Prop) (m : M A)
    (Q Q' : A → State → Prop) (E E' : exn → State → Prop) :
  hoare P' m Q' E' →
  (∀ st, P st → P' st) → (∀ a st, Q' a st → Q a st) →
  (∀ e st, E' e st → E e st) →
  hoare P m Q E.
Proof.
  intros Hm HP HQ HE st H. specialize (Hm st (HP st H)).
  destruct (m st) as [st1 [a|e]]; auto.
Qed.

Lemma hoare_try_except {A} P (body handler : M A) Q E E' :
  hoare P body Q E' → (∀ e, hoare (E' e) handler Q E) →
  hoare P (try_except body handler) Q E.
Proof.
  intros Hb Hh st HP. specialize (Hb st HP). unfold try_except.
  destruct (body st) as [st1 [a|e]]; [exact Hb|].
  apply (Hh e st1 Hb).
Qed.

(** ** Invariants *)

Lemma preserves_ret {A} I (a : A) : preserves I (mret a).
Proof. intros st H. exact H. Qed.

Lemma preserves_raise {A} I e : preserves I (raise e : M A).
Proof. intros st H. exact H. Qed.

Lemma preserves_bind {A B} I (m : M A) (f : A → M B) :
  preserves I m → (∀ a, preserves I (f a)) → preserves I (m ≫= f).
Proof. intros Hm Hf. eapply hoare_bind; [exact Hm|exact Hf]. Qed.

Lemma preserves_try_except {A} I (body handler : M A) :
  preserves I body → preserves I handler → preserves I (try_except body handler).
Proof. intros Hb Hh. eapply hoare_try_except; [exact Hb|intros e; exact Hh]. Qed.

Lemma preserves_get_exp I : preserves I get_exp.
Proof. intros st H. exact H. Qed.

Lemma preserves_get_data I : preserves I get_data.
Proof. intros st H. exact H. Qed.

Lemma preserves_from_option {A} I e (o : option A) : preserves I (from_option e o).
Proof. destruct o; [apply preserves_ret|apply preserves_raise]. Qed.

Lemma preserves_from_result {A} I (r : result A) : preserves I (from_result r).
Proof. destruct r; [apply preserves_ret|apply preserves_raise]. Qed.

Lemma preserves_modify_exp (I : State → Prop) f :
  (∀ st, I st → I {| exp := f (exp st); data := data st |}) →
  preserves I (modify_exp f).
Proof. intros H st HI. apply H, HI. Qed.

Lemma preserves_modify_data (I : State → Prop) f :
  (∀ st, I st → I {| exp := exp st; data := f (data st) |}) →
  preserves I (modify_data f).
Proof. intros H st HI. apply H, HI. Qed.

Lemma preserves_run {A} I (m : M A) st :
  preserves I m → I st → I (m st).1.
Proof.
  intros Hm HI. specialize (Hm st HI). destruct (m st) as [st1 [a|e]]; exact Hm.
Qed.

(** ** The barrier protocol along a run *)

Lemma scan_app p tr1 tr2 :
  scan p (tr1 ++ tr2) = scan p tr1 ≫= λ q, scan q tr2.
Proof.
  revert p. induction tr1 as [|ev tr1 IH]; intros p; simpl; [reflexivity|].
  destruct (phase_step p ev); [apply IH|reflexivity].
Qed.

Lemma scan_snoc p tr ev q :
  scan p tr = Some q → scan p (tr ++ [ev]) = phase_step q ev.
Proof.
  intros H. rewrite scan_app, H. simpl. destruct (phase_step q ev); reflexivity.
Qed.

Lemma bracketed_app tr1 tr2 :
  bracketed tr1 → bracketed tr2 → bracketed (tr1 ++ tr2).
Proof.
  unfold bracketed. intros H1 H2. rewrite scan_app, H1. simpl.
  destruct tr2 as [|[|op] tr2]; simpl in *; congruence.
Qed.

Lemma at_phase_weaken t0 (S S' : phase → Prop) st :
  (∀ p, S p → S' p) → at_phase t0 S st → at_phase t0 S' st.
Proof. intros HS (evs & p & Ht & Hs & Hp). exists evs, p. auto. Qed.

Lemma phased_weaken {A} t0 (P P' Q Q' : phase → Prop) (m : M A) :
  phased t0 P' m Q' → (∀ p, P p → P' p) → (∀ p, Q' p → Q p) → phased t0 P m Q.
Proof.
  intros Hm HP HQ. eapply hoare_consequence; [exact Hm| | |].
  - intros st. apply at_phase_weaken, HP.
  - intros a st. apply at_phase_weaken, HQ.
  - intros e st H. exact H.
Qed.

Lemma phased_post {A} t0 (P Q Q' : phase → Prop) (m : M A) :
  phased t0 P m Q' → (∀ p, Q' p → Q p) → phased t0 P m Q.
Proof. intros Hm HQ. eapply phased_weaken; [exact Hm|done|exact HQ]. Qed.

Lemma phased_ret {A} t0 P (a : A) : phased t0 P (mret a) P.
Proof. intros st H. exact H. Qed.

Lemma phased_raise {A} t0 P Q e : phased t0 P (raise e : M A) Q.
Proof. intros st H. eapply at_phase_weaken; [|exact H]. done. Qed.

Lemma phased_bind {A B} t0 P R Q (m : M A) (f : A → M B) :
  phased t0 P m R → (∀ a, phased t0 R (f a) Q) → phased t0 P (m ≫= f) Q.
Proof. intros Hm Hf. eapply hoare_bind; [exact Hm|exact Hf]. Qed.

Lemma phased_try_except {A} t0 P Q (body handler : M A) :
  phased t0 P body Q → phased t0 any_phase handler Q →
  phased t0 P (try_except body handler) Q.
Proof. intros Hb Hh. eapply hoare_try_except; [exact Hb|intros e; exact Hh]. Qed.

Lemma phased_get_exp t0 P : phased t0 P get_exp P.
Proof. intros st H. exact H. Qed.

Lemma phased_get_data t0 P : phased t0 P get_data P.
Proof. intros st H. exact H. Qed.

Lemma phased_modify_data t0 P f : phased t0 P (modify_data f) P.
Proof. intros st H. exact H. Qed.

Lemma phased_set_files t0 P fs : phased t0 P (modify_exp (set_files fs)) P.
Proof. intros st H. exact H. Qed.

Lemma phased_set_close_faults t0 P l : phased t0 P (modify_exp (set_close_faults l)) P.
Proof. intros st H. exact H. Qed.

Lemma phased_from_option {A} t0 P e (o : option A) : phased t0 P (from_option e o) P.
Proof. destruct o; [apply phased_ret|apply phased_raise]. Qed.

Lemma phased_from_result {A} t0 P (r : result A) : phased t0 P (from_result r) P.
Proof. destruct r; [apply phased_ret|apply phased_raise]. Qed.

Lemma phased_barrier t0 P : phased t0 P _barrier (eq Idle).
Proof.
  intros st (evs & p & Ht & Hs & _). exists (evs ++ [Barrier]), Idle. simpl.
  rewrite Ht, (scan_snoc _ _ _ _ Hs), <- app_assoc. done.
Qed.

Lemma phased_emit_call t0 (P : phase → Prop) op :
  (∀ p, P p → callable op p) → phased t0 P (emit (Call op)) (eq (Busy op)).
Proof.
  intros HP st (evs & p & Ht & Hs & Hp). exists (evs ++ [Call op]), (Busy op).
  simpl. rewrite Ht, (scan_snoc _ _ _ _ Hs), <- app_assoc.
  split; [done|]. split; [apply HP, Hp|done].
Qed.

Lemma phased_h5_call t0 (P : phase → Prop) op h change :
  (∀ p, P p → callable op p) → phased t0 P (h5_call op h change) (eq (Busy op)).
Proof.
  intros HP. unfold h5_call.
  eapply phased_bind; [apply phased_emit_call, HP|intros _].
  eapply phased_bind; [|intros _].
  { case_decide; [apply phased_raise|apply phased_ret]. }
  eapply phased_bind; [apply phased_get_exp|intros e].
  eapply phased_bind; [apply phased_from_option|intros c].
  eapply phased_bind; [apply phased_from_result|intros c'].
  apply phased_set_files.
Qed.

Lemma phased_h5py_File t0 (P : phase → Prop) filename mode :
  (∀ p, P p → p = Idle) → phased t0 P (h5py_File filename mode) (eq (Busy OpOpen)).
Proof.
  intros HP. unfold h5py_File.
  eapply phased_bind; [apply phased_emit_call|intros _].
  { intros p Hp. rewrite (HP p Hp). reflexivity. }
  eapply phased_bind; [apply phased_get_exp|intros e].
  destruct mode.
  - destruct (files e !! filename); [apply phased_ret|apply phased_raise].
  - eapply phased_bind; [apply phased_set_files|intros _]. apply phased_ret.
Qed.

Lemma phased_h5_close t0 (P : phase → Prop) h :
  (∀ p, P p → p = Idle) → phased t0 P (h5_close h) (eq (Busy OpClose)).
Proof.
  intros HP. unfold h5_close.
  eapply phased_bind; [apply phased_emit_call|intros _].
  { intros p Hp. rewrite (HP p Hp). reflexivity. }
  eapply phased_bind; [apply phased_get_exp|intros e].
  destruct (close_faults e) as [|[] rest].
  - apply phased_ret.
  - eapply phased_bind; [apply phased_set_close_faults|intros _].
    apply phased_raise.
  - apply phased_set_close_faults.
Qed.

Lemma phased_h5_getitem t0 P h p : phased t0 P (h5_getitem h p) P.
Proof.
  unfold h5_getitem.
  eapply phased_bind; [apply phased_get_exp|intros e].
  eapply phased_bind; [apply phased_from_option|intros c].
  destruct (c !! p); [apply phased_ret|apply phased_raise].
Qed.

Lemma phased_create_group t0 (P : phase → Prop) op parent name :
  (∀ p, P p → callable op p) →
  phased t0 P (create_group op parent name) (eq (Busy op)).
Proof.
  intros HP. unfold create_group.
  eapply phased_bind; [apply phased_h5_call, HP|intros _]. apply phased_ret.
Qed.

Lemma phased_require_group t0 (P : phase → Prop) op parent name :
  (∀ p, P p → callable op p) →
  phased t0 P (require_group op parent name) (eq (Busy op)).
Proof.
  intros HP. unfold require_group.
  eapply phased_bind; [apply phased_h5_call, HP|intros _]. apply phased_ret.
Qed.

Lemma phased_create_dataset t0 (P : phase → Prop) op parent name sh dt ch ct :
  (∀ p, P p → callable op p) →
  phased t0 P (create_dataset op parent name sh dt ch ct) (eq (Busy op)).
Proof.
  intros HP. unfold create_dataset.
  eapply phased_bind; [apply phased_h5_call, HP|intros _]. apply phased_ret.
Qed.

Lemma phased_create_dataset_from t0 (P : phase → Prop) op parent name v :
  (∀ p, P p → callable op p) →
  phased t0 P (create_dataset_from op parent name v) (eq (Busy op)).
Proof. intros HP. unfold create_dataset_from. apply phased_create_dataset, HP. Qed.

Lemma phased_set_attr t0 (P : phase → Prop) op n key v :
  (∀ p, P p → callable op p) → phased t0 P (set_attr op n key v) (eq (Busy op)).
Proof. intros HP. apply phased_h5_call, HP. Qed.

Lemma phased_assign t0 (P : phase → Prop) op n arr :
  (∀ p, P p → callable op p) → phased t0 P (assign op n arr) (eq (Busy op)).
Proof. intros HP. apply phased_h5_call, HP. Qed.

Lemma phased_set_link t0 (P : phase → Prop) op parent name fn tgt :
  (∀ p, P p → callable op p) →
  phased t0 P (set_link op parent name fn tgt) (eq (Busy op)).
Proof. intros HP. apply phased_h5_call, HP. Qed.

(** Side conditions: the phase is known, the step is computed. *)
Ltac callable_now :=
  let p := fresh "p" in
  let H := fresh "H" in
  intros p H;
  first [ subst p; reflexivity
        | destruct H; subst p; reflexivity ].

(** One step of a method: run the next call, keep the continuation. *)
Tactic Notation "phased_next" uconstr(lem) "as" ident(x) :=
  (eapply phased_bind; [apply lem; try callable_now|intros x]).

Tactic Notation "phased_next" uconstr(lem) :=
  (eapply phased_bind; [apply lem; try callable_now|intros ?]).

Section Protocol.

Variable plan : current_and_next_t → list Z → string → list Z.
Variable t0 : list event.

Lemma phased_open_backing_h5 P filename mode :
  phased t0 P (__open_backing_h5 filename mode) (eq Idle).
Proof.
  unfold __open_backing_h5.
  phased_next phased_barrier.
  phased_next phased_get_exp as e.
  eapply phased_bind; [|intros backing_file].
  { destruct (mpi e); apply phased_h5py_File; intros p <-; reflexivity. }
  phased_next phased_barrier.
  destruct backing_file; [apply phased_ret|apply phased_raise].
Qed.

Lemma phased_create_entries P key cn :
  phased t0 P (__create_entries plan key cn) (eq Idle).
Proof.
  unfold __create_entries.
  phased_next phased_barrier.
  phased_next phased_get_exp.
  phased_next phased_from_option.
  phased_next phased_modify_data.
  phased_next phased_get_data.
  phased_next phased_from_option.
  phased_next phased_create_group.
  phased_next phased_set_attr.
  phased_next phased_set_attr.
  phased_next phased_barrier.
  eapply phased_bind; [|intros _].
  { destruct (is_zero cn).
    - phased_next phased_create_dataset. apply phased_modify_data.
    - phased_next phased_barrier.
      phased_next phased_barrier.
      phased_next phased_create_dataset. apply phased_modify_data. }
  phased_next phased_barrier.
  apply phased_ret.
Qed.

Lemma phased_axis_labels_loop entry labels count axes :
  phased t0 (within OpAxisLabels) (axis_labels_loop entry labels count axes)
    (within OpAxisLabels).
Proof.
  revert count axes. induction labels as [|[name units] rest IH]; intros count axes.
  - apply phased_ret.
  - simpl.
    phased_next phased_set_attr.
    phased_next phased_get_data as d.
    eapply phased_bind; [|intros mData].
    { destruct (d_meta_data d !! name); [apply phased_ret|].
      phased_next phased_from_option. apply phased_ret. }
    eapply phased_bind; [|intros arr].
    { destruct mData; first [apply phased_ret|apply phased_raise]. }
    phased_next phased_from_option.
    phased_next phased_create_dataset.
    phased_next phased_assign.
    phased_next phased_set_attr.
    eapply phased_weaken; [apply IH| |done].
    intros p <-. right. reflexivity.
Qed.

Lemma phased_output_axis_labels P entry :
  phased t0 P (__output_axis_labels entry) (eq Idle).
Proof.
  unfold __output_axis_labels.
  phased_next phased_barrier.
  phased_next phased_get_data.
  eapply phased_bind; [|intros axes].
  { eapply phased_weaken; [apply phased_axis_labels_loop| |intros p Hp; exact Hp].
    intros p <-. left. reflexivity. }
  phased_next phased_set_attr.
  apply phased_barrier.
Qed.

Lemma phased_data_patterns_loop entry patterns :
  phased t0 (eq (Busy OpDataPatterns)) (data_patterns_loop entry patterns)
    (eq (Busy OpDataPatterns)).
Proof.
  induction patterns as [|[name values] rest IH].
  - apply phased_ret.
  - simpl.
    phased_next phased_create_group.
    phased_next phased_set_attr.
    phased_next phased_create_dataset_from.
    phased_next phased_create_dataset_from.
    apply IH.
Qed.

Lemma phased_output_data_patterns P entry :
  phased t0 P (__output_data_patterns entry) (eq Idle).
Proof.
  unfold __output_data_patterns.
  phased_next phased_barrier.
  phased_next phased_get_data.
  phased_next phased_create_group.
  phased_next phased_set_attr.
  phased_next phased_data_patterns_loop.
  apply phased_barrier.
Qed.

Lemma phased_metadata_dict_loop entry meta :
  phased t0 (eq (Busy OpMetadataDict)) (metadata_dict_loop entry meta)
    (eq (Busy OpMetadataDict)).
Proof.
  induction meta as [|[name value] rest IH].
  - apply phased_ret.
  - simpl.
    phased_next phased_create_group.
    phased_next phased_set_attr.
    phased_next phased_create_dataset_from.
    apply IH.
Qed.

Lemma phased_output_metadata_dict P entry :
  phased t0 P (__output_metadata_dict entry) (eq Idle).
Proof.
  unfold __output_metadata_dict.
  phased_next phased_barrier.
  phased_next phased_get_data.
  phased_next phased_create_group.
  phased_next phased_set_attr.
  phased_next phased_metadata_dict_loop.
  apply phased_barrier.
Qed.

Lemma phased_output_metadata P entry :
  phased t0 P (__output_metadata entry) (eq Idle).
Proof.
  unfold __output_metadata.
  phased_next phased_output_axis_labels.
  phased_next phased_output_data_patterns.
  apply phased_output_metadata_dict.
Qed.

Lemma phased_close_file P : phased t0 P _close_file (eq Idle).
Proof.
  unfold _close_file.
  phased_next phased_barrier.
  phased_next phased_get_data as d.
  eapply phased_bind; [|intros _; apply phased_barrier].
  destruct (d_backing_file d) as [backing_file|].
  - apply phased_try_except; [|apply phased_ret].
    eapply phased_post; [|done].
    phased_next phased_h5_close. apply phased_modify_data.
  - eapply phased_post; [apply phased_ret|done].
Qed.

Lemma phased_add_data_links P linkType :
  phased t0 P (__add_data_links linkType) (eq Idle).
Proof.
  unfold __add_data_links.
  phased_next phased_barrier.
  phased_next phased_get_exp.
  phased_next phased_h5_getitem.
  phased_next phased_get_data.
  phased_next phased_from_option.
  phased_next phased_from_option.
  phased_next phased_h5_getitem.
  phased_next phased_output_metadata.
  phased_next phased_get_data.
  phased_next phased_from_option.
  eapply phased_bind; [|intros _; apply phased_barrier].
  repeat case_decide.
  - phased_next phased_from_option. apply phased_set_link. callable_now.
  - phased_next phased_from_option.
    phased_next phased_require_group.
    phased_next phased_set_attr.
    phased_next phased_from_option.
    apply phased_set_link. callable_now.
  - apply phased_raise.
Qed.

Lemma phased_save_data P link_type :
  phased t0 P (_save_data link_type) (eq Idle).
Proof.
  unfold _save_data.
  phased_next phased_barrier.
  phased_next phased_get_data as d.
  eapply phased_bind; [|intros skip].
  { destruct (d_remove d); [apply phased_ret|].
    phased_next phased_from_option. apply phased_ret. }
  destruct (if skip then None else link_type) as [lt|].
  - phased_next phased_add_data_links.
    phased_next phased_get_data.
    phased_next phased_from_option.
    phased_next phased_from_option.
    phased_next phased_close_file.
    phased_next phased_barrier.
    apply phased_ret.
  - phased_next phased_close_file. apply phased_ret.
Qed.

Lemma phased_open_read_only P filename entry :
  phased t0 P (_open_read_only filename entry) (eq Idle).
Proof.
  unfold _open_read_only.
  phased_next phased_open_backing_h5.
  phased_next phased_modify_data.
  phased_next phased_h5_getitem.
  phased_next phased_modify_data.
  apply phased_barrier.
Qed.

Lemma phased_setup_dataset P key cn :
  phased t0 P (setup_dataset plan key cn) (eq Idle).
Proof.
  unfold setup_dataset.
  phased_next phased_get_exp.
  phased_next phased_from_option.
  phased_next phased_open_backing_h5.
  phased_next phased_modify_data.
  eapply phased_bind; [apply phased_create_entries|intros [group_name group]].
  apply phased_modify_data.
Qed.

End Protocol.

(** What a [phased] method gives for one run. *)
Lemma phased_run {A} (m : M A) (st : State) :
  (∀ t0 P, phased t0 P m (eq Idle)) →
  ∃ evs, trace (exp (m st).1) = trace (exp st) ++ evs ∧
         preceded evs ∧ (is_ok (m st).2 = true → bracketed evs).
Proof.
  intros Hm.
  assert (H0 : at_phase (trace (exp st)) (eq Fresh) st).
  { exists [], Fresh. rewrite app_nil_r. done. }
  specialize (Hm (trace (exp st)) (eq Fresh) st H0).
  destruct (m st) as [st' [a|e]]; simpl;
    destruct Hm as (evs & p & Ht & Hs & Hp); exists evs;
    (split; [exact Ht|]); (split; [exists p; exact Hs|]).
  - intros _. unfold bracketed. rewrite Hs, Hp. reflexivity.
  - discriminate.
Qed.

(** ** From the automaton to the positions of the barriers *)

Lemma scan_busy_after tr op :
  scan (Busy op) tr = Some Idle →
  ∃ k, tr !! k = Some Barrier ∧ (∀ l, l < k → tr !! l = Some (Call op)) ∧
       (single_call op = true → k = 0).
Proof.
  induction tr as [|ev tr IH]; simpl; [discriminate|].
  destruct ev as [|op'].
  - intros _. exists 0. split; [done|]. split; [lia|done].
  - simpl. case_bool_decide as Hop; simpl; [|discriminate].
    destruct (single_call op') eqn:Hs; simpl; [discriminate|]. subst op'.
    intros H. destruct (IH H) as (k & Hk & Hl & _).
    exists (S k). split; [exact Hk|]. split; [|congruence].
    intros [|l] Hlt; [done|]. simpl. apply Hl. lia.
Qed.

Lemma scan_barrier_after tr p i op :
  scan p tr = Some Idle → tr !! i = Some (Call op) → barrier_after tr i op.
Proof.
  revert p i. induction tr as [|ev tr IH]; intros p i Hs Hi; [done|].
  simpl in Hs. destruct (phase_step p ev) as [q|] eqn:Hstep; [|discriminate].
  destruct i as [|i]; simpl in Hi.
  - injection Hi as ->.
    assert (q = Busy op) as ->.
    { destruct p; simpl in Hstep; [done|congruence|].
      destruct (bool_decide _ && _); congruence. }
    destruct (scan_busy_after _ _ Hs) as (k & Hk & Hl & Hone).
    exists (S k). split; [lia|]. split; [exact Hk|]. split.
    + intros [|l] Hlt; [lia|]. simpl. apply Hl. lia.
    + intros H1. rewrite (Hone H1). reflexivity.
  - destruct (IH q i Hs Hi) as (k & Hk & Hb & Hl & Hone).
    exists (S k). split; [lia|]. split; [exact Hb|]. split.
    + intros [|l] Hlt; [lia|]. simpl. apply Hl. lia.
    + intros H1. rewrite (Hone H1). reflexivity.
Qed.

Lemma scan_barrier_before tr p q i op :
  scan p tr = Some q → tr !! i = Some (Call op) →
  barrier_before tr i op ∨
  ((∀ l, l < i → tr !! l = Some (Call op)) ∧
   (p = Idle ∨ (p = Busy op ∧ single_call op = false)) ∧
   (single_call op = true → i = 0)).
Proof.
  revert p i. induction tr as [|ev tr IH]; intros p i Hs Hi; [done|].
  simpl in Hs. destruct (phase_step p ev) as [q'|] eqn:Hstep; [|discriminate].
  destruct i as [|i]; simpl in Hi.
  - injection Hi as ->. right. split; [lia|]. split; [|done].
    destruct p as [| |op']; simpl in Hstep; [done|by left|right].
    case_bool_decide as Hop; simpl in Hstep; [|discriminate].
    destruct (single_call op); simpl in Hstep; [discriminate|]. by subst.
  - destruct (IH q' i Hs Hi) as [(j & Hj & Hb & Hl & Hone)|(Hl & Hq & Hone)].
    + left. exists (S j). split; [lia|]. split; [exact Hb|]. split.
      * intros [|l] Hlt; [lia|]. simpl. apply Hl. lia.
      * intros H1. rewrite (Hone H1). reflexivity.
    + destruct ev as [|op'].
      * left. exists 0. split; [lia|]. split; [done|]. split.
        -- intros [|l] Hlt; [lia|]. simpl. apply Hl. lia.
        -- intros H1. rewrite (Hone H1). reflexivity.
      * assert (q' = Busy op') as ->.
        { destruct p; simpl in Hstep; [done|congruence|].
          destruct (bool_decide _ && _); congruence. }
        destruct Hq as [?|[[= ->] Hmulti]]; [done|].
        right. split; [|split].
        -- intros [|l] Hlt; [done|]. simpl. apply Hl. lia.
        -- destruct p as [| |op']; simpl in Hstep; [done|by left|right].
           case_bool_decide as Hop; simpl in Hstep; [|discriminate]. by subst.
        -- congruence.
Qed.

Lemma preceded_barrier_before tr i op :
  preceded tr → tr !! i = Some (Call op) → barrier_before tr i op.
Proof.
  intros [q Hq] Hi.
  destruct (scan_barrier_before _ _ _ _ _ Hq Hi) as [H|(_ & [?|[? _]] & _)];
    [exact H|done|done].
Qed.

Lemma bracketed_barrier_after tr i op :
  bracketed tr → tr !! i = Some (Call op) → barrier_after tr i op.
Proof. apply scan_barrier_after. Qed.

Lemma phased_follows_protocol {A} (m : M A) :
  (∀ t0 P, phased t0 P m (eq Idle)) → follows_protocol m.
Proof.
  intros Hm st. destruct (phased_run m st Hm) as (evs & Ht & Hp & Hb).
  exists evs. split; [exact Ht|]. split.
  - intros i op. apply preceded_barrier_before, Hp.
  - intros Hok i op. apply bracketed_barrier_after, Hb, Hok.
Qed.


(** ** Closing the backing file *)

Ltac unfold_monad :=
  unfold _barrier, emit, from_option, from_result in *;
  unfold mbind, M_bind, mret, M_ret, raise, try_except, get_exp, get_data,
    modify_exp, modify_data in *.

(** What [_close_file] does, case by case. *)
Lemma close_file_unfold (st : State) :
  _close_file st =
  match d_backing_file (data st) with
  | None =>
      ({| exp := set_trace (trace (exp st) ++ [Barrier; Barrier]) (exp st);
          data := data st |}, Ok tt)
  | Some h =>
      match close_faults (exp st) with
      | true :: rest =>
          ({| exp := set_trace (trace (exp st) ++ [Barrier; Call OpClose; Barrier])
                       (set_close_faults rest (exp st));
              data := data st |}, Ok tt)
      | false :: rest =>
          ({| exp := set_trace (trace (exp st) ++ [Barrier; Call OpClose; Barrier])
                       (set_close_faults rest (exp st));
              data := set_backing_file None (data st) |}, Ok tt)
      | [] =>
          ({| exp := set_trace (trace (exp st) ++ [Barrier; Call OpClose; Barrier])
                       (exp st);
              data := set_backing_file None (data st) |}, Ok tt)
      end
  end.
Proof.
  destruct st as [e d]. unfold _close_file, h5_close. unfold_monad. simpl.
  destruct (d_backing_file d) as [h|]; simpl.
  - destruct (close_faults e) as [|[] rest]; simpl;
      unfold set_trace, set_close_faults; simpl;
      rewrite <- ?app_assoc; reflexivity.
  - unfold set_trace; simpl. rewrite <- app_assoc. reflexivity.
Qed.






(** ** Returns of a bind *)

Lemma bind_ok_inv {A B} (m : M A) (f : A → M B) st st' b :
  (m ≫= f) st = (st', Ok b) →
  ∃ a st1, m st = (st1, Ok a) ∧ f a st1 = (st', Ok b).
Proof.
  unfold mbind, M_bind. destruct (m st) as [st1 [a|e]]; [|discriminate].
  intros H. exists a, st1. done.
Qed.

Lemma bind_run {A B} (m : M A) (f : A → M B) st st1 a :
  m st = (st1, Ok a) → (m ≫= f) st = f a st1.
Proof. intros H. unfold mbind, M_bind. rewrite H. reflexivity. Qed.

Lemma bind_raise {A B} (m : M A) (f : A → M B) st st1 e :
  m st = (st1, Raise e) → (m ≫= f) st = (st1, Raise e).
Proof. intros H. unfold mbind, M_bind. rewrite H. reflexivity. Qed.

Lemma run_eq {A} (m : M A) st r : (m st).2 = r → m st = ((m st).1, r).
Proof. destruct (m st) as [st1 r1]. simpl. intros ->. reflexivity. Qed.

Lemma hoare_true {A} (P : State → Prop) (m : M A) :
  hoare P m (λ _ _, True) (λ _ _, True).
Proof. intros st _. destruct (m st) as [st1 [a|e]]; exact I. Qed.

Lemma hoare_const {A} (P : State → Prop) (m : M A) (φ : Prop) :
  φ → hoare P m (λ _ _, φ) (λ _ _, True).
Proof. intros H st _. destruct (m st) as [st1 [a|e]]; done. Qed.

Lemma hoare_run {A} P (m : M A) Q E st st' a :
  hoare P m Q E → P st → m st = (st', Ok a) → Q a st'.
Proof. intros Hm HP Hr. specialize (Hm st HP). rewrite Hr in Hm. exact Hm. Qed.

(** ** The dataset object along the metadata writes and the link *)

Section DataOnly.

Variable I : State → Prop.
Hypothesis I_data_only : data_only I.

Lemma data_only_modify_exp f : preserves I (modify_exp f).
Proof. apply preserves_modify_exp. intros [e d] H. eapply I_data_only, H. Qed.

Lemma data_only_h5_call op h change : preserves I (h5_call op h change).
Proof.
  unfold h5_call.
  apply preserves_bind; [apply data_only_modify_exp|intros _].
  apply preserves_bind; [|intros _].
  { case_decide; [apply preserves_raise|apply preserves_ret]. }
  apply preserves_bind; [apply preserves_get_exp|intros e].
  apply preserves_bind; [apply preserves_from_option|intros c].
  apply preserves_bind; [apply preserves_from_result|intros c'].
  apply data_only_modify_exp.
Qed.

Lemma data_only_h5_getitem h p : preserves I (h5_getitem h p).
Proof.
  unfold h5_getitem.
  apply preserves_bind; [apply preserves_get_exp|intros e].
  apply preserves_bind; [apply preserves_from_option|intros c].
  destruct (c !! p); [apply preserves_ret|apply preserves_raise].
Qed.

Lemma data_only_create_group op parent name :
  preserves I (create_group op parent name).
Proof.
  apply preserves_bind; [apply data_only_h5_call|intros _]. apply preserves_ret.
Qed.

Lemma data_only_require_group op parent name :
  preserves I (require_group op parent name).
Proof.
  apply preserves_bind; [apply data_only_h5_call|intros _]. apply preserves_ret.
Qed.

Lemma data_only_create_dataset op parent name sh dt ch ct :
  preserves I (create_dataset op parent name sh dt ch ct).
Proof.
  apply preserves_bind; [apply data_only_h5_call|intros _]. apply preserves_ret.
Qed.

Lemma data_only_create_dataset_from op parent name v :
  preserves I (create_dataset_from op parent name v).
Proof. unfold create_dataset_from. apply data_only_create_dataset. Qed.

Lemma data_only_axis_labels_loop entry labels count axes :
  preserves I (axis_labels_loop entry labels count axes).
Proof.
  revert count axes. induction labels as [|[name units] rest IH]; intros count axes.
  - apply preserves_ret.
  - simpl.
    apply preserves_bind; [apply data_only_h5_call|intros _].
    apply preserves_bind; [apply preserves_get_data|intros d].
    apply preserves_bind; [|intros mData].
    { destruct (d_meta_data d !! name); [apply preserves_ret|].
      apply preserves_bind; [apply preserves_from_option|intros n].
      apply preserves_ret. }
    apply preserves_bind; [|intros arr].
    { destruct mData; first [apply preserves_ret|apply preserves_raise]. }
    apply preserves_bind; [apply preserves_from_option|intros group].
    apply preserves_bind; [apply data_only_create_dataset|intros temp].
    apply preserves_bind; [apply data_only_h5_call|intros _].
    apply preserves_bind; [apply data_only_h5_call|intros _].
    apply IH.
Qed.

Lemma data_only_data_patterns_loop entry patterns :
  preserves I (data_patterns_loop entry patterns).
Proof.
  induction patterns as [|[name values] rest IH].
  - apply preserves_ret.
  - simpl.
    apply preserves_bind; [apply data_only_create_group|intros nx_data].
    apply preserves_bind; [apply data_only_h5_call|intros _].
    apply preserves_bind; [apply data_only_create_dataset_from|intros _].
    apply preserves_bind; [apply data_only_create_dataset_from|intros _].
    apply IH.
Qed.

Lemma data_only_metadata_dict_loop entry meta :
  preserves I (metadata_dict_loop entry meta).
Proof.
  induction meta as [|[name value] rest IH].
  - apply preserves_ret.
  - simpl.
    apply preserves_bind; [apply data_only_create_group|intros nx_data].
    apply preserves_bind; [apply data_only_h5_call|intros _].
    apply preserves_bind; [apply data_only_create_dataset_from|intros _].
    apply IH.
Qed.

Ltac data_only_step :=
  lazymatch goal with
  | |- preserves _ (_ ≫= _) => apply preserves_bind; [|intros ?]
  | |- preserves _ (axis_labels_loop _ _ _ _) => apply data_only_axis_labels_loop
  | |- preserves _ (data_patterns_loop _ _) => apply data_only_data_patterns_loop
  | |- preserves _ (metadata_dict_loop _ _) => apply data_only_metadata_dict_loop
  | |- preserves _ (create_group _ _ _) => apply data_only_create_group
  | |- preserves _ (require_group _ _ _) => apply data_only_require_group
  | |- preserves _ (set_attr _ _ _ _) => apply data_only_h5_call
  | |- preserves _ (set_link _ _ _ _ _) => apply data_only_h5_call
  | |- preserves _ (h5_getitem _ _) => apply data_only_h5_getitem
  | |- preserves _ (modify_exp _) => apply data_only_modify_exp
  | |- preserves _ get_data => apply preserves_get_data
  | |- preserves _ get_exp => apply preserves_get_exp
  | |- preserves _ (from_option _ _) => apply preserves_from_option
  | |- preserves _ (raise _) => apply preserves_raise
  | |- preserves _ (if decide _ then _ else _) => case_decide
  end.

Lemma data_only_output_metadata entry : preserves I (__output_metadata entry).
Proof.
  unfold __output_metadata, __output_axis_labels, __output_data_patterns,
    __output_metadata_dict, _barrier, emit.
  repeat data_only_step.
Qed.

Lemma data_only_add_data_links linkType : preserves I (__add_data_links linkType).
Proof.
  unfold __add_data_links, _barrier, emit.
  repeat lazymatch goal with
         | |- preserves _ (__output_metadata _) => apply data_only_output_metadata
         | _ => data_only_step
         end.
Qed.

End DataOnly.

(** [__add_data_links] leaves the dataset object as it found it. *)
Lemma add_data_links_data linkType st :
  data (__add_data_links linkType st).1 = data st.
Proof.
  apply (preserves_run (λ s, data s = data st)); [|reflexivity].
  apply data_only_add_data_links. intros e e' d H. exact H.
Qed.

Lemma output_metadata_data entry st :
  data (__output_metadata entry st).1 = data st.
Proof.
  apply (preserves_run (λ s, data s = data st)); [|reflexivity].
  apply data_only_output_metadata. intros e e' d H. exact H.
Qed.

(** [__add_data_links] returns only for the two link types it knows. *)
Lemma add_data_links_ok_kind linkType st st' :
  __add_data_links linkType st = (st', Ok tt) →
  linkType = "final_result" ∨ linkType = "intermediate".
Proof.
  apply (hoare_run (λ _, True) _ (λ _ _, _) (λ _ _, True)); [|exact I].
  unfold __add_data_links.
  do 10 (eapply hoare_bind; [apply hoare_true|intros ?]).
  eapply hoare_bind with (R := λ _ _, linkType = "final_result" ∨ linkType = "intermediate").
  - repeat case_decide.
    + apply hoare_const. by left.
    + apply hoare_const. by right.
    + apply (hoare_raise _ _ (λ _ _, True)).
  - intros [] s H. exact H.
Qed.

(** ** Saving: the early exit and the returned pair *)

Lemma save_data_skip (st : State) (link_type : option string) :
  d_remove (data st) = true ∨
  (∃ h, d_backing_file (data st) = Some h ∧ fh_mode h = ModeR) →
  _save_data link_type st = ((_close_file (after_barrier st)).1, Ok None).
Proof.
  intros H. destruct st as [e d].
  unfold _save_data, after_barrier. unfold_monad. simpl in *.
  destruct (d_remove d) eqn:Hr.
  - rewrite !close_file_unfold. simpl.
    destruct (d_backing_file d); [|reflexivity].
    destruct (close_faults e) as [|[] rest]; reflexivity.
  - destruct H as [?|(h & Hh & Hm)]; [done|]. rewrite Hh, Hm. simpl.
    rewrite !close_file_unfold. simpl. rewrite Hh.
    destruct (close_faults e) as [|[] rest]; reflexivity.
Qed.





(** ** Files the metadata writes leave alone *)

Lemma preserves_bind_val {A B} I (m : M A) (f : A → M B) V :
  returns I m V → (∀ a, V a → preserves I (f a)) → preserves I (m ≫= f).
Proof.
  intros Hm Hf. eapply hoare_bind; [exact Hm|].
  intros a st [HI HV]. apply (Hf a HV st HI).
Qed.

Lemma returns_preserves {A} I (m : M A) V : returns I m V → preserves I m.
Proof.
  intros Hm. eapply hoare_consequence; [exact Hm|done| |done].
  intros a st [HI _]. exact HI.
Qed.

Lemma returns_from_option {A} I e (o : option A) :
  returns I (from_option e o) (λ a, o = Some a).
Proof. destruct o; intros st HI; simpl; done. Qed.

Lemma returns_h5_getitem I h p :
  returns I (h5_getitem h p) (λ n, n = {| nh_file := h; nh_path := p |}).
Proof.
  intros [e d] HI. unfold h5_getitem. unfold_monad. simpl.
  destruct (files e !! fh_filename h) as [c|]; simpl; [|done].
  destruct (c !! p); done.
Qed.

Section Frame.

(** The dataset object is [d0] throughout, and the file named [fn], whose
    contents are [F0], is not the one behind any handle of [d0]. *)
Variable d0 : Data.
Variable fn : string.
Variable F0 : option h5file.

Hypothesis group_elsewhere :
  ∀ g, d_group d0 = Some g → fh_filename (nh_file g) ≠ fn.

Local Abbreviation inv := (untouched d0 fn F0).

Lemma frame_emit ev : preserves inv (emit ev).
Proof. intros [e d] H. exact H. Qed.

Lemma frame_get_data {B} (f : Data → M B) :
  preserves inv (f d0) → preserves inv (get_data ≫= f).
Proof.
  intros Hf st HI. specialize (Hf st HI).
  unfold mbind, M_bind, get_data. rewrite (proj1 HI). exact Hf.
Qed.

Lemma frame_h5_call op h change :
  fh_filename h ≠ fn → preserves inv (h5_call op h change).
Proof.
  intros Hne [e d] [Hd Hf]. unfold h5_call. unfold_monad. simpl in *.
  case_decide; simpl; [done|].
  destruct (files e !! fh_filename h) as [c|]; simpl; [|done].
  destruct (change c) as [c'|err]; simpl; [|done].
  split; [done|]. simpl. rewrite lookup_insert_ne by done. exact Hf.
Qed.

Lemma frame_child op parent name change :
  fh_filename (nh_file parent) ≠ fn →
  returns inv (h5_call op (nh_file parent) change;; mret (child parent name))
    (λ n, n = child parent name).
Proof.
  intros Hne st HI. pose proof (frame_h5_call op _ change Hne st HI) as H.
  unfold mbind, M_bind, mret, M_ret.
  destruct (h5_call op (nh_file parent) change st) as [st1 [[]|err]]; done.
Qed.

Lemma frame_create_group op parent name :
  fh_filename (nh_file parent) ≠ fn →
  returns inv (create_group op parent name) (λ n, n = child parent name).
Proof. apply frame_child. Qed.

Lemma frame_require_group op parent name :
  fh_filename (nh_file parent) ≠ fn →
  returns inv (require_group op parent name) (λ n, n = child parent name).
Proof. apply frame_child. Qed.

Lemma frame_create_dataset op parent name sh dt ch ct :
  fh_filename (nh_file parent) ≠ fn →
  returns inv (create_dataset op parent name sh dt ch ct)
    (λ n, n = child parent name).
Proof. apply frame_child. Qed.

Lemma frame_create_dataset_from op parent name v :
  fh_filename (nh_file parent) ≠ fn →
  preserves inv (create_dataset_from op parent name v).
Proof.
  intros Hne. unfold create_dataset_from.
  eapply returns_preserves, frame_create_dataset, Hne.
Qed.

Lemma frame_axis_labels_loop entry labels count axes :
  fh_filename (nh_file entry) ≠ fn →
  preserves inv (axis_labels_loop entry labels count axes).
Proof.
  intros Hne. revert count axes.
  induction labels as [|[name units] rest IH]; intros count axes.
  - apply preserves_ret.
  - simpl.
    apply preserves_bind; [apply frame_h5_call, Hne|intros _].
    apply frame_get_data.
    apply preserves_bind; [|intros mData].
    { destruct (d_meta_data d0 !! name); [apply preserves_ret|].
      apply preserves_bind; [apply preserves_from_option|intros n].
      apply preserves_ret. }
    apply preserves_bind; [|intros arr].
    { destruct mData; first [apply preserves_ret|apply preserves_raise]. }
    eapply preserves_bind_val; [apply returns_from_option|intros group Hg].
    eapply preserves_bind_val;
      [apply frame_create_dataset, group_elsewhere, Hg|intros temp ->].
    apply preserves_bind;
      [apply frame_h5_call, (group_elsewhere group Hg)|intros _].
    apply preserves_bind;
      [apply frame_h5_call, (group_elsewhere group Hg)|intros _].
    apply IH.
Qed.

Lemma frame_data_patterns_loop entry patterns :
  fh_filename (nh_file entry) ≠ fn →
  preserves inv (data_patterns_loop entry patterns).
Proof.
  intros Hne. induction patterns as [|[name values] rest IH].
  - apply preserves_ret.
  - simpl.
    eapply preserves_bind_val; [apply frame_create_group, Hne|intros nx ->].
    apply preserves_bind; [apply frame_h5_call, Hne|intros _].
    apply preserves_bind; [apply frame_create_dataset_from, Hne|intros _].
    apply preserves_bind; [apply frame_create_dataset_from, Hne|intros _].
    apply IH.
Qed.

Lemma frame_metadata_dict_loop entry meta :
  fh_filename (nh_file entry) ≠ fn →
  preserves inv (metadata_dict_loop entry meta).
Proof.
  intros Hne. induction meta as [|[name value] rest IH].
  - apply preserves_ret.
  - simpl.
    eapply preserves_bind_val; [apply frame_create_group, Hne|intros nx ->].
    apply preserves_bind; [apply frame_h5_call, Hne|intros _].
    apply preserves_bind; [apply frame_create_dataset_from, Hne|intros _].
    apply IH.
Qed.

Lemma frame_output_axis_labels entry :
  fh_filename (nh_file entry) ≠ fn →
  preserves inv (__output_axis_labels entry).
Proof.
  intros Hne. unfold __output_axis_labels, _barrier.
  apply preserves_bind; [apply frame_emit|intros _].
  apply frame_get_data.
  apply preserves_bind; [apply frame_axis_labels_loop, Hne|intros axes].
  apply preserves_bind; [apply frame_h5_call, Hne|intros _].
  apply frame_emit.
Qed.

Lemma frame_output_data_patterns entry :
  fh_filename (nh_file entry) ≠ fn →
  preserves inv (__output_data_patterns entry).
Proof.
  intros Hne. unfold __output_data_patterns, _barrier.
  apply preserves_bind; [apply frame_emit|intros _].
  apply frame_get_data.
  eapply preserves_bind_val; [apply frame_create_group, Hne|intros nx ->].
  apply preserves_bind; [apply frame_h5_call, Hne|intros _].
  apply preserves_bind; [apply frame_data_patterns_loop, Hne|intros _].
  apply frame_emit.
Qed.

Lemma frame_output_metadata_dict entry :
  fh_filename (nh_file entry) ≠ fn →
  preserves inv (__output_metadata_dict entry).
Proof.
  intros Hne. unfold __output_metadata_dict, _barrier.
  apply preserves_bind; [apply frame_emit|intros _].
  apply frame_get_data.
  eapply preserves_bind_val; [apply frame_create_group, Hne|intros nx ->].
  apply preserves_bind; [apply frame_h5_call, Hne|intros _].
  apply preserves_bind; [apply frame_metadata_dict_loop, Hne|intros _].
  apply frame_emit.
Qed.

Lemma frame_output_metadata entry :
  fh_filename (nh_file entry) ≠ fn →
  preserves inv (__output_metadata entry).
Proof.
  intros Hne. unfold __output_metadata.
  apply preserves_bind; [apply frame_output_axis_labels, Hne|intros _].
  apply preserves_bind; [apply frame_output_data_patterns, Hne|intros _].
  apply frame_output_metadata_dict, Hne.
Qed.

Lemma frame_add_data_links_unknown linkType :
  (∀ h, d_backing_file d0 = Some h → fh_filename h ≠ fn) →
  linkType ≠ "final_result" → linkType ≠ "intermediate" →
  preserves inv (__add_data_links linkType).
Proof.
  intros Hbf Hfinal Hinter. unfold __add_data_links, _barrier.
  apply preserves_bind; [apply frame_emit|intros _].
  apply preserves_bind; [apply preserves_get_exp|intros e].
  apply preserves_bind;
    [eapply returns_preserves, returns_h5_getitem|intros entry].
  apply frame_get_data.
  apply preserves_bind; [apply preserves_from_option|intros group_name].
  eapply preserves_bind_val; [apply returns_from_option|intros bf Hh].
  eapply preserves_bind_val; [apply returns_h5_getitem|intros target ->].
  apply preserves_bind; [apply frame_output_metadata, Hbf, Hh|intros _].
  apply frame_get_data.
  apply preserves_bind; [apply preserves_from_option|intros bf'].
  apply preserves_bind; [|intros _; apply frame_emit].
  rewrite !decide_False by done. apply preserves_raise.
Qed.

End Frame.

(** C1, as the code has it.  Given a link type that is neither
    ['final_result'] nor ['intermediate'], [__add_data_links] never returns:
    it raises.  The master file, when it is not the file behind the handles
    of the dataset object, is left as it was (no group created, nothing
    registered), and so is the dataset object.  The backing file is not
    covered by this: the link type is examined only after
    [__output_metadata] has run. *)
Theorem add_data_links_unknown_kind (st : State) (linkType : string) :
  linkType ≠ "final_result" → linkType ≠ "intermediate" →
  (∀ h, d_backing_file (data st) = Some h →
        fh_filename h ≠ fh_filename (nxs_file (exp st))) →
  (∀ g, d_group (data st) = Some g →
        fh_filename (nh_file g) ≠ fh_filename (nxs_file (exp st))) →
  ∃ st' e,
    __add_data_links linkType st = (st', Raise e) ∧
    files (exp st') !! fh_filename (nxs_file (exp st)) =
      files (exp st) !! fh_filename (nxs_file (exp st)) ∧
    data st' = data st.
Proof.
  intros Hfinal Hinter Hbf Hg.
  pose proof (frame_add_data_links_unknown (data st)
                (fh_filename (nxs_file (exp st)))
                (files (exp st) !! fh_filename (nxs_file (exp st)))
                Hg linkType Hbf Hfinal Hinter st (conj eq_refl eq_refl)) as H.
  destruct (__add_data_links linkType st) as [st' [[]|e]] eqn:Hrun.
  - destruct (add_data_links_ok_kind _ _ _ Hrun); done.
  - exists st', e. destruct H as [Hd Hf]. done.
Qed.

Lemma add_data_links_unknown_kind_witness :
  ∃ st' e,
    __add_data_links "bogus" (Example.ready false []) = (st', Raise e) ∧
    files (exp st') !! fh_filename (nxs_file (exp (Example.ready false []))) =
      files (exp (Example.ready false []))
        !! fh_filename (nxs_file (exp (Example.ready false []))) ∧
    data st' = data (Example.ready false []).
Proof.
  apply (add_data_links_unknown_kind (Example.ready false []) "bogus").
  - discriminate.
  - discriminate.
  - intros h Hh. vm_compute in Hh. injection Hh as <-.
    vm_compute. discriminate.
  - intros g Hg. vm_compute in Hg. injection Hg as <-.
    vm_compute. discriminate.
Defined.

(** C1, counterexample.  The FindPeaks dataset is linked with the unknown
    type ['bogus']: the call raises, and by then the backing file, which
    held only the group and the payload array, has the label arrays, the
    patterns and the metadata in it. *)
Lemma add_data_links_unknown_kind_writes_metadata :
  (__add_data_links "bogus" (Example.ready false [])).2 = Raise unknown_link ∧
  h5_lookup (exp (Example.ready false [])) "/scratch/run42.h5"
    ["1-FindPeaks"; "frames"] = None ∧
  h5_lookup (exp (Example.ready false [])) "/scratch/run42.h5"
    ["1-FindPeaks"; "patterns"] = None ∧
  h5_lookup (exp (__add_data_links "bogus" (Example.ready false [])).1)
    "/scratch/run42.h5" ["1-FindPeaks"; "frames"] =
    Some (H5Dataset {[ "units" := AStr "index" ]} [3%Z] "int64" None
            (Some [0; 1; 2]%Z)) ∧
  h5_lookup (exp (__add_data_links "bogus" (Example.ready false [])).1)
    "/scratch/run42.h5" ["1-FindPeaks"; "patterns"; "CHANNEL"; "core_dir"] =
    Some (H5Dataset ∅ [1%Z] "int64" None (Some [0%Z])) ∧
  h5_lookup (exp (__add_data_links "bogus" (Example.ready false [])).1)
    "/scratch/run42.h5" ["1-FindPeaks"; "meta_data"; "position"; "position"] =
    Some (H5Dataset ∅ [4%Z] "int64" None (Some [10; 20; 30; 40]%Z)).
Proof. vm_compute. repeat split. Qed.

(** ** What a single h5py call leaves in the files *)

Lemma h5_lookup_set_files e fn c f p :
  h5_lookup (set_files (<[fn := c]> (files e)) e) f p =
  if decide (fn = f) then c !! p else h5_lookup e f p.
Proof.
  unfold h5_lookup. simpl. case_decide as H.
  - subst. rewrite lookup_insert_eq. reflexivity.
  - rewrite lookup_insert_ne by done. reflexivity.
Qed.

Lemma h5_lookup_set_trace e t f p :
  h5_lookup (set_trace t e) f p = h5_lookup e f p.
Proof. reflexivity. Qed.

(** A call that returns went through an open-for-writing handle and applied
    its change to the file behind it. *)
Lemma h5_call_ok op h change st st' :
  h5_call op h change st = (st', Ok tt) →
  ∃ c c',
    fh_mode h = ModeW ∧
    files (exp st) !! fh_filename h = Some c ∧
    change c = Ok c' ∧
    data st' = data st ∧
    (∀ f p, h5_lookup (exp st') f p =
            if decide (fh_filename h = f) then c' !! p
            else h5_lookup (exp st) f p).
Proof.
  destruct st as [e d]. unfold h5_call. unfold_monad. simpl.
  case_decide as Hm; simpl; [discriminate|].
  destruct (files e !! fh_filename h) as [c|] eqn:Hc; simpl; [|discriminate].
  destruct (change c) as [c'|err] eqn:Hch; simpl; [|discriminate].
  intros [= <-]. exists c, c'. split; [by destruct (fh_mode h)|].
  split; [done|]. split; [done|]. split; [done|].
  intros f p. simpl. unfold h5_lookup; simpl. case_decide as H.
  - subst. rewrite lookup_insert_eq. reflexivity.
  - rewrite lookup_insert_ne by done. reflexivity.
Qed.

Lemma h5_create_ok parent name o c c' :
  h5_create parent name o c = Ok c' →
  c !! (parent ++ [name]) = None ∧ c' = <[parent ++ [name] := o]> c.
Proof.
  unfold h5_create. destruct (c !! parent) as [[]|]; try discriminate.
  destruct (c !! (parent ++ [name])) eqn:H; [discriminate|].
  intros [= <-]. done.
Qed.

Lemma h5_attr_ok p key v c c' :
  h5_attr p key v c = Ok c' →
  (∃ a, c !! p = Some (H5Group a) ∧ c' = <[p := H5Group (<[key := v]> a)]> c) ∨
  (∃ a sh dt ch ct, c !! p = Some (H5Dataset a sh dt ch ct) ∧
     c' = <[p := H5Dataset (<[key := v]> a) sh dt ch ct]> c).
Proof.
  unfold h5_attr. destruct (c !! p) as [[a|a sh dt ch ct|]|]; try discriminate.
  - intros [= <-]. left. eauto.
  - intros [= <-]. right. eauto 10.
Qed.

Lemma h5_assign_ok p arr c c' :
  h5_assign p arr c = Ok c' →
  ∃ a dt ch ct, c !! p = Some (H5Dataset a (a_shape arr) dt ch ct) ∧
    c' = <[p := H5Dataset a (a_shape arr) dt ch (Some (a_elems arr))]> c.
Proof.
  unfold h5_assign. destruct (c !! p) as [[a|a sh dt ch ct|]|]; try discriminate.
  case_decide; [|discriminate]. subst. intros [= <-]. eauto 10.
Qed.

Lemma h5_require_ok parent name c c' :
  h5_require parent name c = Ok c' →
  (∃ a, c !! (parent ++ [name]) = Some (H5Group a) ∧ c' = c) ∨
  (c !! (parent ++ [name]) = None ∧ c' = <[parent ++ [name] := H5Group ∅]> c).
Proof.
  unfold h5_require. destruct (c !! (parent ++ [name])) as [[]|] eqn:H;
    try discriminate.
  - intros [= <-]. left. eauto.
  - intros Hc. apply h5_create_ok in Hc as [_ ->]. right. done.
Qed.

(** Creating an object: it was not there, it is there now, and nothing
    else changed. *)
Lemma create_ok op parent name o st st' :
  (h5_call op (nh_file parent) (h5_create (nh_path parent) name o);;
   mret (child parent name)) st = (st', Ok (child parent name)) →
  h5_lookup (exp st) (fh_filename (nh_file parent)) (nh_path parent ++ [name]) = None ∧
  h5_lookup (exp st') (fh_filename (nh_file parent)) (nh_path parent ++ [name]) = Some o ∧
  (∀ f p, (f, p) ≠ (fh_filename (nh_file parent), nh_path parent ++ [name]) →
          h5_lookup (exp st') f p = h5_lookup (exp st) f p) ∧
  data st' = data st.
Proof.
  intros H. apply bind_ok_inv in H as ([] & st1 & Hcall & Hret).
  assert (st1 = st') as -> by (unfold_monad; congruence).
  apply h5_call_ok in Hcall as (c & c' & _ & Hc & Hch & Hd & Hl).
  apply h5_create_ok in Hch as [Hnone ->].
  split; [|split; [|split]].
  - unfold h5_lookup. rewrite Hc. exact Hnone.
  - rewrite Hl, decide_True by done. apply lookup_insert_eq.
  - intros f p Hne. rewrite Hl. case_decide as Hf; [|reflexivity].
    subst f. rewrite lookup_insert_ne by congruence.
    unfold h5_lookup. rewrite Hc. reflexivity.
  - exact Hd.
Qed.

Lemma returns_child {A} (m : M A) (n : node_handle) st st' r :
  (m;; mret n) st = (st', Ok r) → r = n.
Proof.
  intros H. apply bind_ok_inv in H as (a & st1 & _ & Hret).
  unfold_monad. congruence.
Qed.

Lemma create_dataset_ok op parent name sh dt ch ct st st' n :
  create_dataset op parent name sh dt ch ct st = (st', Ok n) →
  n = child parent name ∧
  h5_lookup (exp st) (fh_filename (nh_file parent)) (nh_path parent ++ [name]) = None ∧
  h5_lookup (exp st') (fh_filename (nh_file parent)) (nh_path parent ++ [name]) =
    Some (H5Dataset ∅ sh dt ch ct) ∧
  (∀ f p, (f, p) ≠ (fh_filename (nh_file parent), nh_path parent ++ [name]) →
          h5_lookup (exp st') f p = h5_lookup (exp st) f p) ∧
  data st' = data st.
Proof.
  intros H. pose proof (returns_child _ _ _ _ _ H) as ->.
  split; [reflexivity|]. apply (create_ok _ _ _ _ _ _ H).
Qed.

Lemma create_group_ok op parent name st st' n :
  create_group op parent name st = (st', Ok n) →
  n = child parent name ∧
  h5_lookup (exp st) (fh_filename (nh_file parent)) (nh_path parent ++ [name]) = None ∧
  h5_lookup (exp st') (fh_filename (nh_file parent)) (nh_path parent ++ [name]) =
    Some (H5Group ∅) ∧
  (∀ f p, (f, p) ≠ (fh_filename (nh_file parent), nh_path parent ++ [name]) →
          h5_lookup (exp st') f p = h5_lookup (exp st) f p) ∧
  data st' = data st.
Proof.
  intros H. pose proof (returns_child _ _ _ _ _ H) as ->.
  split; [reflexivity|]. apply (create_ok _ _ _ _ _ _ H).
Qed.

Lemma set_link_ok op parent name fn tgt st st' :
  set_link op parent name fn tgt st = (st', Ok tt) →
  h5_lookup (exp st) (fh_filename (nh_file parent)) (nh_path parent ++ [name]) = None ∧
  h5_lookup (exp st') (fh_filename (nh_file parent)) (nh_path parent ++ [name]) =
    Some (H5ExternalLink fn tgt) ∧
  (∀ f p, (f, p) ≠ (fh_filename (nh_file parent), nh_path parent ++ [name]) →
          h5_lookup (exp st') f p = h5_lookup (exp st) f p) ∧
  data st' = data st.
Proof.
  intros H. apply (create_ok op parent name (H5ExternalLink fn tgt) st st').
  unfold set_link in H. rewrite (bind_run _ _ _ _ _ H). reflexivity.
Qed.

Lemma set_attr_ok op n key v st st' :
  set_attr op n key v st = (st', Ok tt) →
  ∃ o, h5_lookup (exp st) (fh_filename (nh_file n)) (nh_path n) = Some o ∧
       attrs_of (with_attr key v o) !! key = Some v ∧
       h5_lookup (exp st') (fh_filename (nh_file n)) (nh_path n) =
         Some (with_attr key v o) ∧
       (∀ f p, (f, p) ≠ (fh_filename (nh_file n), nh_path n) →
               h5_lookup (exp st') f p = h5_lookup (exp st) f p) ∧
       data st' = data st.
Proof.
  intros H. apply h5_call_ok in H as (c & c' & _ & Hc & Hch & Hd & Hl).
  assert (∃ o, c !! nh_path n = Some o ∧
               attrs_of (with_attr key v o) !! key = Some v ∧
               c' = <[nh_path n := with_attr key v o]> c)
    as (o & Ho & Hkey & ->).
  { apply h5_attr_ok in Hch as [(a & Ha & ->)|(a & sh & dt & ch & ct & Ha & ->)];
      eexists; (split; [exact Ha|]); (split; [apply lookup_insert_eq|reflexivity]). }
  exists o. split; [|split; [exact Hkey|split; [|split]]].
  - unfold h5_lookup. rewrite Hc. exact Ho.
  - rewrite Hl, decide_True by done. apply lookup_insert_eq.
  - intros f p Hne. rewrite Hl. case_decide as Hf; [|reflexivity].
    subst f. rewrite lookup_insert_ne by congruence.
    unfold h5_lookup. rewrite Hc. reflexivity.
  - exact Hd.
Qed.

Lemma assign_ok op n arr st st' :
  assign op n arr st = (st', Ok tt) →
  ∃ a dt ch ct,
    h5_lookup (exp st) (fh_filename (nh_file n)) (nh_path n) =
      Some (H5Dataset a (a_shape arr) dt ch ct) ∧
    h5_lookup (exp st') (fh_filename (nh_file n)) (nh_path n) =
      Some (H5Dataset a (a_shape arr) dt ch (Some (a_elems arr))) ∧
    (∀ f p, (f, p) ≠ (fh_filename (nh_file n), nh_path n) →
            h5_lookup (exp st') f p = h5_lookup (exp st) f p) ∧
    data st' = data st.
Proof.
  intros H. apply h5_call_ok in H as (c & c' & _ & Hc & Hch & Hd & Hl).
  apply h5_assign_ok in Hch as (a & dt & ch & ct & Ha & ->).
  exists a, dt, ch, ct. split; [|split; [|split]].
  - unfold h5_lookup. rewrite Hc. exact Ha.
  - rewrite Hl, decide_True by done. apply lookup_insert_eq.
  - intros f p Hne. rewrite Hl. case_decide as Hf; [|reflexivity].
    subst f. rewrite lookup_insert_ne by congruence.
    unfold h5_lookup. rewrite Hc. reflexivity.
  - exact Hd.
Qed.

Lemma barrier_ok st st' :
  _barrier st = (st', Ok tt) →
  data st' = data st ∧ ∀ f p, h5_lookup (exp st') f p = h5_lookup (exp st) f p.
Proof. unfold_monad. intros [= <-]. done. Qed.

Lemma modify_data_ok g st st' :
  modify_data g st = (st', Ok tt) →
  data st' = g (data st) ∧ exp st' = exp st.
Proof. unfold_monad. intros [= <-]. done. Qed.

Lemma get_data_ok st st' d : get_data st = (st', Ok d) → st' = st ∧ d = data st.
Proof. unfold get_data. intros [= <- <-]. done. Qed.

Lemma get_exp_ok st st' e : get_exp st = (st', Ok e) → st' = st ∧ e = exp st.
Proof. unfold get_exp. intros [= <- <-]. done. Qed.

Lemma from_option_ok {A} e (o : option A) st st' a :
  from_option e o st = (st', Ok a) → st' = st ∧ o = Some a.
Proof. destruct o; unfold_monad; intros [= <-]; subst; done. Qed.

Lemma ret_ok {A} (a b : A) st st' :
  (mret a : M A) st = (st', Ok b) → st' = st ∧ b = a.
Proof. unfold_monad. intros [= <- <-]. done. Qed.

(** Split the first call off a run that returned; reads of the state are
    resolved on the spot. *)
Tactic Notation "step" hyp(H) "as" simple_intropattern(a) ident(s) ident(Hm) :=
  (apply bind_ok_inv in H as (a & s & Hm & H);
   lazymatch type of Hm with
   | get_data _ = _ => apply get_data_ok in Hm as [-> ->]
   | get_exp _ = _ => apply get_exp_ok in Hm as [-> ->]
   | from_option _ _ _ = _ => apply from_option_ok in Hm as [-> Hm]
   | _ => idtac
   end).

(** ** Allocating the payload array *)

(** C5.  When [__create_entries] returns, the array [data] it created in
    the group has the shape and the dtype of the dataset object.  With
    [current_and_next] equal to 0 it is created without a chunks argument,
    that is as one contiguous extent; otherwise its chunks are exactly what
    the chunk planner returned for this [current_and_next], shape and
    dtype.  The array is left unwritten and is bound to [data.data]. *)
Theorem create_entries_allocation
    (plan : current_and_next_t → list Z → string → list Z)
    (st st' : State) (key : string) (cn : current_and_next_t)
    (group_name : string) (group : node_handle) :
  __create_entries plan key cn st = (st', Ok (group_name, group)) →
  h5_lookup (exp st') (fh_filename (nh_file group)) (nh_path group ++ ["data"]) =
    Some (H5Dataset ∅ (d_shape (data st)) (d_dtype (data st))
            (if is_zero cn then None
             else Some (plan cn (d_shape (data st)) (d_dtype (data st))))
            None) ∧
  d_data (data st') = Some (child group "data").
Proof.
  intros H. unfold __create_entries in H.
  step H as [] s1 Hb1.
  step H as e s2 He.
  step H as gname s3 Hgname.
  step H as [] s4 Hinfo.
  step H as d s5 Hd.
  step H as bf s6 Hbf.
  step H as grp s7 Hgrp.
  step H as [] s8 Hattr1.
  step H as [] s9 Hattr2.
  step H as [] s10 Hb2.
  apply bind_ok_inv in H as ([] & s11 & Hif & H).
  step H as [] s12 Hb3.
  apply ret_ok in H as [-> [= -> ->]].
  apply barrier_ok in Hb1 as [Hd1 _].
  apply modify_data_ok in Hinfo as [Hd4 _].
  assert (Hsh : d_shape (data s4) = d_shape (data st)) by (rewrite Hd4, Hd1; done).
  assert (Hdt : d_dtype (data s4) = d_dtype (data st)) by (rewrite Hd4, Hd1; done).
  rewrite Hsh, Hdt in Hif.
  apply barrier_ok in Hb3 as [Hd12 Hl12]. rewrite Hd12, Hl12.
  destruct (is_zero cn).
  - step Hif as dset s13 Hnew.
    apply create_dataset_ok in Hnew as (-> & _ & Hnew & _ & _).
    apply modify_data_ok in Hif as [-> ->]. done.
  - step Hif as [] s13 Hb4. step Hif as [] s14 Hb5.
    step Hif as dset s15 Hnew.
    apply create_dataset_ok in Hnew as (-> & _ & Hnew & _ & _).
    apply modify_data_ok in Hif as [-> ->]. done.
Qed.

Lemma create_entries_allocation_witness :
  h5_lookup
    (exp (__create_entries Example.plan "Peaks" (CNInt 0) Example.opened).1)
    "/scratch/run42.h5" ["1-FindPeaks"; "data"] =
    Some (H5Dataset ∅ [3; 4]%Z "float64" None None) ∧
  h5_lookup
    (exp (__create_entries Example.plan "Peaks" (CNHint "SPECTRUM" "CHANNEL")
            Example.opened).1)
    "/scratch/run42.h5" ["1-FindPeaks"; "data"] =
    Some (H5Dataset ∅ [3; 4]%Z "float64" (Some [1; 1]%Z) None).
Proof.
  assert (H0 : (__create_entries Example.plan "Peaks" (CNInt 0)
                  Example.opened).2 =
               Ok ("1-FindPeaks",
                   {| nh_file := Example.run42; nh_path := ["1-FindPeaks"] |}))
    by (vm_compute; reflexivity).
  assert (H1 : (__create_entries Example.plan "Peaks"
                  (CNHint "SPECTRUM" "CHANNEL") Example.opened).2 =
               Ok ("1-FindPeaks",
                   {| nh_file := Example.run42; nh_path := ["1-FindPeaks"] |}))
    by (vm_compute; reflexivity).
  apply run_eq in H0, H1. split.
  - refine (eq_trans (proj1 (create_entries_allocation _ _ _ _ _ _ _ H0)) _).
    vm_compute. reflexivity.
  - refine (eq_trans (proj1 (create_entries_allocation _ _ _ _ _ _ _ H1)) _).
    vm_compute. reflexivity.
Defined.

(** ** Writing the axis labels *)

(** The value the loop writes for a label: the three statements that read
    the metadata, coerce a list and take the shape and dtype. *)
Lemma label_data_ok (d : Data) (name : string) (count : nat) st s1 s2 mData arr :
  match d_meta_data d !! name with
  | Some v => mret v
  | None =>
      n ← from_option IndexError (d_shape d !! count);
      mret (PArray (np_arange n))
  end st = (s1, Ok mData) →
  match match mData with PList l => PArray (np_array l) | v => v end with
  | PArray a => mret a
  | _ => raise AttributeError
  end s1 = (s2, Ok arr) →
  s2 = st ∧ label_array d count name = Some arr.
Proof.
  unfold label_array. intros H1 H2.
  destruct (d_meta_data d !! name) as [v|].
  - apply ret_ok in H1 as [-> ->].
    destruct v; simpl in H2; unfold_monad; try discriminate;
      injection H2 as <- <-; done.
  - step H1 as n s3 Hn. apply ret_ok in H1 as [-> ->]. simpl in H2.
    apply ret_ok in H2 as [-> ->]. rewrite Hn. done.
Qed.

(** One pass of the loop: what it returns, and which objects it leaves as
    they were -- all that existed before, the entry group apart. *)
Lemma axis_labels_loop_frame entry labels count axes st st' r :
  axis_labels_loop entry labels count axes st = (st', Ok r) →
  data st' = data st ∧ r = axes ++ labels.*1 ∧
  ∀ f p, (f, p) ≠ at_node entry → is_Some (h5_lookup (exp st) f p) →
         h5_lookup (exp st') f p = h5_lookup (exp st) f p.
Proof.
  revert count axes st.
  induction labels as [|[name units] rest IH]; intros count axes st H.
  - apply ret_ok in H as [-> ->]. rewrite app_nil_r. done.
  - simpl in H.
    step H as [] s1 Hidx. step H as d s2 Hd.
    step H as mData s3 HmData. step H as arr s4 Harr.
    destruct (label_data_ok _ _ _ _ _ _ _ _ HmData Harr) as [-> _].
    step H as group s5 Hgroup.
    step H as temp s6 Hcreate. step H as [] s7 Hassign. step H as [] s8 Hunits.
    apply set_attr_ok in Hidx as (o & _ & _ & _ & Hf1 & Hd1).
    apply create_dataset_ok in Hcreate as (-> & Hfresh & _ & Hf2 & Hd2).
    apply assign_ok in Hassign as (? & ? & ? & ? & _ & _ & Hf3 & Hd3).
    apply set_attr_ok in Hunits as (? & _ & _ & _ & Hf4 & Hd4).
    apply IH in H as (Hd5 & -> & Hf5).
    split; [congruence|]. split.
    { simpl. rewrite <- app_assoc. reflexivity. }
    intros f p Hne Hsome.
    assert (Hkeep1 : h5_lookup (exp s1) f p = h5_lookup (exp st) f p)
      by (apply Hf1, Hne).
    assert (Hne2 : (f, p) ≠ at_node (child group name)).
    { intros Heq. injection Heq as -> ->. unfold child in Hkeep1.
      simpl in *. rewrite Hfresh in Hkeep1. rewrite <- Hkeep1 in Hsome.
      by destruct Hsome. }
    rewrite Hf5, Hf4, Hf3, Hf2, Hkeep1; try done.
    rewrite Hf4, Hf3, Hf2, Hkeep1; done.
Qed.

(** What the loop has written for each of its labels when it returns. *)
Lemma axis_labels_loop_written entry labels count axes st st' r :
  axis_labels_loop entry labels count axes st = (st', Ok r) →
  ∀ i name units, labels !! i = Some (name, units) →
    ∃ group arr,
      d_group (data st) = Some group ∧
      label_array (data st) (count + i) name = Some arr ∧
      at_node (child group name) ≠ at_node entry ∧
      h5_lookup (exp st') (fh_filename (nh_file group)) (nh_path group ++ [name]) =
        Some (H5Dataset {[ "units" := AStr units ]} (a_shape arr) (a_dtype arr)
                None (Some (a_elems arr))).
Proof.
  revert count axes st.
  induction labels as [|[name0 units0] rest IH]; intros count axes st H i name units Hi.
  - done.
  - simpl in H.
    step H as [] s1 Hidx. step H as d s2 Hd.
    step H as mData s3 HmData. step H as arr s4 Harr.
    destruct (label_data_ok _ _ _ _ _ _ _ _ HmData Harr) as [-> Harray].
    step H as group s5 Hgroup.
    step H as temp s6 Hcreate. step H as [] s7 Hassign. step H as [] s8 Hunits.
    apply set_attr_ok in Hidx as (o & _ & _ & Hentry & _ & Hd1).
    apply create_dataset_ok in Hcreate as (-> & Hfresh & Hnew & _ & Hd2).
    apply assign_ok in Hassign as (a & dt & ch & ct & Hold & Hfull & _ & Hd3).
    apply set_attr_ok in Hunits as (o' & Hfull' & _ & Hlabel & _ & Hd4).
    simpl in *. rewrite Hnew in Hold. injection Hold as <- <- <- <-.
    rewrite Hfull in Hfull'. injection Hfull' as <-. simpl in Hlabel.
    rewrite Hd1 in Harray, Hgroup.
    assert (Hne : at_node (child group name0) ≠ at_node entry).
    { intros Heq. unfold at_node in Heq. simpl in Heq.
      injection Heq as Hf Hp. rewrite Hf, Hp, Hentry in Hfresh. done. }
    destruct i as [|i]; simpl in Hi.
    + injection Hi as -> ->.
      exists group, arr. rewrite Nat.add_0_r.
      split; [done|]. split; [done|]. split; [done|].
      destruct (axis_labels_loop_frame _ _ _ _ _ _ _ H) as (_ & _ & Hkeep).
      rewrite Hkeep; [rewrite Hlabel; by rewrite insert_empty|done|].
      rewrite Hlabel. done.
    + destruct (IH _ _ _ H i name units Hi) as (g & arr' & Hg & Harr' & Hne' & Hl).
      exists g, arr'.
      rewrite Hd4, Hd3, Hd2, Hd1 in Hg, Harr'.
      replace (count + S i) with (S count + i) by lia. done.
Qed.

(** C9.  When [__output_axis_labels] returns, each axis label of the
    dataset object has its array in the group: the metadata value stored
    under the label's name when there is one (a plain list turned into an
    array), otherwise the indices 0 .. extent-1 of the axis.  The array
    carries the units of the label as its [units] attribute, and the entry
    group carries the names of the labels, in order, as its [axes]
    attribute. *)
Theorem output_axis_labels_written (st st' : State) (entry : node_handle) :
  __output_axis_labels entry st = (st', Ok tt) →
  (∀ i name units, d_axis_labels (data st) !! i = Some (name, units) →
     ∃ group arr,
       d_group (data st) = Some group ∧
       label_array (data st) i name = Some arr ∧
       h5_lookup (exp st') (fh_filename (nh_file group)) (nh_path group ++ [name]) =
         Some (H5Dataset {[ "units" := AStr units ]} (a_shape arr) (a_dtype arr)
                 None (Some (a_elems arr)))) ∧
  (∃ o, h5_lookup (exp st') (fh_filename (nh_file entry)) (nh_path entry) = Some o ∧
        attrs_of o !! "axes" = Some (AStrs (d_axis_labels (data st)).*1)).
Proof.
  intros H. unfold __output_axis_labels in H.
  step H as [] s1 Hb1. step H as d s2 Hd. step H as axes s3 Hloop.
  step H as [] s4 Haxes.
  apply barrier_ok in Hb1 as [Hd1 Hl1].
  apply barrier_ok in H as [Hd5 Hl5].
  apply set_attr_ok in Haxes as (o & _ & Hkey & Hentry & Hkeep & Hd4).
  destruct (axis_labels_loop_frame _ _ _ _ _ _ _ Hloop) as (_ & -> & _).
  split.
  - intros i name units Hi. rewrite <- Hd1 in Hi.
    destruct (axis_labels_loop_written _ _ _ _ _ _ _ Hloop i name units Hi)
      as (group & arr & Hg & Harr & Hne & Hl).
    exists group, arr. rewrite Hd1 in Hg, Harr.
    split; [done|]. split; [done|]. rewrite Hl5, Hkeep; done.
  - exists (with_attr "axes" (AStrs (d_axis_labels (data s1)).*1) o).
    rewrite Hl5, Hentry. rewrite Hd1 in *. done.
Qed.

Lemma output_axis_labels_written_witness :
  h5_lookup (exp (__output_axis_labels Example.peaks_group Example.created).1)
    "/scratch/run42.h5" ["1-FindPeaks"; "frames"] =
    Some (H5Dataset {[ "units" := AStr "index" ]} [3%Z] "int64" None
            (Some [0; 1; 2]%Z)) ∧
  h5_lookup (exp (__output_axis_labels Example.peaks_group Example.created).1)
    "/scratch/run42.h5" ["1-FindPeaks"; "position"] =
    Some (H5Dataset {[ "units" := AStr "idx" ]} [4%Z] "int64" None
            (Some [10; 20; 30; 40]%Z)) ∧
  ∃ o, h5_lookup (exp (__output_axis_labels Example.peaks_group Example.created).1)
         "/scratch/run42.h5" ["1-FindPeaks"] = Some o ∧
       attrs_of o !! "axes" = Some (AStrs ["frames"; "position"]).
Proof.
  assert (Hrun : (__output_axis_labels Example.peaks_group Example.created).2 =
                 Ok tt) by (vm_compute; reflexivity).
  apply run_eq in Hrun.
  destruct (output_axis_labels_written _ _ _ Hrun) as [Hlabels Haxes].
  split; [|split].
  - destruct (Hlabels 0 "frames" "index" eq_refl) as (g & arr & Hg & Harr & Hl).
    injection Hg as <-. injection Harr as <-. exact Hl.
  - destruct (Hlabels 1 "position" "idx" eq_refl) as (g & arr & Hg & Harr & Hl).
    injection Hg as <-. vm_compute in Harr. injection Harr as <-. exact Hl.
  - exact Haxes.
Defined.

(** ** Registering the link in the master file *)

Lemma barrier_state st st' :
  _barrier st = (st', Ok tt) → st' = after_barrier st.
Proof. unfold after_barrier. unfold_monad. intros [= <-]. reflexivity. Qed.

Lemma h5_getitem_ok h p st st' n :
  h5_getitem h p st = (st', Ok n) →
  st' = st ∧ n = {| nh_file := h; nh_path := p |} ∧
  is_Some (h5_lookup (exp st) (fh_filename h) p).
Proof.
  unfold h5_getitem, h5_lookup. unfold_monad.
  destruct (files (exp st) !! fh_filename h) as [c|]; simpl; [|discriminate].
  destruct (c !! p) eqn:Hp; [|discriminate].
  intros [= <- <-]. done.
Qed.

Lemma require_group_ok op parent name st st' n :
  require_group op parent name st = (st', Ok n) →
  n = child parent name ∧
  (∃ a, h5_lookup (exp st') (fh_filename (nh_file parent)) (nh_path parent ++ [name]) =
          Some (H5Group a) ∧
        ∀ a0, h5_lookup (exp st) (fh_filename (nh_file parent))
                (nh_path parent ++ [name]) = Some (H5Group a0) → a = a0) ∧
  (∀ f p, (f, p) ≠ (fh_filename (nh_file parent), nh_path parent ++ [name]) →
          h5_lookup (exp st') f p = h5_lookup (exp st) f p) ∧
  data st' = data st.
Proof.
  intros H. pose proof (returns_child _ _ _ _ _ H) as ->.
  split; [reflexivity|].
  apply bind_ok_inv in H as ([] & s1 & Hcall & Hret).
  apply ret_ok in Hret as [-> _].
  apply h5_call_ok in Hcall as (c & c' & _ & Hc & Hch & Hd & Hl).
  assert (Hold : ∀ p, h5_lookup (exp st) (fh_filename (nh_file parent)) p = c !! p).
  { intros p. unfold h5_lookup. rewrite Hc. reflexivity. }
  apply h5_require_ok in Hch as [(a & Ha & ->)|[Hnone ->]].
  - split; [|split; [|exact Hd]].
    + exists a. rewrite Hl, decide_True by done. split; [exact Ha|].
      intros a0. rewrite Hold, Ha. congruence.
    + intros f p _. rewrite Hl. case_decide; [subst; by rewrite Hold|done].
  - split; [|split; [|exact Hd]].
    + exists ∅. rewrite Hl, decide_True by done.
      split; [apply lookup_insert_eq|]. intros a0. rewrite Hold, Hnone. done.
    + intros f p Hne. rewrite Hl. case_decide as Hf; [|done]. subst f.
      rewrite lookup_insert_ne by congruence. by rewrite Hold.
Qed.

Lemma output_metadata_untouched entry st fn :
  fh_filename (nh_file entry) ≠ fn →
  (∀ g, d_group (data st) = Some g → fh_filename (nh_file g) ≠ fn) →
  ∀ p, h5_lookup (exp (__output_metadata entry st).1) fn p = h5_lookup (exp st) fn p.
Proof.
  intros Hentry Hgroup p.
  pose proof (frame_output_metadata (data st) fn (files (exp st) !! fn)
                Hgroup entry Hentry) as H.
  apply (preserves_run _ _ st) in H as [_ H]; [|done].
  unfold h5_lookup. rewrite H. reflexivity.
Qed.

Lemma snoc_ne {A} (l : list A) (x : A) : l ++ [x] ≠ l.
Proof.
  intros H. apply (f_equal length) in H. rewrite length_app in H. simpl in H. lia.
Qed.

(** C6.  When [__add_data_links] returns, the link is registered in the
    master file as an external link to the file name (without directories)
    of the backing file and to [data.group_name].  For ['final_result'] it
    sits in the entry group under the name final_result_<name>.  For
    ['intermediate'] it sits under <group_name>_<name> in the group
    [intermediate] of the entry group, which is tagged NXcollection.  That
    group is obtained with [require_group]: when it exists already it is
    kept with its attributes, and every other object of the master file,
    the links registered before included, is left as it was. *)
Theorem add_data_links_registers (st st' : State) (linkType : string) :
  __add_data_links linkType st = (st', Ok tt) →
  ∃ bf gn,
    d_backing_file (data st) = Some bf ∧
    d_group_name (data st) = Some gn ∧
    let nxs := fh_filename (nxs_file (exp st)) in
    let link := H5ExternalLink (split_last (fh_filename bf)) gn in
    let collection := ["entry"; "intermediate"] in
    let name := gn +:+ "_" +:+ d_name (data st) in
    (linkType = "final_result" →
     h5_lookup (exp st') nxs ["entry"; "final_result_" +:+ d_name (data st)] =
       Some link) ∧
    (linkType = "intermediate" →
     (∃ a, h5_lookup (exp st') nxs collection = Some (H5Group a) ∧
           a !! "NX_class" = Some (AStr "NXcollection")) ∧
     h5_lookup (exp st') nxs (collection ++ [name]) = Some link ∧
     (fh_filename bf ≠ nxs →
      (∀ g, d_group (data st) = Some g → fh_filename (nh_file g) ≠ nxs) →
      (∀ a0, h5_lookup (exp st) nxs collection = Some (H5Group a0) →
             h5_lookup (exp st') nxs collection =
               Some (H5Group (<["NX_class" := AStr "NXcollection"]> a0))) ∧
      (∀ p, p ≠ collection → p ≠ collection ++ [name] →
            h5_lookup (exp st') nxs p = h5_lookup (exp st) nxs p))).
Proof.
  intros H. pose proof (add_data_links_ok_kind _ _ _ H) as Hkind.
  unfold __add_data_links in H.
  step H as [] s1 Hb1. apply barrier_state in Hb1 as ->.
  step H as e s2 He.
  step H as entry s3 Hentry. apply h5_getitem_ok in Hentry as (-> & -> & _).
  step H as d s4 Hd.
  step H as gname s5 Hgname.
  step H as bf s6 Hbf.
  step H as target s7 Htarget. apply h5_getitem_ok in Htarget as (-> & -> & _).
  step H as [] s8 Hmeta.
  step H as d' s9 Hd'.
  step H as bf' s10 Hbf'.
  apply bind_ok_inv in H as ([] & s11 & Hif & Hb2).
  apply barrier_ok in Hb2 as [_ Hl12].
  pose proof (output_metadata_data
                {| nh_file := bf; nh_path := [gname] |} (after_barrier st)) as Hdm.
  pose proof (output_metadata_untouched
                {| nh_file := bf; nh_path := [gname] |} (after_barrier st)
                (fh_filename (nxs_file (exp st)))) as Hframe.
  rewrite Hmeta in Hdm, Hframe. simpl in *. rewrite Hdm in *.
  assert (bf' = bf) as -> by congruence.
  destruct Hkind as [-> | ->].
  - rewrite decide_True in Hif by done.
    step Hif as gn s12 Hgn.
    apply set_link_ok in Hif as (_ & Hlink & _ & _). simpl in Hlink.
    exists bf, gn. split; [done|]. split; [done|]. simpl. split; [|done].
    intros _. rewrite Hl12. exact Hlink.
  - rewrite decide_False, decide_True in Hif by done.
    step Hif as gn s12 Hgn.
    step Hif as coll s13 Hreq.
    step Hif as [] s14 Htag.
    step Hif as gn' s15 Hgn'.
    apply require_group_ok in Hreq as (-> & (a & Hgrp & Hsame) & Hkeep1 & Hd1).
    apply set_attr_ok in Htag as (o & Ho & _ & Htag & Hkeep2 & Hd2).
    apply set_link_ok in Hif as (_ & Hlink & Hkeep3 & _).
    simpl in *. rewrite Hgrp in Ho. injection Ho as <-. simpl in Htag.
    rewrite Hgn in Hgn'. injection Hgn' as <-.
    assert (Hcoll : h5_lookup (exp st') (fh_filename (nxs_file (exp st)))
                      ["entry"; "intermediate"] =
                    Some (H5Group (<["NX_class" := AStr "NXcollection"]> a))).
    { rewrite Hl12, Hkeep3, Htag; [done|]. intros [= Hp]. }
    exists bf, gn. split; [done|]. split; [done|]. simpl. split; [done|].
    intros _. split; [|split].
    + eexists. split; [exact Hcoll|]. apply lookup_insert_eq.
    + rewrite Hl12. exact Hlink.
    + intros Hbf_ne Hgroup_ne. split.
      * intros a0 Ha0. rewrite Hcoll.
        rewrite <- (Hsame a0); [done|]. rewrite Hframe; done.
      * intros p Hp1 Hp2.
        rewrite Hl12, Hkeep3, Hkeep2, Hkeep1, Hframe;
          first [reflexivity | done | congruence].
Qed.

Lemma add_data_links_registers_witness :
  h5_lookup (exp (__add_data_links "final_result" Example.created).1)
    "savu.nxs" ["entry"; "final_result_Peaks"] =
    Some (H5ExternalLink "run42.h5" "1-FindPeaks") ∧
  h5_lookup (exp (__add_data_links "intermediate" Example.created).1)
    "savu.nxs" ["entry"; "intermediate"; "1-FindPeaks_Peaks"] =
    Some (H5ExternalLink "run42.h5" "1-FindPeaks").
Proof.
  assert (Hfinal : (__add_data_links "final_result" Example.created).2 = Ok tt)
    by (vm_compute; reflexivity).
  assert (Hinter : (__add_data_links "intermediate" Example.created).2 = Ok tt)
    by (vm_compute; reflexivity).
  apply run_eq in Hfinal, Hinter. split.
  - destruct (add_data_links_registers _ _ _ Hfinal)
      as (bf & gn & Hbf & Hgn & Hlink & _).
    injection Hbf as <-. injection Hgn as <-. exact (Hlink eq_refl).
  - destruct (add_data_links_registers _ _ _ Hinter)
      as (bf & gn & Hbf & Hgn & _ & Hlink).
    injection Hbf as <-. injection Hgn as <-.
    exact (proj1 (proj2 (Hlink eq_refl))).
Defined.

(** ** Reopening read-only *)

(** Without MPI the reopening leaves every file as it is. *)
Lemma open_read_only_sequential filename entry st :
  mpi (exp st) = false →
  files (exp (_open_read_only filename entry st).1) = files (exp st).
Proof.
  intros Hmpi. destruct st as [e d]. simpl in Hmpi.
  unfold _open_read_only, __open_backing_h5, h5py_File, h5_getitem.
  unfold_monad. simpl. rewrite Hmpi. simpl.
  destruct (files e !! filename) as [c|] eqn:Hc; simpl; [|reflexivity].
  rewrite Hc. simpl. destruct (c !! entry); reflexivity.
Qed.

(** With MPI the file is opened with mode ['w'] whatever mode was asked
    for: the reopening leaves an empty file behind. *)
Lemma open_read_only_mpi filename entry st :
  mpi (exp st) = true →
  files (exp (_open_read_only filename entry st).1) !! filename = Some new_file ∧
  (entry ≠ [] → (_open_read_only filename entry st).2 = Raise KeyError).
Proof.
  intros Hmpi. destruct st as [e d]. simpl in Hmpi.
  unfold _open_read_only, __open_backing_h5, h5py_File, h5_getitem.
  unfold_monad. simpl. rewrite Hmpi. simpl.
  rewrite lookup_insert_eq. simpl. unfold new_file.
  destruct entry as [|x entry].
  - rewrite lookup_singleton_eq. simpl. rewrite lookup_insert_eq. done.
  - rewrite lookup_singleton_ne by done. simpl. rewrite lookup_insert_eq. done.
Qed.

(** C8, the code at the failing input.  The FindPeaks dataset is saved
    under MPI -- axis labels, patterns and metadata are in the backing file
    when it is closed -- and then reopened through [_open_read_only]: the
    reopening raises KeyError on the payload array and leaves the backing
    file empty, so that none of the written values can be read back. *)
Lemma reopen_read_only_mpi_loses_metadata :
  let saved := (_save_data (Some "final_result") (Example.ready true [])).1 in
  let reopened :=
    _open_read_only "/scratch/run42.h5" ["1-FindPeaks"; "data"] saved in
  h5_lookup (exp saved) "/scratch/run42.h5" ["1-FindPeaks"; "position"] =
    Some (H5Dataset {[ "units" := AStr "idx" ]} [4%Z] "int64" None
            (Some [10; 20; 30; 40]%Z)) ∧
  h5_lookup (exp saved) "/scratch/run42.h5"
    ["1-FindPeaks"; "patterns"; "SPECTRUM"; "slice_dir"] =
    Some (H5Dataset ∅ [1%Z] "int64" None (Some [0%Z])) ∧
  reopened.2 = Raise KeyError ∧
  files (exp reopened.1) !! "/scratch/run42.h5" = Some new_file ∧
  h5_lookup (exp reopened.1) "/scratch/run42.h5" ["1-FindPeaks"; "position"] = None ∧
  h5_lookup (exp reopened.1) "/scratch/run42.h5"
    ["1-FindPeaks"; "patterns"; "SPECTRUM"; "slice_dir"] = None ∧
  h5_lookup (exp reopened.1) "/scratch/run42.h5"
    ["1-FindPeaks"; "meta_data"; "position"] = None.
Proof. vm_compute. repeat split. Qed.

(** The same run without MPI: the reopening returns, the handle is
    read-only, and the values written are still there. *)
Lemma reopen_read_only_sequential_keeps_metadata :
  let saved := (_save_data (Some "final_result") (Example.ready false [])).1 in
  let reopened :=
    _open_read_only "/scratch/run42.h5" ["1-FindPeaks"; "data"] saved in
  reopened.2 = Ok tt ∧
  d_backing_file (data reopened.1) =
    Some {| fh_filename := "/scratch/run42.h5"; fh_mode := ModeR |} ∧
  h5_lookup (exp reopened.1) "/scratch/run42.h5" ["1-FindPeaks"; "position"] =
    Some (H5Dataset {[ "units" := AStr "idx" ]} [4%Z] "int64" None
            (Some [10; 20; 30; 40]%Z)) ∧
  h5_lookup (exp reopened.1) "/scratch/run42.h5"
    ["1-FindPeaks"; "patterns"; "SPECTRUM"; "slice_dir"] =
    Some (H5Dataset ∅ [1%Z] "int64" None (Some [0%Z])) ∧
  h5_lookup (exp reopened.1) "/scratch/run42.h5"
    ["1-FindPeaks"; "meta_data"; "position"; "position"] =
    Some (H5Dataset ∅ [4%Z] "int64" None (Some [10; 20; 30; 40]%Z)).
Proof. vm_compute. repeat split. Qed.

(** ** Setup returns *)

Lemma h5_call_run op h change st c c' :
  fh_mode h = ModeW →
  files (exp st) !! fh_filename h = Some c →
  change c = Ok c' →
  h5_call op h change st =
    ({| exp := set_files (<[fh_filename h := c']> (files (exp st)))
                 (set_trace (trace (exp st) ++ [Call op]) (exp st));
        data := data st |}, Ok tt).
Proof.
  intros Hm Hc Hch. destruct st as [e d]. unfold h5_call. unfold_monad. simpl in *.
  rewrite Hm. simpl. rewrite Hc. simpl. rewrite Hch. reflexivity.
Qed.

(** [__create_entries] returns whenever the group name is registered, the
    backing file is open for writing and the group is not in it yet. *)
Lemma create_entries_returns plan key cn st g0 bf c a_root :
  let gname := if d_has_name_attr (data st) then g0 +:+ "_" +:+ d_name (data st)
               else g0 in
  exp_group_name (exp st) !! key = Some g0 →
  d_backing_file (data st) = Some bf →
  fh_mode bf = ModeW →
  files (exp st) !! fh_filename bf = Some c →
  c !! [] = Some (H5Group a_root) →
  c !! [gname] = None →
  c !! [gname; "data"] = None →
  (__create_entries plan key cn st).2 =
    Ok (gname, {| nh_file := bf; nh_path := [gname] |}).
Proof.
  intros gname Hkey Hbf Hmode Hc Hroot Hfree1 Hfree2.
  unfold __create_entries.
  destruct st as [e d]. simpl in *.
  unfold create_group, set_attr, create_dataset.
  unfold _barrier, emit, from_option, modify_exp, modify_data, get_exp, get_data.
  unfold mbind, M_bind, mret, M_ret. simpl.
  rewrite Hkey. simpl. rewrite Hbf. simpl. fold gname.
  erewrite h5_call_run; [|exact Hmode|exact Hc|]; cycle 1.
  { unfold h5_create. rewrite Hroot. simpl. rewrite Hfree1. reflexivity. }
  simpl.
  erewrite h5_call_run; [|exact Hmode|simpl; apply lookup_insert_eq|]; cycle 1.
  { unfold h5_attr. simpl. rewrite lookup_insert_eq. reflexivity. }
  simpl.
  erewrite h5_call_run; [|exact Hmode|simpl; apply lookup_insert_eq|]; cycle 1.
  { unfold h5_attr. simpl. rewrite lookup_insert_eq. reflexivity. }
  simpl.
  assert (Hdata : ∀ o (m : h5file),
            h5_create [gname] "data" o
              (<[[gname] := H5Group (<["signal" := AStr "data"]>
                                       (<[NX_CLASS := AStr "NXdata"]> ∅))]>
                 (<[[gname] := H5Group (<[NX_CLASS := AStr "NXdata"]> ∅)]>
                    (<[[gname] := H5Group ∅]> c))) =
            Ok (<[[gname; "data"] := o]>
                  (<[[gname] := H5Group (<["signal" := AStr "data"]>
                                           (<[NX_CLASS := AStr "NXdata"]> ∅))]>
                     (<[[gname] := H5Group (<[NX_CLASS := AStr "NXdata"]> ∅)]>
                        (<[[gname] := H5Group ∅]> c))))).
  { intros o _. unfold h5_create. rewrite lookup_insert_eq. simpl.
    rewrite !lookup_insert_ne by done. rewrite Hfree2. reflexivity. }
  destruct (is_zero cn); simpl.
  - erewrite h5_call_run; [|exact Hmode|simpl; apply lookup_insert_eq|apply (Hdata _ c)].
    reflexivity.
  - erewrite h5_call_run; [|exact Hmode|simpl; apply lookup_insert_eq|apply (Hdata _ c)].
    reflexivity.
Qed.

Lemma create_entries_backing_file plan key cn st st' r :
  __create_entries plan key cn st = (st', Ok r) →
  d_backing_file (data st') = d_backing_file (data st).
Proof.
  intros H. unfold __create_entries in H.
  step H as [] s1 Hb1. step H as e s2 He. step H as gn s3 Hgn.
  step H as [] s4 Hinfo. step H as d s5 Hd. step H as bf' s6 Hbf.
  step H as grp s7 Hgrp. step H as [] s8 Ha1. step H as [] s9 Ha2.
  step H as [] s10 Hb2.
  apply bind_ok_inv in H as ([] & s11 & Hif & H).
  step H as [] s12 Hb3. apply ret_ok in H as [-> _].
  apply barrier_ok in Hb1 as [Hd1 _].
  apply modify_data_ok in Hinfo as [Hd4 _].
  apply create_group_ok in Hgrp as (_ & _ & _ & _ & Hd7).
  apply set_attr_ok in Ha1 as (? & _ & _ & _ & _ & Hd8).
  apply set_attr_ok in Ha2 as (? & _ & _ & _ & _ & Hd9).
  apply barrier_ok in Hb2 as [Hd10 _].
  apply barrier_ok in Hb3 as [Hd12 _].
  assert (Hd11 : d_backing_file (data s11) = d_backing_file (data s10)).
  { destruct (is_zero cn).
    - step Hif as dset s13 Hnew.
      apply create_dataset_ok in Hnew as (_ & _ & _ & _ & Hd13).
      apply modify_data_ok in Hif as [-> _]. simpl. by rewrite Hd13.
    - step Hif as [] s13 Hb4. step Hif as [] s14 Hb5.
      step Hif as dset s15 Hnew.
      apply barrier_ok in Hb4 as [Hd13 _]. apply barrier_ok in Hb5 as [Hd14 _].
      apply create_dataset_ok in Hnew as (_ & _ & _ & _ & Hd15).
      apply modify_data_ok in Hif as [-> _]. simpl.
      by rewrite Hd15, Hd14, Hd13. }
  rewrite Hd12, Hd11, Hd10, Hd9, Hd8, Hd7, Hd4, Hd1. reflexivity.
Qed.

(** [setup] returns for every dataset whose file name and group name are
    registered, with or without a chunking hint, and leaves the handles of
    the new group and payload array in the dataset object. *)
Lemma setup_dataset_returns plan key cn st filename g0 :
  let gname := if d_has_name_attr (data st) then g0 +:+ "_" +:+ d_name (data st)
               else g0 in
  let bf := {| fh_filename := filename; fh_mode := ModeW |} in
  exp_filename (exp st) !! key = Some filename →
  exp_group_name (exp st) !! key = Some g0 →
  (setup_dataset plan key cn st).2 = Ok tt ∧
  d_backing_file (data (setup_dataset plan key cn st).1) = Some bf ∧
  d_group_name (data (setup_dataset plan key cn st).1) = Some gname ∧
  d_group (data (setup_dataset plan key cn st).1) =
    Some {| nh_file := bf; nh_path := [gname] |}.
Proof.
  intros gname bf Hfile Hgroup. unfold setup_dataset.
  set (opening :=
    {| exp := set_trace (trace (exp st) ++ [Barrier; Call OpOpen; Barrier])
                (set_files (<[filename := new_file]> (files (exp st))) (exp st));
       data := data st |}).
  set (opened :=
    {| exp := exp opening; data := set_backing_file (Some bf) (data st) |}).
  assert (Hopen : __open_backing_h5 filename ModeW st = (opening, Ok bf)).
  { destruct st as [e d]. unfold __open_backing_h5, h5py_File. unfold_monad.
    simpl. unfold opening, set_trace, set_files. simpl.
    destruct (mpi e); simpl; rewrite <- ?app_assoc; reflexivity. }
  assert (Hcreate : (__create_entries plan key cn opened).2 =
                    Ok (gname, {| nh_file := bf; nh_path := [gname] |})).
  { apply (create_entries_returns plan key cn opened g0 bf new_file ∅);
      simpl; try done.
    - apply lookup_insert_eq.
    - unfold new_file. apply lookup_singleton_ne. done. }
  apply run_eq in Hcreate.
  pose proof (create_entries_backing_file _ _ _ _ _ _ Hcreate) as Hkeep.
  simpl in Hkeep.
  rewrite (bind_run get_exp _ st st (exp st) eq_refl).
  rewrite (bind_run (from_option KeyError _) _ st st filename)
    by (rewrite Hfile; reflexivity).
  rewrite (bind_run _ _ _ _ _ Hopen).
  rewrite (bind_run (modify_data _) _ opening opened tt eq_refl).
  rewrite (bind_run _ _ _ _ _ Hcreate).
  unfold modify_data. simpl. done.
Qed.

(** ** The unknown link type, after the metadata *)

Lemma h5_getitem_run h p st :
  is_Some (h5_lookup (exp st) (fh_filename h) p) →
  h5_getitem h p st = (st, Ok {| nh_file := h; nh_path := p |}).
Proof.
  unfold h5_getitem, h5_lookup. unfold_monad.
  destruct (files (exp st) !! fh_filename h) as [c|]; simpl; [|by intros [? ?]].
  destruct (c !! p); [done|by intros [? ?]].
Qed.

(** When the master file has its entry group, the group of the dataset is
    in the backing file and the metadata writes go through, a link type
    that is not known is reported by the exception of [__add_data_links],
    and the files are then those the metadata writes have left. *)
Lemma add_data_links_unknown_kind_after_metadata st linkType bf gname :
  linkType ≠ "final_result" → linkType ≠ "intermediate" →
  d_backing_file (data st) = Some bf →
  d_info_group_name (data st) = Some gname →
  is_Some (h5_lookup (exp st) (fh_filename (nxs_file (exp st))) ["entry"]) →
  is_Some (h5_lookup (exp st) (fh_filename bf) [gname]) →
  (__output_metadata {| nh_file := bf; nh_path := [gname] |}
     (after_barrier st)).2 = Ok tt →
  __add_data_links linkType st =
    ((__output_metadata {| nh_file := bf; nh_path := [gname] |}
        (after_barrier st)).1, Raise unknown_link).
Proof.
  intros Hfinal Hinter Hbf Hgname Hentry Hgroup Hmeta.
  apply run_eq in Hmeta.
  pose proof (output_metadata_data {| nh_file := bf; nh_path := [gname] |}
                (after_barrier st)) as Hdata.
  simpl in Hdata.
  unfold __add_data_links.
  rewrite (bind_run _barrier _ st (after_barrier st) tt eq_refl).
  rewrite (bind_run get_exp _ _ _ _ eq_refl).
  cbv beta. change (nxs_file (exp (after_barrier st))) with (nxs_file (exp st)).
  rewrite (bind_run (h5_getitem _ _) _ (after_barrier st) _ _
             (h5_getitem_run _ _ (after_barrier st) Hentry)).
  rewrite (bind_run get_data _ _ _ _ eq_refl). cbv beta.
  change (data (after_barrier st)) with (data st).
  rewrite Hgname, Hbf.
  rewrite (bind_run (from_option KeyError (Some gname)) _ _ _ _ eq_refl).
  rewrite (bind_run (from_option TypeError (Some bf)) _ _ _ _ eq_refl).
  rewrite (bind_run (h5_getitem _ _) _ (after_barrier st) _ _
             (h5_getitem_run _ _ (after_barrier st) Hgroup)).
  rewrite (bind_run _ _ _ _ _ Hmeta).
  rewrite (bind_run get_data _ _ _ _ eq_refl). cbv beta. rewrite Hdata, Hbf.
  rewrite (bind_run (from_option AttributeError (Some bf)) _ _ _ _ eq_refl).
  rewrite !decide_False by done.
  apply bind_raise. reflexivity.
Qed.

(** ** The calls of a setup, in order *)

Lemma setup_dataset_trace_contiguous :
  issued (setup_dataset Example.plan "Peaks" (CNInt 0)) (Example.start false []) =
  [Barrier; Call OpOpen; Barrier;
   Barrier; Call OpCreateGroup; Call OpCreateGroup; Call OpCreateGroup; Barrier;
   Call OpCreateDataset; Barrier].
Proof. vm_compute. reflexivity. Qed.

Lemma setup_dataset_trace_chunked :
  issued (setup_dataset Example.plan "Peaks" (CNHint "SPECTRUM" "CHANNEL"))
    (Example.start true []) =
  [Barrier; Call OpOpen; Barrier;
   Barrier; Call OpCreateGroup; Call OpCreateGroup; Call OpCreateGroup; Barrier;
   Barrier; Barrier; Call OpCreateDataset; Barrier].
Proof. vm_compute. reflexivity. Qed.

Lemma save_data_trace_early_exit :
  issued (_save_data (Some "final_result")) (removed Example.created) =
  [Barrier; Barrier; Call OpClose; Barrier].
Proof. vm_compute. reflexivity. Qed.

(** * Beyond the link: what the saver writes and keeps *)

(** ** Objects that stay *)

Lemma keeps_refl st : keeps st st.
Proof. intros f p _. reflexivity. Qed.

Lemma keeps_trans s1 s2 s3 : keeps s1 s2 → keeps s2 s3 → keeps s1 s3.
Proof.
  intros H12 H23 f p Hsome. rewrite H23, H12; [done|done|].
  rewrite H12; done.
Qed.

Lemma keeps_grows s1 s2 : keeps s1 s2 → grows s1 s2.
Proof. intros H f p Hsome. rewrite H; done. Qed.

Lemma grows_refl st : grows st st.
Proof. intros f p H. exact H. Qed.

Lemma grows_trans s1 s2 s3 : grows s1 s2 → grows s2 s3 → grows s1 s3.
Proof. intros H12 H23 f p Hsome. apply H23, H12, Hsome. Qed.

Lemma keeps_but_grows n s1 s2 :
  keeps_but n s1 s2 → is_Some (h5_lookup (exp s2) n.1 n.2) → grows s1 s2.
Proof.
  intros H Hn f p Hsome. destruct (decide ((f, p) = n)) as [<-|Hne]; [exact Hn|].
  rewrite H; done.
Qed.

Lemma keeps_keeps_but n s1 s2 : keeps s1 s2 → keeps_but n s1 s2.
Proof. intros H f p _. apply H. Qed.

Lemma keeps_but_trans n s1 s2 s3 :
  keeps_but n s1 s2 → keeps_but n s2 s3 → keeps_but n s1 s3.
Proof.
  intros H12 H23 f p Hne Hsome. rewrite H23, H12; [done|done|done|done|].
  rewrite H12; done.
Qed.

(** A lookup that finds nothing is not the lookup of an object. *)
Lemma fresh_ne (e : Exp) f p f' p' :
  h5_lookup e f p = None → is_Some (h5_lookup e f' p') → (f', p') ≠ (f, p).
Proof. intros Hnone Hsome [= -> ->]. rewrite Hnone in Hsome. by destruct Hsome. Qed.

Lemma barrier_keeps st st' : _barrier st = (st', Ok tt) → keeps st st'.
Proof. intros H f p _. apply barrier_ok in H as [_ H]. apply H. Qed.

Lemma create_group_keeps op parent name st st' n :
  create_group op parent name st = (st', Ok n) → keeps st st'.
Proof.
  intros H f p Hsome. apply create_group_ok in H as (_ & Hfresh & _ & Hkeep & _).
  apply Hkeep. eapply fresh_ne; done.
Qed.

Lemma create_dataset_keeps op parent name sh dt ch ct st st' n :
  create_dataset op parent name sh dt ch ct st = (st', Ok n) → keeps st st'.
Proof.
  intros H f p Hsome. apply create_dataset_ok in H as (_ & Hfresh & _ & Hkeep & _).
  apply Hkeep. eapply fresh_ne; done.
Qed.

Lemma set_link_keeps op parent name fn tgt st st' :
  set_link op parent name fn tgt st = (st', Ok tt) → keeps st st'.
Proof.
  intros H f p Hsome. apply set_link_ok in H as (Hfresh & _ & Hkeep & _).
  apply Hkeep. eapply fresh_ne; done.
Qed.

Lemma require_group_keeps op parent name st st' n :
  require_group op parent name st = (st', Ok n) → keeps st st'.
Proof.
  intros H f p Hsome. pose proof H as H'.
  apply require_group_ok in H' as (_ & (a & Ha & Hsame) & Hkeep & _).
  destruct (decide ((f, p) =
                    (fh_filename (nh_file parent), nh_path parent ++ [name])))
    as [[= -> ->]|Hne]; [|by apply Hkeep].
  rewrite Ha. destruct Hsome as [o Ho]. rewrite Ho.
  apply bind_ok_inv in H as ([] & s1 & Hcall & _).
  apply h5_call_ok in Hcall as (c & c' & _ & Hc & Hch & _ & Hl).
  unfold h5_lookup in Ho. rewrite Hc in Ho. simpl in Ho.
  apply h5_require_ok in Hch as [(a0 & Ha0 & ->)|[Hnone _]]; [|congruence].
  rewrite Ho in Ha0. injection Ha0 as ->. f_equal. f_equal.
  apply Hsame. unfold h5_lookup. rewrite Hc. exact Ho.
Qed.

Lemma set_attr_keeps_but op n key v st st' :
  set_attr op n key v st = (st', Ok tt) → keeps_but (at_node n) st st'.
Proof.
  intros H f p Hne _. apply set_attr_ok in H as (_ & _ & _ & _ & Hkeep & _).
  apply Hkeep, Hne.
Qed.

Lemma assign_keeps_but op n arr st st' :
  assign op n arr st = (st', Ok tt) → keeps_but (at_node n) st st'.
Proof.
  intros H f p Hne _. apply assign_ok in H as (? & ? & ? & ? & _ & _ & Hkeep & _).
  apply Hkeep, Hne.
Qed.

Lemma keeps_some st st' f p o :
  keeps st st' → h5_lookup (exp st) f p = Some o → h5_lookup (exp st') f p = Some o.
Proof. intros K H. rewrite K; [exact H|]. rewrite H. done. Qed.

Lemma create_dataset_from_ok op parent name v st st' n :
  create_dataset_from op parent name v st = (st', Ok n) →
  keeps st st' ∧ data st' = data st ∧
  h5_lookup (exp st') (fh_filename (nh_file parent)) (nh_path parent ++ [name]) =
    Some (stored_value v).
Proof.
  unfold create_dataset_from. intros H. split; [eapply create_dataset_keeps, H|].
  apply create_dataset_ok in H as (_ & _ & Hnew & _ & Hd). done.
Qed.

(** A group is created and tagged: it is there with the one attribute, and
    what was there before is as it was. *)
Lemma tagged_group_ok op parent name class st s1 st' nx :
  create_group op parent name st = (s1, Ok nx) →
  set_attr op nx NX_CLASS (AStr class) s1 = (st', Ok tt) →
  nx = child parent name ∧ keeps st st' ∧ data st' = data st ∧
  h5_lookup (exp st') (fh_filename (nh_file parent)) (nh_path parent ++ [name]) =
    Some (nx_group class).
Proof.
  intros Hnew Htag. pose proof (create_group_keeps _ _ _ _ _ _ Hnew) as K.
  apply create_group_ok in Hnew as (-> & Hfresh & Hgroup & _ & Hd1).
  apply set_attr_ok in Htag as (o & Ho & _ & Htag & Hkeep & Hd2).
  simpl in *. rewrite Hgroup in Ho. injection Ho as <-. simpl in Htag.
  split; [done|]. split; [|split; [congruence|]].
  - intros f p Hsome. rewrite Hkeep; [by apply K|].
    eapply fresh_ne; done.
  - rewrite Htag. unfold nx_group. by rewrite insert_empty.
Qed.

(** ** Writing the patterns *)

Lemma data_patterns_loop_ok entry l st st' :
  data_patterns_loop entry l st = (st', Ok tt) →
  data st' = data st ∧ keeps st st' ∧
  ∀ name values, (name, values) ∈ l →
    h5_lookup (exp st') (fh_filename (nh_file entry)) (nh_path entry ++ [name]) =
      Some (nx_group "NXparameters") ∧
    h5_lookup (exp st') (fh_filename (nh_file entry))
      ((nh_path entry ++ [name]) ++ ["core_dir"]) =
      Some (stored_value (PList (core_dir values))) ∧
    h5_lookup (exp st') (fh_filename (nh_file entry))
      ((nh_path entry ++ [name]) ++ ["slice_dir"]) =
      Some (stored_value (PList (slice_dir values))).
Proof.
  revert st. induction l as [|[name0 values0] rest IH]; intros st H.
  - apply ret_ok in H as [-> _]. split; [done|]. split; [apply keeps_refl|].
    intros name values Hin. by apply elem_of_nil in Hin.
  - simpl in H.
    step H as nx s1 Hnx. step H as [] s2 Htag.
    step H as c1 s3 Hcore. step H as c2 s4 Hslice.
    destruct (tagged_group_ok _ _ _ _ _ _ _ _ Hnx Htag) as (-> & K2 & Hd2 & Hgrp).
    apply create_dataset_from_ok in Hcore as (K3 & Hd3 & Hc).
    apply create_dataset_from_ok in Hslice as (K4 & Hd4 & Hs).
    apply IH in H as (Hd5 & K5 & Hrest). simpl in *.
    split; [congruence|]. split.
    { eapply keeps_trans; [exact K2|]. eapply keeps_trans; [exact K3|].
      eapply keeps_trans; [exact K4|exact K5]. }
    intros name values Hin. apply elem_of_cons in Hin as [[= -> ->]|Hin].
    + split; [|split].
      * apply (keeps_some _ _ _ _ _ K5), (keeps_some _ _ _ _ _ K4),
          (keeps_some _ _ _ _ _ K3), Hgrp.
      * apply (keeps_some _ _ _ _ _ K5), (keeps_some _ _ _ _ _ K4), Hc.
      * apply (keeps_some _ _ _ _ _ K5), Hs.
    + apply Hrest, Hin.
Qed.

Lemma output_data_patterns_ok entry st st' :
  __output_data_patterns entry st = (st', Ok tt) →
  data st' = data st ∧ keeps st st' ∧ patterns_stored (data st) entry (exp st').
Proof.
  intros H. unfold __output_data_patterns in H.
  step H as [] s1 Hb1. step H as d s2 Hd.
  step H as pg s3 Hpg. step H as [] s4 Htag. step H as [] s5 Hloop.
  pose proof (barrier_keeps _ _ Hb1) as K1. apply barrier_ok in Hb1 as [Hd1 _].
  pose proof (barrier_keeps _ _ H) as K6. apply barrier_ok in H as [Hd6 _].
  destruct (tagged_group_ok _ _ _ "NXcollection" _ _ _ _ Hpg Htag)
    as (-> & K4 & Hd4 & Hgrp).
  apply data_patterns_loop_ok in Hloop as (Hd5 & K5 & Hall). simpl in *.
  split; [congruence|]. split.
  { eapply keeps_trans; [exact K1|]. eapply keeps_trans; [exact K4|].
    eapply keeps_trans; [exact K5|exact K6]. }
  split.
  - apply (keeps_some _ _ _ _ _ K6), (keeps_some _ _ _ _ _ K5), Hgrp.
  - intros name values Hin. rewrite <- Hd1 in Hin.
    apply elem_of_map_to_list in Hin. apply Hall in Hin as (G & C & S).
    rewrite <- !app_assoc in *. simpl in *.
    split; [|split]; apply (keeps_some _ _ _ _ _ K6); assumption.
Qed.

(** ** Writing the metadata dictionary *)

Lemma metadata_dict_loop_ok entry l st st' :
  metadata_dict_loop entry l st = (st', Ok tt) →
  data st' = data st ∧ keeps st st' ∧
  ∀ key value, (key, value) ∈ l →
    h5_lookup (exp st') (fh_filename (nh_file entry)) (nh_path entry ++ [key]) =
      Some (nx_group "NXdata") ∧
    h5_lookup (exp st') (fh_filename (nh_file entry))
      ((nh_path entry ++ [key]) ++ [key]) = Some (stored_value value).
Proof.
  revert st. induction l as [|[key0 value0] rest IH]; intros st H.
  - apply ret_ok in H as [-> _]. split; [done|]. split; [apply keeps_refl|].
    intros key value Hin. by apply elem_of_nil in Hin.
  - simpl in H.
    step H as nx s1 Hnx. step H as [] s2 Htag. step H as c1 s3 Hval.
    destruct (tagged_group_ok _ _ _ _ _ _ _ _ Hnx Htag) as (-> & K2 & Hd2 & Hgrp).
    apply create_dataset_from_ok in Hval as (K3 & Hd3 & Hv).
    apply IH in H as (Hd4 & K4 & Hrest). simpl in *.
    split; [congruence|]. split.
    { eapply keeps_trans; [exact K2|]. eapply keeps_trans; [exact K3|exact K4]. }
    intros key value Hin. apply elem_of_cons in Hin as [[= -> ->]|Hin].
    + split.
      * apply (keeps_some _ _ _ _ _ K4), (keeps_some _ _ _ _ _ K3), Hgrp.
      * apply (keeps_some _ _ _ _ _ K4), Hv.
    + apply Hrest, Hin.
Qed.

Lemma output_metadata_dict_ok entry st st' :
  __output_metadata_dict entry st = (st', Ok tt) →
  data st' = data st ∧ keeps st st' ∧ dict_stored (data st) entry (exp st').
Proof.
  intros H. unfold __output_metadata_dict in H.
  step H as [] s1 Hb1. step H as d s2 Hd.
  step H as mg s3 Hmg. step H as [] s4 Htag. step H as [] s5 Hloop.
  pose proof (barrier_keeps _ _ Hb1) as K1. apply barrier_ok in Hb1 as [Hd1 _].
  pose proof (barrier_keeps _ _ H) as K6. apply barrier_ok in H as [Hd6 _].
  destruct (tagged_group_ok _ _ _ "NXcollection" _ _ _ _ Hmg Htag)
    as (-> & K4 & Hd4 & Hgrp).
  apply metadata_dict_loop_ok in Hloop as (Hd5 & K5 & Hall). simpl in *.
  split; [congruence|]. split.
  { eapply keeps_trans; [exact K1|]. eapply keeps_trans; [exact K4|].
    eapply keeps_trans; [exact K5|exact K6]. }
  split.
  - apply (keeps_some _ _ _ _ _ K6), (keeps_some _ _ _ _ _ K5), Hgrp.
  - intros key value Hin. rewrite <- Hd1 in Hin.
    apply elem_of_map_to_list in Hin. apply Hall in Hin as (G & V).
    rewrite <- !app_assoc in *. simpl in *.
    split; apply (keeps_some _ _ _ _ _ K6); assumption.
Qed.

(** ** The axis labels, once more: what stays and what cannot be *)

Lemma axis_labels_loop_keeps entry labels count axes st st' r :
  axis_labels_loop entry labels count axes st = (st', Ok r) →
  keeps_but (at_node entry) st st'.
Proof.
  intros H f p Hne Hsome.
  destruct (axis_labels_loop_frame _ _ _ _ _ _ _ H) as (_ & _ & Hkeep).
  apply Hkeep; done.
Qed.

Lemma output_axis_labels_ok entry st st' :
  __output_axis_labels entry st = (st', Ok tt) →
  data st' = data st ∧
  keeps_but (at_node entry) st st' ∧
  labels_stored (data st) (exp st') ∧
  ∃ o, h5_lookup (exp st') (fh_filename (nh_file entry)) (nh_path entry) = Some o ∧
       attrs_of o !! "axes" = Some (AStrs (d_axis_labels (data st)).*1).
Proof.
  intros H. unfold __output_axis_labels in H.
  step H as [] s1 Hb1. step H as d s2 Hd. step H as axes s3 Hloop.
  step H as [] s4 Haxes.
  pose proof (barrier_keeps _ _ Hb1) as K1. apply barrier_ok in Hb1 as [Hd1 Hl1].
  pose proof (barrier_keeps _ _ H) as K5. apply barrier_ok in H as [Hd5 Hl5].
  pose proof (axis_labels_loop_keeps _ _ _ _ _ _ _ Hloop) as K3.
  pose proof (set_attr_keeps_but _ _ _ _ _ _ Haxes) as K4.
  apply set_attr_ok in Haxes as (o & _ & Hkey & Hentry & Hkeep & Hd4).
  destruct (axis_labels_loop_frame _ _ _ _ _ _ _ Hloop) as (Hd3 & -> & _).
  split; [congruence|]. split; [|split].
  - eapply keeps_but_trans; [apply keeps_keeps_but, K1|].
    eapply keeps_but_trans; [exact K3|].
    eapply keeps_but_trans; [exact K4|apply keeps_keeps_but, K5].
  - intros i name units Hi. rewrite <- Hd1 in Hi.
    destruct (axis_labels_loop_written _ _ _ _ _ _ _ Hloop i name units Hi)
      as (group & arr & Hg & Harr & Hne & Hl).
    exists group, arr. rewrite Hd1 in Hg, Harr.
    split; [done|]. split; [done|]. rewrite Hl5, Hkeep; done.
  - exists (with_attr "axes" (AStrs (d_axis_labels (data s1)).*1) o).
    rewrite Hl5, Hentry. rewrite Hd1 in *. done.
Qed.

(** An object in the way of a label: the loop cannot return. *)
Lemma axis_labels_loop_free entry labels count axes st st' r group name :
  axis_labels_loop entry labels count axes st = (st', Ok r) →
  d_group (data st) = Some group →
  is_Some (h5_lookup (exp st) (fh_filename (nh_file group)) (nh_path group ++ [name])) →
  name ∉ labels.*1.
Proof.
  revert count axes st.
  induction labels as [|[name0 units0] rest IH]; intros count axes st H Hg Hsome;
    [apply not_elem_of_nil|].
  simpl in H.
  step H as [] s1 Hidx. step H as d s2 Hd.
  step H as mData s3 HmData. step H as arr s4 Harr.
  destruct (label_data_ok _ _ _ _ _ _ _ _ HmData Harr) as [-> _].
  step H as group' s5 Hgroup.
  step H as temp s6 Hcreate. step H as [] s7 Hassign. step H as [] s8 Hunits.
  pose proof Hidx as Hidx'.
  apply set_attr_ok in Hidx' as (o & _ & _ & Hentry & Hkeep1 & Hd1).
  rewrite Hd1, Hg in Hgroup. injection Hgroup as <-.
  assert (G1 : is_Some (h5_lookup (exp s1) (fh_filename (nh_file group))
                          (nh_path group ++ [name]))).
  { destruct (decide ((fh_filename (nh_file group), nh_path group ++ [name]) =
                      at_node entry)) as [Heq|Hne].
    - unfold at_node in Heq. injection Heq as -> ->. rewrite Hentry. done.
    - rewrite Hkeep1; done. }
  pose proof (create_dataset_keeps _ _ _ _ _ _ _ _ _ _ Hcreate) as K2.
  apply create_dataset_ok in Hcreate as (-> & Hfresh & Hnew & _ & Hd2).
  apply assign_ok in Hassign as (? & ? & ? & ? & _ & Hfull & Hkeep3 & Hd3).
  apply set_attr_ok in Hunits as (? & _ & _ & Hlabel & Hkeep4 & Hd4).
  simpl in *.
  assert (Hname : name ≠ name0).
  { intros ->. rewrite Hfresh in G1. by destruct G1. }
  assert (G4 : is_Some (h5_lookup (exp s8) (fh_filename (nh_file group))
                          (nh_path group ++ [name]))).
  { rewrite Hkeep4, Hkeep3, K2; [done|done| |].
    - intros [= Hp]. apply app_inv_head in Hp. congruence.
    - intros [= Hp]. apply app_inv_head in Hp. congruence. }
  intros Hin. apply elem_of_cons in Hin as [?|Hin]; [done|].
  refine (IH _ _ _ H _ G4 Hin). congruence.
Qed.

Lemma axis_labels_loop_nodup entry labels count axes st st' r :
  axis_labels_loop entry labels count axes st = (st', Ok r) → NoDup labels.*1.
Proof.
  revert count axes st.
  induction labels as [|[name0 units0] rest IH]; intros count axes st H;
    [constructor|].
  simpl. pose proof H as H'. simpl in H.
  step H as [] s1 Hidx. step H as d s2 Hd.
  step H as mData s3 HmData. step H as arr s4 Harr.
  destruct (label_data_ok _ _ _ _ _ _ _ _ HmData Harr) as [-> _].
  step H as group s5 Hgroup.
  step H as temp s6 Hcreate. step H as [] s7 Hassign. step H as [] s8 Hunits.
  apply set_attr_ok in Hidx as (o & _ & _ & _ & _ & Hd1).
  apply create_dataset_ok in Hcreate as (-> & _ & _ & _ & Hd2).
  apply assign_ok in Hassign as (? & ? & ? & ? & _ & _ & _ & Hd3).
  apply set_attr_ok in Hunits as (? & _ & _ & Hlabel & _ & Hd4).
  simpl in *. constructor; [|eapply IH, H].
  eapply (axis_labels_loop_free _ _ _ _ _ _ _ group name0 H).
  - congruence.
  - rewrite Hlabel. done.
Qed.

(** ** The three metadata writes together *)

Lemma labels_stored_keeps d st st' :
  keeps st st' → labels_stored d (exp st) → labels_stored d (exp st').
Proof.
  intros K H i name units Hi.
  destruct (H i name units Hi) as (group & arr & Hg & Harr & Hl).
  exists group, arr. split; [done|]. split; [done|].
  apply (keeps_some _ _ _ _ _ K), Hl.
Qed.

Lemma patterns_stored_keeps d entry st st' :
  keeps st st' → patterns_stored d entry (exp st) → patterns_stored d entry (exp st').
Proof.
  intros K [Hg H]. split; [apply (keeps_some _ _ _ _ _ K), Hg|].
  intros name values Hin. destruct (H name values Hin) as (G & C & S).
  split; [|split]; apply (keeps_some _ _ _ _ _ K); assumption.
Qed.

Lemma dict_stored_keeps d entry st st' :
  keeps st st' → dict_stored d entry (exp st) → dict_stored d entry (exp st').
Proof.
  intros K [Hg H]. split; [apply (keeps_some _ _ _ _ _ K), Hg|].
  intros key value Hin. destruct (H key value Hin) as (G & V).
  split; apply (keeps_some _ _ _ _ _ K); assumption.
Qed.

Lemma output_metadata_ok entry st st' :
  __output_metadata entry st = (st', Ok tt) →
  data st' = data st ∧
  keeps_but (at_node entry) st st' ∧
  labels_stored (data st) (exp st') ∧
  patterns_stored (data st) entry (exp st') ∧
  dict_stored (data st) entry (exp st') ∧
  ∃ o, h5_lookup (exp st') (fh_filename (nh_file entry)) (nh_path entry) = Some o ∧
       attrs_of o !! "axes" = Some (AStrs (d_axis_labels (data st)).*1).
Proof.
  intros H. unfold __output_metadata in H.
  step H as [] s1 Hlab. step H as [] s2 Hpat.
  apply output_axis_labels_ok in Hlab as (Hd1 & K1 & Hlabels & o & Ho & Haxes).
  apply output_data_patterns_ok in Hpat as (Hd2 & K2 & Hpatterns).
  apply output_metadata_dict_ok in H as (Hd3 & K3 & Hdict).
  rewrite Hd2, Hd1 in Hdict. rewrite Hd1 in Hpatterns.
  split; [congruence|]. split; [|split; [|split; [|split]]].
  - eapply keeps_but_trans; [exact K1|].
    eapply keeps_but_trans; apply keeps_keeps_but; [exact K2|exact K3].
  - eapply labels_stored_keeps; [exact K3|].
    eapply labels_stored_keeps; [exact K2|exact Hlabels].
  - eapply patterns_stored_keeps; [exact K3|exact Hpatterns].
  - exact Hdict.
  - exists o. split; [|exact Haxes].
    apply (keeps_some _ _ _ _ _ K3), (keeps_some _ _ _ _ _ K2), Ho.
Qed.

(** X1.  When [__output_data_patterns] returns, the entry group has a
    group [patterns] tagged NXcollection with one group per pattern of the
    dataset object, tagged NXparameters, holding the arrays [core_dir] and
    [slice_dir] with the pattern's values; no object that was in a file
    before has been changed. *)
Theorem output_data_patterns_stores (st st' : State) (entry : node_handle) :
  __output_data_patterns entry st = (st', Ok tt) →
  patterns_stored (data st) entry (exp st') ∧ keeps st st'.
Proof.
  intros H. destruct (output_data_patterns_ok _ _ _ H) as (_ & K & Hstored).
  split; [exact Hstored|exact K].
Qed.

Lemma output_data_patterns_stores_witness :
  patterns_stored (data Example.created) Example.peaks_group
    (exp (__output_data_patterns Example.peaks_group Example.created).1) ∧
  keeps Example.created
    (__output_data_patterns Example.peaks_group Example.created).1.
Proof.
  apply output_data_patterns_stores, run_eq. vm_compute. reflexivity.
Defined.

(** X2.  When [__output_metadata_dict] returns, the entry group has a
    group [meta_data] tagged NXcollection with one group per key of the
    metadata dictionary, tagged NXdata, holding under the key's name the
    value stored as an array; no object that was in a file before has been
    changed. *)
Theorem output_metadata_dict_stores (st st' : State) (entry : node_handle) :
  __output_metadata_dict entry st = (st', Ok tt) →
  dict_stored (data st) entry (exp st') ∧ keeps st st'.
Proof.
  intros H. destruct (output_metadata_dict_ok _ _ _ H) as (_ & K & Hstored).
  split; [exact Hstored|exact K].
Qed.

Lemma output_metadata_dict_stores_witness :
  dict_stored (data Example.created) Example.peaks_group
    (exp (__output_metadata_dict Example.peaks_group Example.created).1) ∧
  keeps Example.created
    (__output_metadata_dict Example.peaks_group Example.created).1.
Proof.
  apply output_metadata_dict_stores, run_eq. vm_compute. reflexivity.
Defined.

(** X3.  When [__output_metadata] returns, the label arrays, the patterns
    and the metadata dictionary are all in the files, the dataset object is
    as it was, and every object that was in a file before is unchanged,
    the entry group apart (it has received attributes). *)
Theorem output_metadata_stores_all (st st' : State) (entry : node_handle) :
  __output_metadata entry st = (st', Ok tt) →
  labels_stored (data st) (exp st') ∧
  patterns_stored (data st) entry (exp st') ∧
  dict_stored (data st) entry (exp st') ∧
  keeps_but (at_node entry) st st' ∧
  data st' = data st.
Proof.
  intros H.
  destruct (output_metadata_ok _ _ _ H) as (Hd & K & Hl & Hp & Hm & _).
  split; [exact Hl|]. split; [exact Hp|]. split; [exact Hm|].
  split; [exact K|exact Hd].
Qed.

Lemma output_metadata_stores_all_witness :
  labels_stored (data Example.created)
    (exp (__output_metadata Example.peaks_group Example.created).1) ∧
  patterns_stored (data Example.created) Example.peaks_group
    (exp (__output_metadata Example.peaks_group Example.created).1) ∧
  dict_stored (data Example.created) Example.peaks_group
    (exp (__output_metadata Example.peaks_group Example.created).1) ∧
  keeps_but (at_node Example.peaks_group) Example.created
    (__output_metadata Example.peaks_group Example.created).1 ∧
  data (__output_metadata Example.peaks_group Example.created).1 =
    data Example.created.
Proof.
  apply output_metadata_stores_all, run_eq. vm_compute. reflexivity.
Defined.

(** X4.  [__output_axis_labels] returns only when the names of the axis
    labels are pairwise distinct: a second label of the same name finds
    the array of the first in its way. *)
Theorem output_axis_labels_distinct (st st' : State) (entry : node_handle) :
  __output_axis_labels entry st = (st', Ok tt) →
  NoDup (d_axis_labels (data st)).*1.
Proof.
  intros H. unfold __output_axis_labels in H.
  step H as [] s1 Hb1. step H as d s2 Hd. step H as axes s3 Hloop.
  apply barrier_ok in Hb1 as [Hd1 _]. rewrite <- Hd1.
  eapply axis_labels_loop_nodup, Hloop.
Qed.

Lemma output_axis_labels_distinct_witness :
  NoDup (d_axis_labels (data Example.created)).*1.
Proof.
  apply (output_axis_labels_distinct Example.created
           (__output_axis_labels Example.peaks_group Example.created).1
           Example.peaks_group).
  apply run_eq. vm_compute. reflexivity.
Defined.

(** ** Linking, closing and reopening *)

Lemma set_attr_grows op n key v st st' :
  set_attr op n key v st = (st', Ok tt) → grows st st'.
Proof.
  intros H f p Hsome. apply set_attr_ok in H as (o & _ & _ & Hnew & Hkeep & _).
  destruct (decide ((f, p) = (fh_filename (nh_file n), nh_path n)))
    as [[= -> ->]|Hne]; [rewrite Hnew; done|].
  rewrite Hkeep; done.
Qed.

Lemma close_file_files st :
  (_close_file st).2 = Ok tt ∧
  files (exp (_close_file st).1) = files (exp st) ∧
  (∀ f p, h5_lookup (exp (_close_file st).1) f p = h5_lookup (exp st) f p) ∧
  mpi (exp (_close_file st).1) = mpi (exp st).
Proof.
  rewrite close_file_unfold.
  destruct (d_backing_file (data st)); [|done].
  destruct (close_faults (exp st)) as [|[] rest]; done.
Qed.

(** Reopening without MPI: the file has to be there, and the array in it. *)
Lemma open_read_only_sequential_ok filename entry st :
  mpi (exp st) = false →
  is_Some (h5_lookup (exp st) filename entry) →
  ∃ st',
    _open_read_only filename entry st = (st', Ok tt) ∧
    files (exp st') = files (exp st) ∧
    data st' =
      set_data
        (Some {| nh_file := {| fh_filename := filename; fh_mode := ModeR |};
                 nh_path := entry |})
        (set_backing_file
           (Some {| fh_filename := filename; fh_mode := ModeR |}) (data st)).
Proof.
  intros Hmpi [o Ho]. destruct st as [e d]. simpl in *.
  unfold h5_lookup in Ho.
  destruct (files e !! filename) as [c|] eqn:Hc; [|discriminate]. simpl in Ho.
  unfold _open_read_only, __open_backing_h5, h5py_File, h5_getitem.
  unfold_monad. simpl. rewrite Hmpi. simpl. rewrite Hc. simpl.
  rewrite Hc. simpl. rewrite Ho. eexists. done.
Qed.

(** The whole of [__add_data_links], when it returns: the metadata writes
    have run on the group of the dataset in the backing file, and what
    follows them touches the master file only. *)
Lemma add_data_links_ok linkType st st' :
  __add_data_links linkType st = (st', Ok tt) →
  ∃ bf gname s,
    d_backing_file (data st) = Some bf ∧
    d_info_group_name (data st) = Some gname ∧
    is_Some (h5_lookup (exp st) (fh_filename bf) [gname]) ∧
    __output_metadata {| nh_file := bf; nh_path := [gname] |} (after_barrier st) =
      (s, Ok tt) ∧
    data st' = data st ∧
    grows s st' ∧
    (∀ f p, f ≠ fh_filename (nxs_file (exp st)) →
            h5_lookup (exp st') f p = h5_lookup (exp s) f p).
Proof.
  intros H. pose proof (add_data_links_ok_kind _ _ _ H) as Hkind.
  pose proof (add_data_links_data linkType st) as Hdata. rewrite H in Hdata.
  simpl in Hdata.
  unfold __add_data_links in H.
  step H as [] s1 Hb1. apply barrier_state in Hb1 as ->.
  step H as e s2 He.
  step H as entry s3 Hentry. apply h5_getitem_ok in Hentry as (-> & -> & _).
  step H as d s4 Hd.
  step H as gname s5 Hgname.
  step H as bf s6 Hbf.
  step H as target s7 Htarget.
  apply h5_getitem_ok in Htarget as (-> & -> & Htarget).
  step H as [] s8 Hmeta.
  step H as d' s9 Hd'.
  step H as bf' s10 Hbf'.
  apply bind_ok_inv in H as ([] & s11 & Hif & Hb2).
  pose proof (barrier_keeps _ _ Hb2) as K12.
  apply barrier_ok in Hb2 as [_ Hl12].
  simpl in *.
  exists bf, gname, s8. split; [done|]. split; [done|]. split; [done|].
  split; [done|]. split; [done|].
  assert (Hlink : grows s8 s11 ∧
            ∀ f p, f ≠ fh_filename (nxs_file (exp st)) →
                   h5_lookup (exp s11) f p = h5_lookup (exp s8) f p).
  { destruct Hkind as [-> | ->].
    - rewrite decide_True in Hif by done.
      step Hif as gn s12 Hgn.
      pose proof (set_link_keeps _ _ _ _ _ _ _ Hif) as K.
      apply set_link_ok in Hif as (_ & _ & Hkeep & _). simpl in Hkeep.
      split; [apply keeps_grows, K|].
      intros f p Hf. apply Hkeep. congruence.
    - rewrite decide_False, decide_True in Hif by done.
      step Hif as gn s12 Hgn.
      step Hif as coll s13 Hreq.
      step Hif as [] s14 Htag.
      step Hif as gn' s15 Hgn'.
      pose proof (require_group_keeps _ _ _ _ _ _ Hreq) as K1.
      pose proof (set_attr_grows _ _ _ _ _ _ Htag) as G2.
      pose proof (set_link_keeps _ _ _ _ _ _ _ Hif) as K3.
      apply require_group_ok in Hreq as (-> & _ & Hkeep1 & _).
      apply set_attr_ok in Htag as (? & _ & _ & _ & Hkeep2 & _).
      apply set_link_ok in Hif as (_ & _ & Hkeep3 & _). simpl in *.
      split.
      + eapply grows_trans; [apply keeps_grows, K1|].
        eapply grows_trans; [exact G2|apply keeps_grows, K3].
      + intros f p Hf. rewrite Hkeep3, Hkeep2, Hkeep1; congruence. }
  destruct Hlink as [G Hother]. split.
  - eapply grows_trans; [exact G|apply keeps_grows, K12].
  - intros f p Hf. rewrite Hl12. apply Hother, Hf.
Qed.

(** [_save_data] on the linking path, when it returns. *)
Lemma save_data_linked lt st st1 r :
  _save_data (Some lt) st = (st1, Ok r) →
  d_remove (data st) = false →
  (∀ h, d_backing_file (data st) = Some h → fh_mode h = ModeW) →
  ∃ bf gname dset s,
    d_backing_file (data st) = Some bf ∧
    d_info_group_name (data st) = Some gname ∧
    d_data (data st) = Some dset ∧
    r = Some (nh_path dset, fh_filename bf) ∧
    is_Some (h5_lookup (exp st) (fh_filename bf) [gname]) ∧
    __output_metadata {| nh_file := bf; nh_path := [gname] |}
      (after_barrier (after_barrier st)) = (s, Ok tt) ∧
    grows s st1 ∧
    (∀ f p, f ≠ fh_filename (nxs_file (exp st)) →
            h5_lookup (exp st1) f p = h5_lookup (exp s) f p).
Proof.
  intros Hrun Hr Hmode. unfold _save_data in Hrun.
  step Hrun as [] s1 Hb1. apply barrier_state in Hb1 as ->.
  step Hrun as d s2 Hd. simpl in Hrun. rewrite Hr in Hrun.
  step Hrun as skip s3 Hskip.
  destruct (d_backing_file (data st)) as [h|] eqn:Hh;
    [|unfold_monad; discriminate].
  assert (s3 = after_barrier st ∧ skip = false) as [-> ->].
  { unfold_monad. simpl in Hskip. injection Hskip as <- <-.
    rewrite (Hmode h eq_refl). done. }
  step Hrun as [] s4 Hlink.
  apply add_data_links_ok in Hlink
    as (bf & gname & s & Hbf & Hgname & Hgroup & Hmeta & Hd4 & G & Hother).
  simpl in *. rewrite Hh in Hbf. injection Hbf as <-.
  step Hrun as d' s5 Hd'. rewrite Hd4, Hh in Hrun.
  step Hrun as h' s6 Hh'. injection Hh' as <-.
  step Hrun as dset s7 Hdset.
  step Hrun as [] s8 Hclose. step Hrun as [] s9 Hb2.
  apply ret_ok in Hrun as [-> ->].
  destruct (close_file_files s4) as (_ & _ & Hsame & _).
  rewrite Hclose in Hsame. simpl in Hsame.
  apply barrier_ok in Hb2 as [_ Hl9].
  exists h, gname, dset, s.
  split; [done|]. split; [done|]. split; [done|]. split; [done|].
  split; [done|]. split; [done|]. split.
  - intros f p Hsome. rewrite Hl9, Hsame. apply G, Hsome.
  - intros f p Hf. rewrite Hl9, Hsame. apply Hother, Hf.
Qed.

(** X5.  Saving, then reopening read-only, without MPI.  The dataset is
    saved with a link ([remove] unset, backing file open for writing, the
    master file another file than those of the dataset), and reopened with
    the path and file name that [_save_data] returned.  Then the reopening
    returns, [backing_file] is a read-only handle on the same file and
    [data.data] is the array at the returned path; the label arrays, the
    patterns and the metadata dictionary of the dataset object are in the
    reopened file as they were written. *)
Theorem save_then_reopen_sequential (st st1 : State) (lt : string)
    (bf : file_handle) (dset : node_handle) (entry : h5path) (filename : string) :
  d_remove (data st) = false →
  d_backing_file (data st) = Some bf →
  fh_mode bf = ModeW →
  fh_filename bf ≠ fh_filename (nxs_file (exp st)) →
  (∀ g, d_group (data st) = Some g →
        fh_filename (nh_file g) ≠ fh_filename (nxs_file (exp st))) →
  d_data (data st) = Some dset →
  is_Some (h5_lookup (exp st) (fh_filename bf) (nh_path dset)) →
  _save_data (Some lt) st = (st1, Ok (Some (entry, filename))) →
  mpi (exp st1) = false →
  ∃ st2 gname,
    d_info_group_name (data st) = Some gname ∧
    _open_read_only filename entry st1 = (st2, Ok tt) ∧
    d_backing_file (data st2) =
      Some {| fh_filename := fh_filename bf; fh_mode := ModeR |} ∧
    d_data (data st2) =
      Some {| nh_file := {| fh_filename := fh_filename bf; fh_mode := ModeR |};
              nh_path := nh_path dset |} ∧
    labels_stored (data st) (exp st2) ∧
    patterns_stored (data st) {| nh_file := bf; nh_path := [gname] |} (exp st2) ∧
    dict_stored (data st) {| nh_file := bf; nh_path := [gname] |} (exp st2).
Proof.
  intros Hr Hbf Hmode Hnxs Hgroup Hdset Harray Hsave Hmpi.
  destruct (save_data_linked _ _ _ _ Hsave Hr)
    as (bf' & gname & dset' & s & Hbf' & Hgname & Hdset' & Hres & Hentry &
        Hmeta & G & Hother).
  { intros h Hh. congruence. }
  rewrite Hbf in Hbf'. injection Hbf' as <-.
  rewrite Hdset in Hdset'. injection Hdset' as <-.
  injection Hres as -> ->.
  destruct (output_metadata_ok _ _ _ Hmeta)
    as (Hd & K & Hlabels & Hpatterns & Hdict & o & Ho & _).
  simpl in *.
  assert (Hfinal : is_Some (h5_lookup (exp st1) (fh_filename bf) (nh_path dset))).
  { apply G. destruct (decide ((fh_filename bf, nh_path dset) =
                               (fh_filename bf, [gname]))) as [[= ->]|Hne].
    - rewrite Ho. done.
    - rewrite K; done. }
  destruct (open_read_only_sequential_ok (fh_filename bf) (nh_path dset) st1
              Hmpi Hfinal) as (st2 & Hopen & Hfiles & Hdata).
  assert (Hsame : ∀ f p, f ≠ fh_filename (nxs_file (exp st)) →
                         h5_lookup (exp st2) f p = h5_lookup (exp s) f p).
  { intros f p Hf. unfold h5_lookup at 1. rewrite Hfiles. apply Hother, Hf. }
  exists st2, gname. split; [done|]. split; [done|].
  rewrite Hdata. simpl. split; [done|]. split; [done|]. split; [|split].
  - intros i name units Hi.
    destruct (Hlabels i name units Hi) as (g & arr & Hg & Harr & Hl).
    exists g, arr. split; [done|]. split; [done|].
    rewrite Hsame; [exact Hl|apply Hgroup, Hg].
  - destruct Hpatterns as [Hp Hall]. split; [rewrite Hsame; done|].
    intros name values Hin. destruct (Hall name values Hin) as (A & B & C).
    rewrite !Hsame; done.
  - destruct Hdict as [Hp Hall]. split; [rewrite Hsame; done|].
    intros key value Hin. destruct (Hall key value Hin) as (A & B).
    rewrite !Hsame; done.
Qed.

Lemma save_then_reopen_sequential_witness :
  ∃ st2 gname,
    d_info_group_name (data Example.created) = Some gname ∧
    _open_read_only "/scratch/run42.h5" ["1-FindPeaks"; "data"]
      (_save_data (Some "final_result") Example.created).1 = (st2, Ok tt) ∧
    d_backing_file (data st2) =
      Some {| fh_filename := fh_filename Example.run42; fh_mode := ModeR |} ∧
    d_data (data st2) =
      Some {| nh_file := {| fh_filename := fh_filename Example.run42;
                            fh_mode := ModeR |};
              nh_path := nh_path (child Example.peaks_group "data") |} ∧
    labels_stored (data Example.created) (exp st2) ∧
    patterns_stored (data Example.created)
      {| nh_file := Example.run42; nh_path := [gname] |} (exp st2) ∧
    dict_stored (data Example.created)
      {| nh_file := Example.run42; nh_path := [gname] |} (exp st2).
Proof.
  apply (save_then_reopen_sequential Example.created
           (_save_data (Some "final_result") Example.created).1 "final_result"
           Example.run42 (child Example.peaks_group "data")
           ["1-FindPeaks"; "data"] "/scratch/run42.h5").
  - reflexivity.
  - reflexivity.
  - reflexivity.
  - vm_compute. discriminate.
  - intros g [= <-]. vm_compute. discriminate.
  - reflexivity.
  - vm_compute. eexists. reflexivity.
  - apply run_eq. vm_compute. reflexivity.
  - vm_compute. reflexivity.
Defined.





(** ** The settings of the experiment along a setup *)

Section Settings.

Variable c : bool * gmap string string * gmap string string * file_handle.

Local Abbreviation kept := (λ s : State, settings (exp s) = c).

Lemma settings_emit ev : preserves kept (emit ev).
Proof. apply preserves_modify_exp. intros st H. exact H. Qed.

Lemma settings_set_files f : preserves kept (modify_exp (set_files f)).
Proof. apply preserves_modify_exp. intros st H. exact H. Qed.

Lemma settings_modify_data g : preserves kept (modify_data g).
Proof. apply preserves_modify_data. intros st H. exact H. Qed.

Ltac settings_step :=
  lazymatch goal with
  | |- preserves _ (_ ≫= _) => apply preserves_bind; [|intros ?; cbv zeta]
  | |- preserves _ (emit _) => apply settings_emit
  | |- preserves _ _barrier => apply settings_emit
  | |- preserves _ (modify_exp (set_files _)) => apply settings_set_files
  | |- preserves _ (modify_data _) => apply settings_modify_data
  | |- preserves _ get_data => apply preserves_get_data
  | |- preserves _ get_exp => apply preserves_get_exp
  | |- preserves _ (from_option _ _) => apply preserves_from_option
  | |- preserves _ (from_result _) => apply preserves_from_result
  | |- preserves _ (raise _) => apply preserves_raise
  | |- preserves _ (mret _) => apply preserves_ret
  | |- preserves _ (if decide _ then _ else _) => case_decide
  | |- preserves _ (if ?b then _ else _) => destruct b
  | |- preserves _ (match ?x with _ => _ end) => destruct x
  end.

Lemma settings_h5_call op h change : preserves kept (h5_call op h change).
Proof. unfold h5_call. repeat settings_step. Qed.

Lemma settings_open_backing_h5 filename mode :
  preserves kept (__open_backing_h5 filename mode).
Proof. unfold __open_backing_h5, h5py_File. repeat settings_step. Qed.

Lemma settings_create_entries plan key cn :
  preserves kept (__create_entries plan key cn).
Proof.
  unfold __create_entries, create_group, create_dataset, set_attr.
  repeat lazymatch goal with
         | |- preserves _ (h5_call _ _ _) => apply settings_h5_call
         | _ => settings_step
         end.
Qed.

Lemma settings_setup_dataset plan key cn :
  preserves kept (setup_dataset plan key cn).
Proof.
  unfold setup_dataset.
  repeat lazymatch goal with
         | |- preserves _ (__open_backing_h5 _ _) => apply settings_open_backing_h5
         | |- preserves _ (__create_entries _ _ _) => apply settings_create_entries
         | _ => settings_step
         end.
Qed.

End Settings.

Lemma setup_dataset_settings plan key cn st :
  settings (exp (setup_dataset plan key cn st).1) = settings (exp st).
Proof.
  apply (preserves_run (λ s, settings (exp s) = settings (exp st)));
    [apply settings_setup_dataset|reflexivity].
Qed.

(** ** Setting a dataset up *)

(** What a returning [__create_entries] did. *)
Lemma create_entries_ok plan key cn st st' gn g :
  __create_entries plan key cn st = (st', Ok (gn, g)) →
  ∃ g0 bf,
    exp_group_name (exp st) !! key = Some g0 ∧
    d_backing_file (data st) = Some bf ∧
    gn = (if d_has_name_attr (data st) then g0 +:+ "_" +:+ d_name (data st)
          else g0) ∧
    g = {| nh_file := bf; nh_path := [gn] |} ∧
    data st' = set_data (Some (child g "data"))
                 (set_info_group_name (Some g0) (data st)) ∧
    h5_lookup (exp st) (fh_filename bf) [gn] = None ∧
    h5_lookup (exp st) (fh_filename bf) [gn; "data"] = None ∧
    h5_lookup (exp st') (fh_filename bf) [gn] = Some signal_group ∧
    h5_lookup (exp st') (fh_filename bf) [gn; "data"] =
      Some (H5Dataset ∅ (d_shape (data st)) (d_dtype (data st))
              (if is_zero cn then None
               else Some (plan cn (d_shape (data st)) (d_dtype (data st))))
              None) ∧
    (∀ f p, (f, p) ≠ (fh_filename bf, [gn]) →
            (f, p) ≠ (fh_filename bf, [gn; "data"]) →
            h5_lookup (exp st') f p = h5_lookup (exp st) f p).
Proof.
  intros H. unfold __create_entries in H.
  step H as [] s1 Hb1. step H as e s2 He. step H as g0 s3 Hgn.
  step H as [] s4 Hinfo. step H as d s5 Hd. step H as bf s6 Hbf.
  step H as grp s7 Hgrp. step H as [] s8 Ha1. step H as [] s9 Ha2.
  step H as [] s10 Hb2.
  apply bind_ok_inv in H as ([] & s11 & Hif & H).
  step H as [] s12 Hb3. apply ret_ok in H as [-> [= -> ->]].
  apply barrier_state in Hb1 as ->.
  apply modify_data_ok in Hinfo as [Hd4 He4]. simpl in Hd4, Hgn.
  rewrite Hd4 in *. simpl in *.
  set (gn := if d_has_name_attr (data st) then g0 +:+ "_" +:+ d_name (data st)
             else g0) in *.
  assert (Hl4 : ∀ f p, h5_lookup (exp s4) f p = h5_lookup (exp st) f p)
    by (intros; rewrite He4; reflexivity).
  apply create_group_ok in Hgrp as (-> & Hfree & Hnew & Hoth7 & Hd7).
  simpl in *.
  apply set_attr_ok in Ha1 as (o1 & Ho1 & _ & Hn8 & Hoth8 & Hd8). simpl in *.
  rewrite Hnew in Ho1. injection Ho1 as <-.
  apply set_attr_ok in Ha2 as (o2 & Ho2 & _ & Hn9 & Hoth9 & Hd9). simpl in *.
  rewrite Hn8 in Ho2. injection Ho2 as <-.
  apply barrier_ok in Hb2 as [Hd10 Hl10]. apply barrier_ok in Hb3 as [Hd12 Hl12].
  assert (Hdata :
    h5_lookup (exp s10) (fh_filename bf) [gn; "data"] = None ∧
    h5_lookup (exp s11) (fh_filename bf) [gn; "data"] =
      Some (H5Dataset ∅ (d_shape (data st)) (d_dtype (data st))
              (if is_zero cn then None
               else Some (plan cn (d_shape (data st)) (d_dtype (data st))))
              None) ∧
    (∀ f p, (f, p) ≠ (fh_filename bf, [gn; "data"]) →
            h5_lookup (exp s11) f p = h5_lookup (exp s10) f p) ∧
    data s11 = set_data (Some (child (child (root bf) gn) "data")) (data s10)).
  { destruct (is_zero cn).
    - step Hif as dset s13 Hnew'.
      apply create_dataset_ok in Hnew' as (-> & Hf & Hn & Ho & Hd13).
      apply modify_data_ok in Hif as [Hd11 He11]. rewrite He11, Hd11, Hd13.
      done.
    - step Hif as [] s13 Hb4. step Hif as [] s14 Hb5.
      step Hif as dset s15 Hnew'.
      apply barrier_ok in Hb4 as [Hd13 Hl13]. apply barrier_ok in Hb5 as [Hd14 Hl14].
      apply create_dataset_ok in Hnew' as (-> & Hf & Hn & Ho & Hd15).
      apply modify_data_ok in Hif as [Hd11 He11]. rewrite He11, Hd11, Hd15.
      simpl in *. rewrite Hl14, Hl13 in Hf. rewrite Hd14, Hd13.
      split; [exact Hf|]. split; [exact Hn|]. split; [|done].
      intros f p Hne. rewrite (Ho f p Hne), Hl14, Hl13. reflexivity. }
  destruct Hdata as (Hf11 & Hn11 & Hoth11 & Hd11).
  exists g0, bf. split; [exact Hgn|]. split; [exact Hbf|].
  split; [reflexivity|]. split; [reflexivity|]. split.
  { rewrite Hd12, Hd11, Hd10, Hd9, Hd8, Hd7, Hd4. reflexivity. }
  split; [by rewrite <- Hl4|]. split.
  { rewrite <- Hl4, <- Hoth7 by congruence. rewrite <- Hoth8 by congruence.
    rewrite <- Hoth9 by congruence. rewrite <- Hl10. exact Hf11. }
  split.
  { rewrite Hl12, Hoth11 by congruence. rewrite Hl10. exact Hn9. }
  split; [by rewrite Hl12|].
  intros f p Hne1 Hne2.
  rewrite Hl12, Hoth11 by exact Hne2.
  rewrite Hl10, Hoth9 by exact Hne1.
  rewrite Hoth8 by exact Hne1. rewrite Hoth7 by exact Hne1. apply Hl4.
Qed.

(** X8.  A returning [__create_entries] adds two objects to the backing
    file and changes nothing else in any file: the group, tagged NXdata
    with the signal named data, and the array [data] in it.  Neither name
    was in use before.  The group is named after the registered group name,
    followed by [_] and the dataset's name when the dataset object has a
    [name] attribute, while [data_info] records the registered name
    alone. *)
Theorem create_entries_effect
    (plan : current_and_next_t → list Z → string → list Z)
    (key : string) (cn : current_and_next_t) (st st' : State)
    (group_name : string) (group : node_handle) :
  __create_entries plan key cn st = (st', Ok (group_name, group)) →
  ∃ registered backing_file,
    exp_group_name (exp st) !! key = Some registered ∧
    d_backing_file (data st) = Some backing_file ∧
    group_name = (if d_has_name_attr (data st)
                  then registered +:+ "_" +:+ d_name (data st)
                  else registered) ∧
    group = child (root backing_file) group_name ∧
    d_info_group_name (data st') = Some registered ∧
    h5_lookup (exp st) (fh_filename backing_file) [group_name] = None ∧
    h5_lookup (exp st) (fh_filename backing_file) [group_name; "data"] = None ∧
    h5_lookup (exp st') (fh_filename backing_file) [group_name] =
      Some signal_group ∧
    is_Some (h5_lookup (exp st') (fh_filename backing_file)
               [group_name; "data"]) ∧
    (∀ f p, (f, p) ≠ (fh_filename backing_file, [group_name]) →
            (f, p) ≠ (fh_filename backing_file, [group_name; "data"]) →
            h5_lookup (exp st') f p = h5_lookup (exp st) f p).
Proof.
  intros H.
  apply create_entries_ok in H
    as (g0 & bf & Hg0 & Hbf & Hgn & Hg & Hd & Hf1 & Hf2 & Hn1 & Hn2 & Hoth).
  exists g0, bf. rewrite Hd, Hn2. repeat (split; [done|]). exact Hoth.
Qed.

Lemma create_entries_effect_witness :
  ∃ registered backing_file,
    exp_group_name (exp Example.opened) !! "Peaks" = Some registered ∧
    d_backing_file (data Example.opened) = Some backing_file ∧
    "1-FindPeaks" = (if d_has_name_attr (data Example.opened)
                     then registered +:+ "_" +:+ d_name (data Example.opened)
                     else registered) ∧
    Example.peaks_group = child (root backing_file) "1-FindPeaks" ∧
    d_info_group_name
      (data (__create_entries Example.plan "Peaks" (CNInt 0)
               Example.opened).1) = Some registered ∧
    h5_lookup (exp Example.opened) (fh_filename backing_file)
      ["1-FindPeaks"] = None ∧
    h5_lookup (exp Example.opened) (fh_filename backing_file)
      ["1-FindPeaks"; "data"] = None ∧
    h5_lookup
      (exp (__create_entries Example.plan "Peaks" (CNInt 0) Example.opened).1)
      (fh_filename backing_file) ["1-FindPeaks"] = Some signal_group ∧
    is_Some
      (h5_lookup
         (exp (__create_entries Example.plan "Peaks" (CNInt 0)
                 Example.opened).1)
         (fh_filename backing_file) ["1-FindPeaks"; "data"]) ∧
    (∀ f p, (f, p) ≠ (fh_filename backing_file, ["1-FindPeaks"]) →
            (f, p) ≠ (fh_filename backing_file, ["1-FindPeaks"; "data"]) →
            h5_lookup
              (exp (__create_entries Example.plan "Peaks" (CNInt 0)
                      Example.opened).1) f p =
            h5_lookup (exp Example.opened) f p).
Proof.
  apply (create_entries_effect Example.plan "Peaks" (CNInt 0) Example.opened).
  apply run_eq. vm_compute. reflexivity.
Defined.

(** The whole effect of the body of the loop of [setup]. *)
Lemma setup_dataset_run
    (plan : current_and_next_t → list Z → string → list Z)
    (key : string) (cn : current_and_next_t) (st : State)
    (filename registered : string) :
  let group_name := if d_has_name_attr (data st)
                    then registered +:+ "_" +:+ d_name (data st)
                    else registered in
  let backing_file := {| fh_filename := filename; fh_mode := ModeW |} in
  let group := {| nh_file := backing_file; nh_path := [group_name] |} in
  let array :=
    H5Dataset ∅ (d_shape (data st)) (d_dtype (data st))
      (if is_zero cn then None
       else Some (plan cn (d_shape (data st)) (d_dtype (data st)))) None in
  exp_filename (exp st) !! key = Some filename →
  exp_group_name (exp st) !! key = Some registered →
  (setup_dataset plan key cn st).2 = Ok tt ∧
  data (setup_dataset plan key cn st).1 =
    set_group (Some group_name) (Some group)
      (set_data (Some (child group "data"))
         (set_info_group_name (Some registered)
            (set_backing_file (Some backing_file) (data st)))) ∧
  ∀ f p,
    h5_lookup (exp (setup_dataset plan key cn st).1) f p =
    if decide (f = filename) then
      if decide (p = []) then Some (H5Group ∅)
      else if decide (p = [group_name]) then Some signal_group
      else if decide (p = [group_name; "data"]) then Some array
      else None
    else h5_lookup (exp st) f p.
Proof.
  intros gname bf group array Hfile Hgroup. unfold setup_dataset.
  set (opening :=
    {| exp := set_trace (trace (exp st) ++ [Barrier; Call OpOpen; Barrier])
                (set_files (<[filename := new_file]> (files (exp st))) (exp st));
       data := data st |}).
  set (opened :=
    {| exp := exp opening; data := set_backing_file (Some bf) (data st) |}).
  assert (Hopen : __open_backing_h5 filename ModeW st = (opening, Ok bf)).
  { destruct st as [e d]. unfold __open_backing_h5, h5py_File. unfold_monad.
    simpl. unfold opening, set_trace, set_files. simpl.
    destruct (mpi e); simpl; rewrite <- ?app_assoc; reflexivity. }
  assert (Hcreate : (__create_entries plan key cn opened).2 =
                    Ok (gname, {| nh_file := bf; nh_path := [gname] |})).
  { apply (create_entries_returns plan key cn opened registered bf new_file ∅);
      simpl; try done.
    - apply lookup_insert_eq.
    - unfold new_file. apply lookup_singleton_ne. done. }
  apply run_eq in Hcreate.
  rewrite (bind_run get_exp _ st st (exp st) eq_refl).
  rewrite (bind_run (from_option KeyError _) _ st st filename)
    by (rewrite Hfile; reflexivity).
  rewrite (bind_run _ _ _ _ _ Hopen).
  rewrite (bind_run (modify_data _) _ opening opened tt eq_refl).
  rewrite (bind_run _ _ _ _ _ Hcreate).
  apply create_entries_ok in Hcreate
    as (g0 & bf' & Hg0 & Hbf & _ & _ & Hd & _ & _ & Hn1 & Hn2 & Hoth).
  simpl in Hg0, Hbf. injection Hbf as <-.
  assert (g0 = registered) as -> by congruence.
  unfold modify_data. simpl. split; [reflexivity|]. split.
  { rewrite Hd. reflexivity. }
  intros f p. simpl in Hn1, Hn2, Hoth.
  destruct (decide (p = [gname])) as [->|Hp1].
  { case_decide as Hf.
    - subst f. rewrite decide_False by done. exact Hn1.
    - rewrite Hoth by congruence. unfold h5_lookup. simpl.
      rewrite lookup_insert_ne by done. reflexivity. }
  destruct (decide (p = [gname; "data"])) as [->|Hp2].
  { case_decide as Hf.
    - subst f. rewrite decide_False by done. exact Hn2.
    - rewrite Hoth by congruence. unfold h5_lookup. simpl.
      rewrite lookup_insert_ne by done. reflexivity. }
  rewrite Hoth by congruence. unfold h5_lookup. simpl.
  case_decide as Hf.
  - subst f. rewrite lookup_insert_eq. simpl. unfold new_file.
    case_decide as Hp0.
    + subst p. apply lookup_singleton_eq.
    + apply lookup_singleton_ne. done.
  - rewrite lookup_insert_ne by done. reflexivity.
Qed.





(** ** The file name of a link *)

Lemma append_cons c s t : String c s +:+ t = String c (s +:+ t).
Proof. reflexivity. Qed.

Lemma append_empty_r s : s +:+ "" = s.
Proof.
  induction s as [|c s IH]; [reflexivity|]. rewrite append_cons, IH. reflexivity.
Qed.

Lemma append_snoc acc c s : (acc +:+ String c "") +:+ s = acc +:+ String c s.
Proof.
  induction acc as [|a acc IH]; [reflexivity|].
  rewrite !append_cons, IH. reflexivity.
Qed.

Lemma has_slash_snoc acc c :
  has_slash (acc +:+ String c "") = has_slash acc || Ascii.eqb c "/".
Proof.
  induction acc as [|a acc IH].
  - simpl. apply orb_false_r.
  - rewrite append_cons. simpl. rewrite IH. apply orb_assoc.
Qed.

Lemma last_segment_plain acc s :
  has_slash s = false → last_segment acc s = acc +:+ s.
Proof.
  revert acc. induction s as [|c s IH]; intros acc H; simpl in *.
  - symmetry. apply append_empty_r.
  - apply orb_false_iff in H as [Hc Hs]. rewrite Hc, IH by exact Hs.
    apply append_snoc.
Qed.

Lemma last_segment_after acc dir base :
  has_slash base = false →
  last_segment acc (dir +:+ "/" +:+ base) = base.
Proof.
  intros H. revert acc. induction dir as [|c dir IH]; intros acc.
  - apply (last_segment_plain "" base H).
  - rewrite append_cons. simpl. destruct (Ascii.eqb c "/"); apply IH.
Qed.

Lemma last_segment_no_slash acc s :
  has_slash acc = false → has_slash (last_segment acc s) = false.
Proof.
  revert acc. induction s as [|c s IH]; intros acc H; simpl; [exact H|].
  destruct (Ascii.eqb c "/") eqn:Hc; apply IH; [reflexivity|].
  rewrite has_slash_snoc, H, Hc. reflexivity.
Qed.

(** X11.  The file name [__add_data_links] puts in a link,
    [filename.split('/')[-1]]: it never has a slash in it, and it is the
    text after the last slash, so the whole name when there is no slash. *)
Theorem split_last_base (dir base : string) :
  has_slash base = false →
  split_last (dir +:+ "/" +:+ base) = base ∧
  split_last base = base ∧
  has_slash (split_last dir) = false.
Proof.
  intros H. split; [apply last_segment_after, H|].
  split; [apply (last_segment_plain "" base H)|].
  apply last_segment_no_slash. reflexivity.
Qed.

Lemma split_last_base_witness :
  split_last ("/scratch/runs" +:+ "/" +:+ "run42.h5") = "run42.h5" ∧
  split_last "run42.h5" = "run42.h5" ∧
  has_slash (split_last "/scratch/runs") = false.
Proof. apply split_last_base. reflexivity. Defined.

(** ** Saving and linking a second time *)

Lemma close_file_remove st :
  d_remove (data (_close_file st).1) = d_remove (data st).
Proof.
  rewrite close_file_unfold.
  destruct (d_backing_file (data st)); [|done].
  destruct (close_faults (exp st)) as [|[] rest]; done.
Qed.

Lemma save_data_remove lt st st1 r :
  _save_data lt st = (st1, Ok r) → d_remove (data st1) = d_remove (data st).
Proof.
  intros Hrun. unfold _save_data in Hrun.
  step Hrun as [] s1 Hb1. apply barrier_state in Hb1 as ->.
  step Hrun as d s2 Hd. simpl in Hrun.
  step Hrun as skip s3 Hskip.
  assert (s3 = after_barrier st) as ->.
  { destruct (d_remove (data st)); [by apply ret_ok in Hskip as [-> _]|].
    step Hskip as h s4 Hh. by apply ret_ok in Hskip as [-> _]. }
  destruct (if skip then None else lt) as [l|].
  - step Hrun as [] s4 Hlink.
    pose proof (add_data_links_data l (after_barrier st)) as Hd4.
    rewrite Hlink in Hd4. simpl in Hd4.
    step Hrun as d' s5 Hd'. step Hrun as h' s6 Hh'. step Hrun as dset s7 Hdset.
    step Hrun as [] s8 Hclose. step Hrun as [] s9 Hb2.
    apply ret_ok in Hrun as [-> _]. apply barrier_ok in Hb2 as [-> _].
    pose proof (close_file_remove s4) as Hc. rewrite Hclose in Hc. simpl in Hc.
    rewrite Hc, Hd4. reflexivity.
  - step Hrun as [] s4 Hclose. apply ret_ok in Hrun as [-> _].
    pose proof (close_file_remove (after_barrier st)) as Hc.
    rewrite Hclose in Hc. exact Hc.
Qed.



(** ** Linking a second time *)

Lemma output_data_patterns_fresh entry st st' :
  __output_data_patterns entry st = (st', Ok tt) →
  h5_lookup (exp st) (fh_filename (nh_file entry)) (nh_path entry ++ ["patterns"]) =
    None.
Proof.
  intros H. unfold __output_data_patterns in H.
  step H as [] s1 Hb1. step H as d s2 Hd. step H as pg s3 Hpg.
  apply barrier_ok in Hb1 as [_ Hl1].
  apply create_group_ok in Hpg as (_ & Hfree & _). rewrite <- Hl1. exact Hfree.
Qed.

(** After a linking that returned, a state with the same dataset object and
    the same files cannot be linked. *)
Lemma add_data_links_again first again st st1 st' :
  __add_data_links first st = (st1, Ok tt) →
  data st' = data st1 →
  (∀ f p, h5_lookup (exp st') f p = h5_lookup (exp st1) f p) →
  is_ok (__add_data_links again st').2 = false.
Proof.
  intros H1 Hdata Hfiles.
  destruct (__add_data_links again st') as [st2 [[]|e]] eqn:H2; [|reflexivity].
  exfalso.
  apply add_data_links_ok in H1
    as (bf & gname & s & Hbf & Hgname & _ & Hmeta & Hd1 & G & _).
  apply add_data_links_ok in H2
    as (bf' & gname' & s' & Hbf' & Hgname' & _ & Hmeta' & _).
  rewrite Hdata, Hd1 in Hbf', Hgname'.
  assert (bf' = bf) as -> by congruence.
  assert (gname' = gname) as -> by congruence.
  apply output_metadata_ok in Hmeta as (_ & _ & _ & [Hpat _] & _).
  unfold __output_metadata in Hmeta'.
  step Hmeta' as [] sa Hlab. step Hmeta' as [] sb Hpat'.
  apply output_axis_labels_ok in Hlab as (_ & K & _).
  apply output_data_patterns_fresh in Hpat'. simpl in *.
  assert (Hthere : is_Some (h5_lookup (exp st') (fh_filename bf)
                              [gname; "patterns"])).
  { rewrite Hfiles. apply G. rewrite Hpat. done. }
  rewrite K in Hpat'.
  - change (h5_lookup (exp st') (fh_filename bf) [gname; "patterns"] = None)
      in Hpat'.
    rewrite Hpat' in Hthere. destruct Hthere as [? [=]].
  - unfold at_node. simpl. discriminate.
  - exact Hthere.
Qed.

(** X13.  Linking is done once.  After an [__add_data_links] that returned,
    any further [__add_data_links] on the same dataset raises, whatever the
    link type: the metadata of the first call is in the backing file, and
    the second call cannot create the group [patterns] again. *)
Theorem add_data_links_once (st st1 : State) (first again : string) :
  __add_data_links first st = (st1, Ok tt) →
  is_ok (__add_data_links again st1).2 = false.
Proof.
  intros H. apply (add_data_links_again first again st st1 st1 H); done.
Qed.

Lemma add_data_links_once_witness :
  is_ok (__add_data_links "intermediate"
           (__add_data_links "final_result" Example.created).1).2 = false.
Proof.
  apply (add_data_links_once Example.created _ "final_result" "intermediate").
  apply run_eq. vm_compute. reflexivity.
Defined.

(** ** A dataset object with a [name] attribute *)

Lemma append_longer g c s : g ≠ g +:+ String c s.
Proof.
  induction g as [|a g IH]; [discriminate|].
  rewrite append_cons. intros [= H]. exact (IH H).
Qed.

Lemma h5_getitem_missing h p q st :
  is_Some (h5_lookup (exp st) (fh_filename h) q) →
  h5_lookup (exp st) (fh_filename h) p = None →
  h5_getitem h p st = (st, Raise KeyError).
Proof.
  unfold h5_getitem, h5_lookup. unfold_monad.
  destruct (files (exp st) !! fh_filename h) as [c|]; simpl; [|by intros [? ?]].
  intros _ ->. reflexivity.
Qed.



(** ** [setup], over all the output datasets *)

Lemma setup_body_dataset plan key l count cn st :
  l !! count = Some cn →
  setup_body plan key l count st = setup_dataset plan key cn st.
Proof.
  intros H. unfold setup_body, setup_dataset. rewrite H.
  unfold mbind, M_bind, get_exp.
  destruct (from_option KeyError (exp_filename (exp st) !! key) st)
    as [s1 [filename|x]]; [|reflexivity].
  destruct (__open_backing_h5 filename ModeW s1) as [s2 [bf|x]]; reflexivity.
Qed.

Lemma backing_files_settings e e' out_data :
  settings e' = settings e → backing_files e' out_data = backing_files e out_data.
Proof.
  unfold settings, backing_files. intros [= _ _ H _]. rewrite H. reflexivity.
Qed.

Lemma setup_loop_ok plan out_data l count e :
  (∀ key d, (key, d) ∈ out_data →
     is_Some (exp_filename e !! key) ∧ is_Some (exp_group_name e !! key)) →
  NoDup (backing_files e out_data) →
  (count + length out_data ≤ length l)%nat →
  ∃ e' out',
    setup_loop plan out_data l count e = (e', out', Ok tt) ∧
    settings e' = settings e ∧
    (∀ f, f ∉ backing_files e out_data →
          ∀ p, h5_lookup e' f p = h5_lookup e f p) ∧
    ∀ i key d, out_data !! i = Some (key, d) →
      ∃ filename group_name cn,
        exp_filename e !! key = Some filename ∧
        exp_group_name e !! key = Some group_name ∧
        l !! (count + i) = Some cn ∧
        out' !! i = Some (key, dataset_handles filename group_name d) ∧
        ∀ p, h5_lookup e' filename p = dataset_layout plan cn group_name d p.
Proof.
  revert count e. induction out_data as [|[key d] rest IH]; intros count e Hreg Hnd Hlen.
  - exists e, []. split; [reflexivity|]. split; [reflexivity|].
    split; [done|]. intros i key d Hi. rewrite lookup_nil in Hi. discriminate.
  - destruct (Hreg key d) as [[filename Hf] [gname Hg]]; [left|].
    simpl in Hlen.
    destruct (lookup_lt_is_Some_2 l count) as [cn Hcn]; [lia|].
    pose proof (setup_dataset_run plan key cn {| exp := e; data := d |}
                  filename gname Hf Hg) as (Hr & Hd & Hl).
    pose proof (setup_dataset_settings plan key cn {| exp := e; data := d |})
      as Hset.
    simpl in Hd, Hl, Hset.
    rewrite <- (setup_body_dataset plan key l count cn) in Hr, Hd, Hl, Hset
      by exact Hcn.
    unfold backing_files in Hnd. simpl in Hnd. rewrite Hf in Hnd. simpl in Hnd.
    apply NoDup_cons in Hnd as [Hfresh Hnd].
    simpl.
    destruct (setup_body plan key l count {| exp := e; data := d |})
      as [st [[]|x]]; simpl in *; [|discriminate].
    destruct (IH (S count) (exp st)) as (e' & out' & Hrun & Hset' & Hoth & Hall).
    { intros k d' Hin. unfold settings in Hset. injection Hset as _ -> -> _.
      apply (Hreg k d'). by right. }
    { rewrite (backing_files_settings e (exp st)) by exact Hset. exact Hnd. }
    { lia. }
    rewrite (backing_files_settings e (exp st)) in Hoth by exact Hset.
    rewrite Hrun. exists e', ((key, data st) :: out').
    split; [reflexivity|]. split; [congruence|]. split.
    { intros f Hnot p. unfold backing_files in Hnot. simpl in Hnot.
      rewrite Hf in Hnot. simpl in Hnot.
      apply not_elem_of_cons in Hnot as [Hne Hnot].
      rewrite Hoth by exact Hnot. rewrite Hl, decide_False by exact Hne.
      reflexivity. }
    intros [|i] k d' Hi; simpl in Hi.
    + injection Hi as <- <-. exists filename, gname, cn.
      split; [exact Hf|]. split; [exact Hg|].
      split; [by rewrite Nat.add_0_r|]. split; [simpl; by rewrite Hd|].
      intros p. rewrite Hoth by exact Hfresh.
      rewrite Hl, decide_True by done. reflexivity.
    + destruct (Hall i k d' Hi) as (fn & gn & cn' & Hfn & Hgn & Hcn' & Hout & Hlay).
      exists fn, gn, cn'. unfold settings in Hset. injection Hset as _ Hgs Hfs _.
      rewrite Hfs in Hfn. rewrite Hgs in Hgn.
      split; [exact Hfn|]. split; [exact Hgn|].
      split; [by rewrite <- Nat.add_succ_comm|]. split; [exact Hout|exact Hlay].
Qed.



(** ** Nothing is removed *)

Lemma h5_create_grows parent name o c c' p :
  h5_create parent name o c = Ok c' → is_Some (c !! p) → is_Some (c' !! p).
Proof.
  intros H Hp. apply h5_create_ok in H as [_ ->].
  apply lookup_insert_is_Some'. by right.
Qed.

Lemma h5_require_grows parent name c c' p :
  h5_require parent name c = Ok c' → is_Some (c !! p) → is_Some (c' !! p).
Proof.
  intros H Hp. apply h5_require_ok in H as [(a & _ & ->)|[_ ->]]; [exact Hp|].
  apply lookup_insert_is_Some'. by right.
Qed.

Lemma h5_attr_grows q key v c c' p :
  h5_attr q key v c = Ok c' → is_Some (c !! p) → is_Some (c' !! p).
Proof.
  intros H Hp.
  apply h5_attr_ok in H as [(a & _ & ->)|(a & sh & dt & ch & ct & _ & ->)];
    apply lookup_insert_is_Some'; by right.
Qed.

Lemma h5_assign_grows q arr c c' p :
  h5_assign q arr c = Ok c' → is_Some (c !! p) → is_Some (c' !! p).
Proof.
  intros H Hp. apply h5_assign_ok in H as (a & dt & ch & ct & _ & ->).
  apply lookup_insert_is_Some'. by right.
Qed.

Section Grows.

Variable st0 : State.

Local Abbreviation held := (grows st0).

Lemma grows_modify_exp f :
  (∀ e, files (f e) = files e) → preserves held (modify_exp f).
Proof.
  intros Hf. apply preserves_modify_exp. intros st H fn p Hsome.
  unfold h5_lookup. simpl. rewrite Hf. apply H, Hsome.
Qed.

Lemma grows_emit ev : preserves held (emit ev).
Proof. apply grows_modify_exp. reflexivity. Qed.

Lemma grows_modify_data g : preserves held (modify_data g).
Proof. apply preserves_modify_data. intros st H. exact H. Qed.

Lemma grows_h5_call op h change :
  (∀ c c' p, change c = Ok c' → is_Some (c !! p) → is_Some (c' !! p)) →
  preserves held (h5_call op h change).
Proof.
  intros Hch [e d] H. unfold h5_call. unfold_monad. simpl.
  assert (Htrace : ∀ t, grows st0 {| exp := set_trace t e; data := d |})
    by (intros t; exact H).
  case_decide; simpl; [apply Htrace|].
  destruct (files e !! fh_filename h) as [c|] eqn:Hc; simpl; [|apply Htrace].
  destruct (change c) as [c'|x] eqn:Hc'; simpl; [|apply Htrace].
  intros f p Hsome. specialize (H f p Hsome). unfold h5_lookup in *. simpl in *.
  destruct (decide (f = fh_filename h)) as [->|Hne].
  - rewrite lookup_insert_eq. simpl. rewrite Hc in H. simpl in H.
    apply (Hch c c' p Hc' H).
  - rewrite lookup_insert_ne by done. exact H.
Qed.

Lemma grows_create_group op parent name :
  preserves held (create_group op parent name).
Proof.
  apply preserves_bind; [|intros _; apply preserves_ret].
  apply grows_h5_call. intros c c' p. apply h5_create_grows.
Qed.

Lemma grows_require_group op parent name :
  preserves held (require_group op parent name).
Proof.
  apply preserves_bind; [|intros _; apply preserves_ret].
  apply grows_h5_call. intros c c' p. apply h5_require_grows.
Qed.

Lemma grows_create_dataset op parent name sh dt ch ct :
  preserves held (create_dataset op parent name sh dt ch ct).
Proof.
  apply preserves_bind; [|intros _; apply preserves_ret].
  apply grows_h5_call. intros c c' p. apply h5_create_grows.
Qed.

Lemma grows_set_attr op n key v : preserves held (set_attr op n key v).
Proof. apply grows_h5_call. intros c c' p. apply h5_attr_grows. Qed.

Lemma grows_assign op n arr : preserves held (assign op n arr).
Proof. apply grows_h5_call. intros c c' p. apply h5_assign_grows. Qed.

Lemma grows_set_link op parent name fn tgt :
  preserves held (set_link op parent name fn tgt).
Proof. apply grows_h5_call. intros c c' p. apply h5_create_grows. Qed.

Lemma grows_h5_getitem h p : preserves held (h5_getitem h p).
Proof.
  unfold h5_getitem.
  apply preserves_bind; [apply preserves_get_exp|intros e].
  apply preserves_bind; [apply preserves_from_option|intros c].
  destruct (c !! p); [apply preserves_ret|apply preserves_raise].
Qed.

Lemma grows_h5_close h : preserves held (h5_close h).
Proof.
  unfold h5_close.
  apply preserves_bind; [apply grows_emit|intros _].
  apply preserves_bind; [apply preserves_get_exp|intros e].
  destruct (close_faults e) as [|[] rest].
  - apply preserves_ret.
  - apply preserves_bind; [|intros _; apply preserves_raise].
    apply grows_modify_exp. reflexivity.
  - apply grows_modify_exp. reflexivity.
Qed.

Ltac grows_step :=
  lazymatch goal with
  | |- preserves _ (_ ≫= _) => apply preserves_bind; [|intros ?; cbv zeta]
  | |- preserves _ (try_except _ _) => apply preserves_try_except
  | |- preserves _ (create_group _ _ _) => apply grows_create_group
  | |- preserves _ (require_group _ _ _) => apply grows_require_group
  | |- preserves _ (create_dataset _ _ _ _ _ _ _) => apply grows_create_dataset
  | |- preserves _ (create_dataset_from _ _ _ _) =>
      unfold create_dataset_from; apply grows_create_dataset
  | |- preserves _ (set_attr _ _ _ _) => apply grows_set_attr
  | |- preserves _ (assign _ _ _) => apply grows_assign
  | |- preserves _ (set_link _ _ _ _ _) => apply grows_set_link
  | |- preserves _ (h5_getitem _ _) => apply grows_h5_getitem
  | |- preserves _ (h5_close _) => apply grows_h5_close
  | |- preserves _ (emit _) => apply grows_emit
  | |- preserves _ _barrier => apply grows_emit
  | |- preserves _ (modify_data _) => apply grows_modify_data
  | |- preserves _ get_data => apply preserves_get_data
  | |- preserves _ get_exp => apply preserves_get_exp
  | |- preserves _ (from_option _ _) => apply preserves_from_option
  | |- preserves _ (raise _) => apply preserves_raise
  | |- preserves _ (mret _) => apply preserves_ret
  | |- preserves _ (if decide _ then _ else _) => case_decide
  | |- preserves _ (if ?b then _ else _) => destruct b
  | |- preserves _ (match ?x with _ => _ end) => destruct x
  end.

Lemma grows_create_entries plan key cn :
  preserves held (__create_entries plan key cn).
Proof. unfold __create_entries. repeat grows_step. Qed.

Lemma grows_axis_labels_loop entry labels count axes :
  preserves held (axis_labels_loop entry labels count axes).
Proof.
  revert count axes. induction labels as [|[name units] rest IH]; intros count axes.
  - apply preserves_ret.
  - simpl.
    repeat lazymatch goal with
           | |- preserves _ (axis_labels_loop _ _ _ _) => apply IH
           | _ => grows_step
           end.
Qed.

Lemma grows_data_patterns_loop entry patterns :
  preserves held (data_patterns_loop entry patterns).
Proof.
  induction patterns as [|[name values] rest IH].
  - apply preserves_ret.
  - simpl.
    repeat lazymatch goal with
           | |- preserves _ (data_patterns_loop _ _) => apply IH
           | _ => grows_step
           end.
Qed.

Lemma grows_metadata_dict_loop entry meta :
  preserves held (metadata_dict_loop entry meta).
Proof.
  induction meta as [|[name value] rest IH].
  - apply preserves_ret.
  - simpl.
    repeat lazymatch goal with
           | |- preserves _ (metadata_dict_loop _ _) => apply IH
           | _ => grows_step
           end.
Qed.

Ltac grows_method :=
  repeat lazymatch goal with
         | |- preserves _ (axis_labels_loop _ _ _ _) => apply grows_axis_labels_loop
         | |- preserves _ (data_patterns_loop _ _) => apply grows_data_patterns_loop
         | |- preserves _ (metadata_dict_loop _ _) => apply grows_metadata_dict_loop
         | _ => grows_step
         end.

Lemma grows_output_metadata entry : preserves held (__output_metadata entry).
Proof.
  unfold __output_metadata, __output_axis_labels, __output_data_patterns,
    __output_metadata_dict.
  grows_method.
Qed.

Lemma grows_add_data_links linkType : preserves held (__add_data_links linkType).
Proof.
  unfold __add_data_links.
  repeat lazymatch goal with
         | |- preserves _ (__output_metadata _) => apply grows_output_metadata
         | _ => grows_step
         end.
Qed.

Lemma grows_close_file : preserves held _close_file.
Proof. unfold _close_file. grows_method. Qed.

Lemma grows_save_data link_type : preserves held (_save_data link_type).
Proof.
  unfold _save_data.
  repeat lazymatch goal with
         | |- preserves _ (__add_data_links _) => apply grows_add_data_links
         | |- preserves _ _close_file => apply grows_close_file
         | _ => grows_step
         end.
Qed.

End Grows.

(** X16.  Saving removes nothing.  Along [__create_entries], the metadata
    writes, [__add_data_links], [_close_file] and [_save_data], every
    object that is in a file stays in that file, whether the method returns
    or raises part of the way. *)
Theorem saving_removes_nothing
    (plan : current_and_next_t → list Z → string → list Z) (st : State) :
  (∀ key cn, grows st (__create_entries plan key cn st).1) ∧
  (∀ entry, grows st (__output_metadata entry st).1) ∧
  (∀ linkType, grows st (__add_data_links linkType st).1) ∧
  grows st (_close_file st).1 ∧
  (∀ link_type, grows st (_save_data link_type st).1).
Proof.
  repeat split; intros;
    apply (preserves_run (grows st)); try apply grows_refl.
  - apply grows_create_entries.
  - apply grows_output_metadata.
  - apply grows_add_data_links.
  - apply grows_close_file.
  - apply grows_save_data.
Qed.

(** ** The name of a link is new *)

Lemma grows_none st st' f p :
  grows st st' → h5_lookup (exp st') f p = None → h5_lookup (exp st) f p = None.
Proof.
  intros G H. destruct (h5_lookup (exp st) f p) as [o|] eqn:E; [|reflexivity].
  destruct (G f p) as [o' Ho']; [by rewrite E|]. congruence.
Qed.

(** X17.  A link never replaces an entry of the master file.  When
    [__add_data_links] returns, the name it gave the link was not in use
    before the call: final_result_<name> in the entry group, or
    <group_name>_<name> in the group [intermediate]. *)
Theorem add_data_links_name_free (st st' : State) (linkType : string) :
  __add_data_links linkType st = (st', Ok tt) →
  ∃ group_name,
    d_group_name (data st) = Some group_name ∧
    let nxs := fh_filename (nxs_file (exp st)) in
    (linkType = "final_result" →
     h5_lookup (exp st) nxs ["entry"; "final_result_" +:+ d_name (data st)] =
       None) ∧
    (linkType = "intermediate" →
     h5_lookup (exp st) nxs
       ["entry"; "intermediate"; group_name +:+ "_" +:+ d_name (data st)] =
       None).
Proof.
  intros H. pose proof (add_data_links_ok_kind _ _ _ H) as Hkind.
  unfold __add_data_links in H.
  step H as [] s1 Hb1. apply barrier_state in Hb1 as ->.
  step H as e s2 He.
  step H as entry s3 Hentry. apply h5_getitem_ok in Hentry as (-> & -> & _).
  step H as d s4 Hd.
  step H as gname s5 Hgname.
  step H as bf s6 Hbf.
  step H as target s7 Htarget.
  apply h5_getitem_ok in Htarget as (-> & -> & Htarget).
  step H as [] s8 Hmeta.
  step H as d' s9 Hd'.
  step H as bf' s10 Hbf'.
  apply bind_ok_inv in H as ([] & s11 & Hif & Hb2).
  pose proof (output_metadata_data {| nh_file := bf; nh_path := [gname] |}
                (after_barrier st)) as Hdata.
  pose proof (preserves_run _ _ _
                (grows_output_metadata (after_barrier st)
                   {| nh_file := bf; nh_path := [gname] |})
                (grows_refl _)) as G.
  rewrite Hmeta in Hdata, G. simpl in *.
  assert (G8 : grows st s8) by exact G.
  rewrite Hdata in Hif.
  destruct Hkind as [-> | ->].
  - rewrite decide_True in Hif by done.
    step Hif as gn s12 Hgn.
    apply set_link_ok in Hif as (Hfree & _). simpl in Hfree.
    exists gn. split; [exact Hgn|]. split; [|discriminate].
    intros _. apply (grows_none _ _ _ _ G8 Hfree).
  - rewrite decide_False, decide_True in Hif by done.
    step Hif as gn s12 Hgn.
    step Hif as coll s13 Hreq.
    step Hif as [] s14 Htag.
    step Hif as gn' s15 Hgn'.
    pose proof (require_group_keeps _ _ _ _ _ _ Hreq) as K1.
    pose proof (set_attr_grows _ _ _ _ _ _ Htag) as G2.
    apply require_group_ok in Hreq as (-> & _).
    apply set_link_ok in Hif as (Hfree & _). simpl in Hfree.
    exists gn. split; [exact Hgn|]. split; [discriminate|].
    intros _.
    apply (grows_none _ _ _ _ G8), (grows_none _ _ _ _ (keeps_grows _ _ K1)),
      (grows_none _ _ _ _ G2), Hfree.
Qed.

Lemma add_data_links_name_free_witness :
  h5_lookup (exp Example.created) "savu.nxs" ["entry"; "final_result_Peaks"] =
    None.
Proof.
  destruct (add_data_links_name_free Example.created
              (__add_data_links "final_result" Example.created).1
              "final_result") as (gn & _ & H & _).
  - apply run_eq. vm_compute. reflexivity.
  - exact (H eq_refl).
Defined.
